(** * Credit calculator: day spans, proration and credit aggregation

    A shallow embedding of the calculation code of the credit calculator:

    - [CreditCalculatorComponent.calculateCredit] and its private
      [calculateDaysBetween] (src/app/app.ts, the multi-service component
      and the earlier single-service component);
    - [CreditCalculationService.calculateCredit], [calculateItemCredit] and
      its private [calculateDaysBetween] (the credit-calculation service),
      over the records of src/app/models/invoice.model.ts.

    Modelling conventions.

    - A JavaScript [Date] is a [JsDate]: its time value, the integer number
      of milliseconds since the epoch ([getTime()]), or [InvalidDate], whose
      time value is [NaN].
    - A date typed into the form is a [string] in the source; the empty
      string is falsy and every other string goes through [new Date(...)].
      Such a field is a [DateString], an [option JsDate]: [None] is the
      empty string, [Some d] a string that the [Date] constructor reads as
      the date [d]: [Some (TimeValue t)] for the text of a date,
      [Some InvalidDate] for any other text.
    - A TypeScript [number] is a [number] below: an exact rational, or one
      of the IEEE special values ([NaN], the infinities) that an invalid
      date or a division by zero produces.  Amounts supplied by the caller
      (prices, quantities, tax rates) are finite, a [Q].  The rationals
      leave out the rounding of the doubles of the program: they serve
      for what does not turn on it (which fields a result has and from
      which operations, day counts, which are integers, the order of two
      amounts).  What turns on the rounding, the totals above all, is
      settled in [Binary64], the calculation of the multi-service
      component on [PrimFloat.float], the binary64 doubles themselves.
    - The signals of the component are the fields of a record that every
      method takes and returns; [alert(msg)] appends [msg] to a log.
    - The calendar methods of [Date] ([new Date(year, month, date)],
      [getFullYear], [getMonth], [getDate]) follow the abstract operations
      of the ECMAScript specification.  The local time zone is a parameter
      [localTZA], one fixed offset from UTC in milliseconds: daylight
      saving and the history of a zone are not modelled.
    - The current time ([new Date()]) is a parameter [now] of the
      functions that read it. *)

From Stdlib Require Import ZArith QArith Qround Qfield List String Bool Lia Permutation.
From Stdlib Require Import Floats.
Import ListNotations.

Local Open Scope Z_scope.

(** ** Numbers *)

Module JsNumber.

(** Exact rationals extended with the special values of IEEE arithmetic.
    The sign of a zero is not tracked: every zero divisor of this program
    is the result of adding [1] to [-1], which is [+0].  An operation on
    two rationals is the exact one, where the program rounds its result
    to a double. *)
Inductive number : Type :=
| NaN
| NegInf
| Fin (q : Q)
| PosInf.

Definition of_Z (z : Z) : number := Fin (inject_Z z).

Definition is_zero (q : Q) : bool := Qnum q =? 0.
Definition is_neg (q : Q) : bool := Qnum q <? 0.

Definition opp (x : number) : number :=
  match x with
  | NaN => NaN
  | NegInf => PosInf
  | Fin q => Fin (- q)%Q
  | PosInf => NegInf
  end.

(** [x + y] *)
Definition add (x y : number) : number :=
  match x, y with
  | NaN, _ | _, NaN => NaN
  | Fin a, Fin b => Fin (a + b)%Q
  | PosInf, NegInf | NegInf, PosInf => NaN
  | PosInf, _ | _, PosInf => PosInf
  | NegInf, _ | _, NegInf => NegInf
  end.

(** [x - y] *)
Definition sub (x y : number) : number := add x (opp y).

(** [x * y] *)
Definition mul (x y : number) : number :=
  match x, y with
  | NaN, _ | _, NaN => NaN
  | Fin a, Fin b => Fin (a * b)%Q
  | Fin a, (PosInf | NegInf) as i | (PosInf | NegInf) as i, Fin a =>
      if is_zero a then NaN else if is_neg a then opp i else i
  | PosInf, PosInf | NegInf, NegInf => PosInf
  | PosInf, NegInf | NegInf, PosInf => NegInf
  end.

(** [x / y] *)
Definition div (x y : number) : number :=
  match x, y with
  | NaN, _ | _, NaN => NaN
  | Fin a, Fin b =>
      if is_zero b
      then (if is_zero a then NaN else if is_neg a then NegInf else PosInf)
      else Fin (a / b)%Q
  | Fin _, (PosInf | NegInf) => Fin 0%Q
  | (PosInf | NegInf) as i, Fin b => if is_neg b then opp i else i
  | (PosInf | NegInf), (PosInf | NegInf) => NaN
  end.

(** [x <= y]; every comparison with [NaN] is false. *)
Definition leb (x y : number) : bool :=
  match x, y with
  | NaN, _ | _, NaN => false
  | NegInf, _ => true
  | _, PosInf => true
  | Fin a, Fin b => Qle_bool a b
  | _, _ => false
  end.

(** [x < y] *)
Definition ltb (x y : number) : bool :=
  match x, y with
  | NaN, _ | _, NaN => false
  | Fin a, Fin b => negb (Qle_bool b a)
  | NegInf, NegInf | PosInf, PosInf => false
  | NegInf, _ => true
  | _, PosInf => true
  | _, _ => false
  end.

(** [x >= y] and [x > y] *)
Definition geb (x y : number) : bool := leb y x.
Definition gtb (x y : number) : bool := ltb y x.

(** [Math.max(x, y)] *)
Definition Math_max (x y : number) : number :=
  match x, y with
  | NaN, _ | _, NaN => NaN
  | _, _ => if leb x y then y else x
  end.

(** [Math.ceil(x)] *)
Definition Math_ceil (x : number) : number :=
  match x with
  | Fin q => of_Z (Qceiling q)
  | other => other
  end.

(** Equality of numbers as values: rationals up to [Qeq]. *)
Definition eqv (x y : number) : Prop :=
  match x, y with
  | NaN, NaN | NegInf, NegInf | PosInf, PosInf => True
  | Fin a, Fin b => (a == b)%Q
  | _, _ => False
  end.

(** The rational a finite number stands for. *)
Definition toQ (x : number) : Q :=
  match x with Fin q => q | _ => 0%Q end.

Definition finite (x : number) : Prop :=
  match x with Fin _ => True | _ => False end.

(** [xs.reduce((sum, x) => sum + x, 0)], also the shape of a
    [total += x] loop started at [0]. *)
Definition sum (xs : list number) : number :=
  fold_left add xs (of_Z 0).

(** [ToIntegerOrInfinity] of a finite number: truncation towards zero. *)
Definition Qtruncate (q : Q) : Z :=
  if Qnum q <? 0 then Qceiling q else Qfloor q.

(** [x % y]: the remainder of the truncated division, with the sign of
    the dividend. *)
Definition rem (x y : number) : number :=
  match x, y with
  | NaN, _ | _, NaN => NaN
  | (PosInf | NegInf), _ => NaN
  | Fin a, (PosInf | NegInf) => Fin a
  | Fin a, Fin b =>
      if is_zero b then NaN
      else Fin (a - b * inject_Z (Qtruncate (a / b)))%Q
  end.

(** [x === y] of two numbers. *)
Definition strict_eqb (x y : number) : bool :=
  match x, y with
  | Fin a, Fin b => Qeq_bool a b
  | PosInf, PosInf | NegInf, NegInf => true
  | _, _ => false
  end.

(** [Math.floor(x)] *)
Definition Math_floor (x : number) : number :=
  match x with
  | Fin q => of_Z (Qfloor q)
  | other => other
  end.

End JsNumber.

Import JsNumber.

Declare Scope number_scope.
Delimit Scope number_scope with num.
Bind Scope number_scope with number.
Infix "+" := add : number_scope.
Infix "-" := sub : number_scope.
Infix "*" := mul : number_scope.
Infix "/" := div : number_scope.
Infix "<=?" := leb : number_scope.
Infix "<?" := ltb : number_scope.
Infix ">=?" := geb (at level 70) : number_scope.
Infix ">?" := gtb (at level 70) : number_scope.
Infix "=n=" := eqv (at level 70, no associativity).

(** ** Day-Span Calculator *)

Module DaySpan.

(** A [Date] object. *)
Inductive JsDate : Type :=
| InvalidDate
| TimeValue (t : Z).

(** [d.getTime()] *)
Definition getTime (d : JsDate) : number :=
  match d with
  | InvalidDate => NaN
  | TimeValue t => of_Z t
  end.

(** [new Date(d)] of a [Date]: a copy with the same time value. *)
Definition Date_copy (d : JsDate) : JsDate := d.

(** A date field of the form, a string: [None] is the empty string,
    [Some d] a string that is not empty and that [new Date(...)] reads as
    the date [d], which is [InvalidDate] when the string is not the text
    of a date. *)
Definition DateString : Type := option JsDate.

(** [!s] of such a string. *)
Definition blank (s : DateString) : bool :=
  match s with None => true | Some _ => false end.

(** [new Date(s)] of such a string; [new Date('')] is an invalid date. *)
Definition Date_parse (s : DateString) : JsDate :=
  match s with
  | None => InvalidDate
  | Some d => d
  end.

(** The relational operators on two [Date]s compare their time values. *)
Definition date_ltb (a b : JsDate) : bool := (getTime a <? getTime b)%num.
Definition date_gtb (a b : JsDate) : bool := (getTime a >? getTime b)%num.
Definition date_geb (a b : JsDate) : bool := (getTime a >=? getTime b)%num.

(** [1000 * 3600 * 24] *)
Definition msPerDay : Z := 1000 * 3600 * 24.

(** [calculateDaysBetween(startDate, endDate)]: the three classes carry
    the same private method, text for text.
<<
    const start = new Date(startDate);
    const end = new Date(endDate);
    const timeDiff = end.getTime() - start.getTime();
    return Math.ceil(timeDiff / (1000 * 3600 * 24)) + 1;
>> *)
Definition calculateDaysBetween (startDate endDate : JsDate) : number :=
  let start := Date_copy startDate in
  let end_ := Date_copy endDate in
  let timeDiff := (getTime end_ - getTime start)%num in
  (Math_ceil (timeDiff / of_Z msPerDay) + of_Z 1)%num.

(** The day count of two valid dates, as an integer: the ceiling of the
    exact quotient, plus one. *)
Definition daysBetween (s e : Z) : Z := - ((s - e) / msPerDay) + 1.

(** The calendar day (UTC) a time value falls on, and whether a time
    value is a midnight (UTC). *)
Definition dayOf (t : Z) : Z := t / msPerDay.
Definition atMidnight (t : Z) : Prop := t mod msPerDay = 0.

End DaySpan.

Import DaySpan.

(** ** The [Date] object: calendar fields

    The methods of the service that count the days of a month, a quarter
    or a year go through [new Date(year, month, day)], [getFullYear()],
    [getMonth()] and [getDate()].  These are the abstract operations of
    the ECMAScript specification (Date objects, "Time Values and Time
    Range" to "MakeDate" and "TimeClip"), over integers.  The local time
    zone is a fixed offset from UTC, [localTZA] milliseconds, a parameter
    of every operation that reads or builds local time. *)

Module DateObject.

Definition Day (t : Z) : Z := t / msPerDay.

Definition DaysInYear (y : Z) : Z :=
  if negb (y mod 4 =? 0) then 365
  else if negb (y mod 100 =? 0) then 366
  else if negb (y mod 400 =? 0) then 365
  else 366.

Definition DayFromYear (y : Z) : Z :=
  365 * (y - 1970) + (y - 1969) / 4 - (y - 1901) / 100 + (y - 1601) / 400.

Definition TimeFromYear (y : Z) : Z := msPerDay * DayFromYear y.

(** The year a day number falls in.  The specification asks for the
    largest [y] with [TimeFromYear y <= t]; this computes it from the
    mean length of a year, 146097 / 400 days, which is off by one year at
    most (lemma [YearFromTime_largest]). *)
Definition YearFromDay (d : Z) : Z :=
  let y := 1970 + (400 * d) / 146097 in
  if d <? DayFromYear y then y - 1
  else if DayFromYear (y + 1) <=? d then y + 1
  else y.

Definition YearFromTime (t : Z) : Z := YearFromDay (Day t).

Definition InLeapYear (t : Z) : Z :=
  if DaysInYear (YearFromTime t) =? 366 then 1 else 0.

Definition DayWithinYear (t : Z) : Z := Day t - DayFromYear (YearFromTime t).

Definition MonthFromTime (t : Z) : Z :=
  let d := DayWithinYear t in
  let L := InLeapYear t in
  if d <? 31 then 0
  else if d <? 59 + L then 1
  else if d <? 90 + L then 2
  else if d <? 120 + L then 3
  else if d <? 151 + L then 4
  else if d <? 181 + L then 5
  else if d <? 212 + L then 6
  else if d <? 243 + L then 7
  else if d <? 273 + L then 8
  else if d <? 304 + L then 9
  else if d <? 334 + L then 10
  else 11.

Definition DateFromTime (t : Z) : Z :=
  let d := DayWithinYear t in
  let L := InLeapYear t in
  match MonthFromTime t with
  | 0 => d + 1
  | 1 => d - 30
  | 2 => d - 58 - L
  | 3 => d - 89 - L
  | 4 => d - 119 - L
  | 5 => d - 150 - L
  | 6 => d - 180 - L
  | 7 => d - 211 - L
  | 8 => d - 242 - L
  | 9 => d - 272 - L
  | 10 => d - 303 - L
  | _ => d - 333 - L
  end.

(** The days of a year before its month [mn], [L] being [1] in a leap
    year. *)
Definition daysBeforeMonth (mn L : Z) : Z :=
  match mn with
  | 0 => 0
  | 1 => 31
  | 2 => 59 + L
  | 3 => 90 + L
  | 4 => 120 + L
  | 5 => 151 + L
  | 6 => 181 + L
  | 7 => 212 + L
  | 8 => 243 + L
  | 9 => 273 + L
  | 10 => 304 + L
  | _ => 334 + L
  end.

(** [MakeDay(year, month, date)] of three integers.  The specification
    asks for a time value [t] in year [ym], month [mn], on the first of
    the month; this takes the first instant of that day (lemma
    [MakeDay_first]). *)
Definition MakeDay (year month date : Z) : Z :=
  let ym := year + month / 12 in
  let mn := month mod 12 in
  let L := if DaysInYear ym =? 366 then 1 else 0 in
  let t := msPerDay * (DayFromYear ym + daysBeforeMonth mn L) in
  Day t + date - 1.

Definition MakeDate (day time : Z) : Z := day * msPerDay + time.

(** [TimeClip(time)]: a time value is at most 8.64e15 away from the
    epoch. *)
Definition TimeClip (time : Z) : JsDate :=
  if 8640000000000000 <? Z.abs time then InvalidDate else TimeValue time.

(** A number as an integer, when it is finite. *)
Definition toInteger (x : number) : option Z :=
  match x with
  | Fin q => Some (Qtruncate q)
  | _ => None
  end.

Definition LocalTime (localTZA t : Z) : Z := t + localTZA.
Definition UTC (localTZA t : Z) : Z := t - localTZA.

(** [MakeFullYear(year)]: a year from 0 to 99 stands for a year of the
    twentieth century. *)
Definition MakeFullYear (y : Z) : Z :=
  if (0 <=? y) && (y <=? 99) then 1900 + y else y.

(** [new Date(year, month, date)] *)
Definition Date_ymd (localTZA : Z) (year month date : number) : JsDate :=
  match toInteger year, toInteger month, toInteger date with
  | Some y, Some m, Some dt =>
      let yr := MakeFullYear y in
      let finalDate := MakeDate (MakeDay yr m dt) 0 in
      TimeClip (UTC localTZA finalDate)
  | _, _, _ => InvalidDate
  end.

(** [d.getFullYear()], [d.getMonth()] and [d.getDate()] *)
Definition getFullYear (localTZA : Z) (d : JsDate) : number :=
  match d with
  | InvalidDate => NaN
  | TimeValue t => of_Z (YearFromTime (LocalTime localTZA t))
  end.

Definition getMonth (localTZA : Z) (d : JsDate) : number :=
  match d with
  | InvalidDate => NaN
  | TimeValue t => of_Z (MonthFromTime (LocalTime localTZA t))
  end.

Definition getDate (localTZA : Z) (d : JsDate) : number :=
  match d with
  | InvalidDate => NaN
  | TimeValue t => of_Z (DateFromTime (LocalTime localTZA t))
  end.

(** The length of a month, from [0] for January to [11] for December. *)
Definition monthLength (leap : bool) (month : Z) : Z :=
  match month with
  | 0 => 31
  | 1 => if leap then 29 else 28
  | 2 => 31
  | 3 => 30
  | 4 => 31
  | 5 => 30
  | 6 => 31
  | 7 => 31
  | 8 => 30
  | 9 => 31
  | 10 => 30
  | _ => 31
  end.

End DateObject.

(** ** Credit Calculator: the multi-service component *)

Module Component.

(** [interface ServiceItem] *)
Module ServiceItem.
Record t : Type := mk {
  id : Z;
  serviceName : string;
  invoiceStartDate : DateString;
  invoiceEndDate : DateString;
  pricePaid : Q;
  actualServiceStartDate : DateString
}.
End ServiceItem.

(** [interface CreditCalculation] *)
Module CreditCalculation.
Record t : Type := mk {
  id : Z;
  serviceName : string;
  totalBillingDays : number;
  daysWithoutService : number;
  dailyRate : number;
  creditAmount : number;
  taxOnCredit : number;
  totalCreditWithTax : number
}.
End CreditCalculation.

(** [interface CombinedCreditResult] *)
Module CombinedCreditResult.
Record t : Type := mk {
  services : list CreditCalculation.t;
  totalCreditAmount : number;
  totalTaxOnCredit : number;
  grandTotalWithTax : number
}.
End CombinedCreditResult.

(** The signals of [CreditCalculatorComponent], and the messages shown
    by [alert] so far, latest last. *)
Record t : Type := mk {
  taxRate : Q;
  services : list ServiceItem.t;
  nextServiceId : Z;
  isCalculating : bool;
  calculationResult : option CombinedCreditResult.t;
  alerts : list string
}.

Definition alert (msg : string) (c : t) : t :=
  mk (taxRate c) (services c) (nextServiceId c) (isCalculating c)
     (calculationResult c) (alerts c ++ [msg]).

Definition set_isCalculating (b : bool) (c : t) : t :=
  mk (taxRate c) (services c) (nextServiceId c) b
     (calculationResult c) (alerts c).

Definition set_calculationResult (r : option CombinedCreditResult.t) (c : t) : t :=
  mk (taxRate c) (services c) (nextServiceId c) (isCalculating c)
     r (alerts c).

(** [!s] of a string. *)
Definition empty (s : string) : bool :=
  match s with EmptyString => true | String _ _ => false end.

(** [calculateDaysBetween], the private method of the component. *)
Definition calculateDaysBetween : JsDate -> JsDate -> number :=
  DaySpan.calculateDaysBetween.

(** The first loop of [calculateCredit], lines 134-149: [Some msg] when
    it alerts [msg] and returns, [None] when it runs to its end. *)
Fixpoint validateServices (l : list ServiceItem.t) : option string :=
  match l with
  | [] => None
  | service :: rest =>
      if empty (ServiceItem.serviceName service)
         || blank (ServiceItem.invoiceStartDate service)
         || blank (ServiceItem.invoiceEndDate service)
         || blank (ServiceItem.actualServiceStartDate service)
         || (Fin (ServiceItem.pricePaid service) <=? of_Z 0)%num
      then
        Some ("Please fill in all fields for service: "
              ++ (if empty (ServiceItem.serviceName service)
                  then "Unnamed Service"
                  else ServiceItem.serviceName service))%string
      else
        let invoiceStart := Date_parse (ServiceItem.invoiceStartDate service) in
        let invoiceEnd := Date_parse (ServiceItem.invoiceEndDate service) in
        if date_geb invoiceStart invoiceEnd
        then
          Some ("Invoice end date must be after start date for service: "
                ++ ServiceItem.serviceName service)%string
        else validateServices rest
  end.

(** The variables the second loop updates. *)
Record Totals : Type := mkTotals {
  serviceCalculations : list CreditCalculation.t;
  totalCreditAmount : number;
  totalTaxOnCredit : number
}.

(** The second loop of [calculateCredit], lines 158-208: [inl msg] when
    it alerts [msg] and returns, [inr] of the variables at its end. *)
Fixpoint calculateServices (taxRate : Q) (l : list ServiceItem.t) (acc : Totals)
  : string + Totals :=
  match l with
  | [] => inr acc
  | service :: rest =>
      let invoiceStart := Date_parse (ServiceItem.invoiceStartDate service) in
      let invoiceEnd := Date_parse (ServiceItem.invoiceEndDate service) in
      let serviceStart := Date_parse (ServiceItem.actualServiceStartDate service) in
      if date_ltb serviceStart invoiceStart
      then
        inl ("Service start date for " ++ ServiceItem.serviceName service
             ++ " cannot be before its invoice start date.")%string
      else if date_gtb serviceStart invoiceEnd
      then
        inl ("Service start date for " ++ ServiceItem.serviceName service
             ++ " cannot be after its invoice end date.")%string
      else
        let totalBillingDays := calculateDaysBetween invoiceStart invoiceEnd in
        let daysWithoutService :=
          (calculateDaysBetween invoiceStart serviceStart - of_Z 1)%num in
        let dailyRate := (Fin (ServiceItem.pricePaid service) / totalBillingDays)%num in
        let creditAmount := (dailyRate * Math_max (of_Z 0) daysWithoutService)%num in
        let taxOnCredit := (creditAmount * (Fin taxRate / of_Z 100))%num in
        let totalCreditWithTax := (creditAmount + taxOnCredit)%num in
        let serviceCalculation :=
          CreditCalculation.mk
            (ServiceItem.id service)
            (ServiceItem.serviceName service)
            totalBillingDays
            (Math_max (of_Z 0) daysWithoutService)
            dailyRate
            creditAmount
            taxOnCredit
            totalCreditWithTax in
        calculateServices taxRate rest
          (mkTotals (serviceCalculations acc ++ [serviceCalculation])
                    (totalCreditAmount acc + creditAmount)%num
                    (totalTaxOnCredit acc + taxOnCredit)%num)
  end.

(** [calculateCredit()], lines 127-219. *)
Definition calculateCredit (c : t) : t :=
  if (Z.of_nat (List.length (services c)) =? 0)
  then alert "Please add at least one service to calculate credits." c
  else
    match validateServices (services c) with
    | Some msg => alert msg c
    | None =>
        let c := set_isCalculating true c in
        match calculateServices (taxRate c) (services c)
                                (mkTotals [] (of_Z 0) (of_Z 0)) with
        | inl msg => set_isCalculating false (alert msg c)
        | inr totals =>
            let result :=
              CombinedCreditResult.mk
                (serviceCalculations totals)
                (totalCreditAmount totals)
                (totalTaxOnCredit totals)
                (totalCreditAmount totals + totalTaxOnCredit totals)%num in
            set_isCalculating false (set_calculationResult (Some result) c)
        end
    end.

(** The component as its constructor leaves it, holding the given
    services and tax rate: no result yet, nothing alerted. *)
Definition holding (items : list ServiceItem.t) (taxRate : Q) : t :=
  mk taxRate items 1 false None [].

(** What one calculation on given items comes to: the result it stored,
    or the messages it alerted without storing one. *)
Inductive Outcome : Type :=
| ValidationError (msgs : list string)
| Result (r : CombinedCreditResult.t).

Definition calculate (items : list ServiceItem.t) (taxRate : Q) : Outcome :=
  let c := calculateCredit (holding items taxRate) in
  match calculationResult c with
  | Some r => Result r
  | None => ValidationError (alerts c)
  end.

(** The calculation of one service, as the body of the second loop
    builds it. *)
Definition serviceCalculation (taxRate : Q) (service : ServiceItem.t)
  : CreditCalculation.t :=
  let invoiceStart := Date_parse (ServiceItem.invoiceStartDate service) in
  let invoiceEnd := Date_parse (ServiceItem.invoiceEndDate service) in
  let serviceStart := Date_parse (ServiceItem.actualServiceStartDate service) in
  let totalBillingDays := calculateDaysBetween invoiceStart invoiceEnd in
  let daysWithoutService :=
    (calculateDaysBetween invoiceStart serviceStart - of_Z 1)%num in
  let dailyRate := (Fin (ServiceItem.pricePaid service) / totalBillingDays)%num in
  let creditAmount := (dailyRate * Math_max (of_Z 0) daysWithoutService)%num in
  let taxOnCredit := (creditAmount * (Fin taxRate / of_Z 100))%num in
  let totalCreditWithTax := (creditAmount + taxOnCredit)%num in
  CreditCalculation.mk
    (ServiceItem.id service)
    (ServiceItem.serviceName service)
    totalBillingDays
    (Math_max (of_Z 0) daysWithoutService)
    dailyRate
    creditAmount
    taxOnCredit
    totalCreditWithTax.

(** The five checks of the specification on one item, in its words:
    a required field is missing; the price is not positive; the billing
    period ends on or before its start; service starts before the
    billing period; service starts after the billing period. *)
Definition missingField (s : ServiceItem.t) : Prop :=
  ServiceItem.serviceName s = ""%string
  \/ ServiceItem.invoiceStartDate s = None
  \/ ServiceItem.invoiceEndDate s = None
  \/ ServiceItem.actualServiceStartDate s = None.

Definition priceNotPositive (s : ServiceItem.t) : Prop :=
  (ServiceItem.pricePaid s <= 0)%Q.

Definition periodNotPositive (s : ServiceItem.t) : Prop :=
  exists b e, ServiceItem.invoiceStartDate s = Some (TimeValue b)
           /\ ServiceItem.invoiceEndDate s = Some (TimeValue e) /\ e <= b.

Definition startsBeforePeriod (s : ServiceItem.t) : Prop :=
  exists b a, ServiceItem.invoiceStartDate s = Some (TimeValue b)
           /\ ServiceItem.actualServiceStartDate s = Some (TimeValue a) /\ a < b.

Definition startsAfterPeriod (s : ServiceItem.t) : Prop :=
  exists e a, ServiceItem.invoiceEndDate s = Some (TimeValue e)
           /\ ServiceItem.actualServiceStartDate s = Some (TimeValue a) /\ e < a.

Definition offending (s : ServiceItem.t) : Prop :=
  missingField s \/ priceNotPositive s \/ periodNotPositive s
  \/ startsBeforePeriod s \/ startsAfterPeriod s.

(** An item that passes the five checks. *)
Definition valid (s : ServiceItem.t) : Prop := ~ offending s.

(** What the two loops test on one item: the first loop (required
    fields, price, billing period) and the second (service start within
    the billing period). *)
Definition passesValidation (service : ServiceItem.t) : bool :=
  negb (empty (ServiceItem.serviceName service)
        || blank (ServiceItem.invoiceStartDate service)
        || blank (ServiceItem.invoiceEndDate service)
        || blank (ServiceItem.actualServiceStartDate service)
        || (Fin (ServiceItem.pricePaid service) <=? of_Z 0)%num)
  && negb (date_geb (Date_parse (ServiceItem.invoiceStartDate service))
                    (Date_parse (ServiceItem.invoiceEndDate service))).

Definition startsInPeriod (service : ServiceItem.t) : bool :=
  negb (date_ltb (Date_parse (ServiceItem.actualServiceStartDate service))
                 (Date_parse (ServiceItem.invoiceStartDate service)))
  && negb (date_gtb (Date_parse (ServiceItem.actualServiceStartDate service))
                    (Date_parse (ServiceItem.invoiceEndDate service))).

Definition validb (service : ServiceItem.t) : bool :=
  passesValidation service && startsInPeriod service.

(** The result that [calculateCredit] stores when no check fails. *)
Definition resultOf (items : list ServiceItem.t) (taxRate : Q)
  : CombinedCreditResult.t :=
  let calcs := map (serviceCalculation taxRate) items in
  let totalCredit := sum (map CreditCalculation.creditAmount calcs) in
  let totalTax := sum (map CreditCalculation.taxOnCredit calcs) in
  CombinedCreditResult.mk calcs totalCredit totalTax (totalCredit + totalTax)%num.

(** The component before its constructor loads the sample service: the
    initial values of the signals. *)
Definition created : t := mk 13 [] 1 false None [].

(** [a || b] of two date strings and of two prices: the first unless it
    is falsy (empty, zero). *)
Definition orDate (a b : DateString) : DateString :=
  match a with Some _ => a | None => b end.

Definition orPrice (a b : Q) : Q := if is_zero a then b else a.

(** [this.services().length > 0 ? this.services()[length - 1] : null] *)
Definition lastService (l : list ServiceItem.t) : option ServiceItem.t :=
  if (0 <? Z.of_nat (List.length l))
  then nth_error l (List.length l - 1)
  else None.

(** [addService(serviceName, invoiceStartDate, invoiceEndDate, pricePaid,
    actualServiceStartDate)], lines 87-108.  An argument left out is its
    default: the empty string, [0]. *)
Definition addService (serviceName : string)
           (invoiceStartDate invoiceEndDate : DateString)
           (pricePaid : Q) (actualServiceStartDate : DateString) (c : t) : t :=
  let lastService := lastService (services c) in
  let newService :=
    ServiceItem.mk
      (nextServiceId c)
      serviceName
      (orDate invoiceStartDate
              (match lastService with
               | Some l => orDate (ServiceItem.invoiceStartDate l) None
               | None => None
               end))
      (orDate invoiceEndDate
              (match lastService with
               | Some l => orDate (ServiceItem.invoiceEndDate l) None
               | None => None
               end))
      (orPrice pricePaid
               (match lastService with
                | Some l => orPrice (ServiceItem.pricePaid l) 0
                | None => 0%Q
                end))
      (orDate actualServiceStartDate
              (match lastService with
               | Some l => orDate (ServiceItem.actualServiceStartDate l) None
               | None => None
               end)) in
  mk (taxRate c) (services c ++ [newService]) (nextServiceId c + 1)
     (isCalculating c) (calculationResult c) (alerts c).

(** [removeService(serviceId)], lines 110-112. *)
Definition removeService (serviceId : Z) (c : t) : t :=
  mk (taxRate c)
     (filter (fun s => negb (ServiceItem.id s =? serviceId)) (services c))
     (nextServiceId c) (isCalculating c) (calculationResult c) (alerts c).

(** A key of [ServiceItem] with the value to store under it. *)
Inductive FieldValue : Type :=
| SetId (value : Z)
| SetServiceName (value : string)
| SetInvoiceStartDate (value : DateString)
| SetInvoiceEndDate (value : DateString)
| SetPricePaid (value : Q)
| SetActualServiceStartDate (value : DateString).

(** [{ ...service, [field]: value }] *)
Definition withField (service : ServiceItem.t) (fv : FieldValue) : ServiceItem.t :=
  match fv with
  | SetId v =>
      ServiceItem.mk v (ServiceItem.serviceName service)
        (ServiceItem.invoiceStartDate service) (ServiceItem.invoiceEndDate service)
        (ServiceItem.pricePaid service) (ServiceItem.actualServiceStartDate service)
  | SetServiceName v =>
      ServiceItem.mk (ServiceItem.id service) v
        (ServiceItem.invoiceStartDate service) (ServiceItem.invoiceEndDate service)
        (ServiceItem.pricePaid service) (ServiceItem.actualServiceStartDate service)
  | SetInvoiceStartDate v =>
      ServiceItem.mk (ServiceItem.id service) (ServiceItem.serviceName service)
        v (ServiceItem.invoiceEndDate service)
        (ServiceItem.pricePaid service) (ServiceItem.actualServiceStartDate service)
  | SetInvoiceEndDate v =>
      ServiceItem.mk (ServiceItem.id service) (ServiceItem.serviceName service)
        (ServiceItem.invoiceStartDate service) v
        (ServiceItem.pricePaid service) (ServiceItem.actualServiceStartDate service)
  | SetPricePaid v =>
      ServiceItem.mk (ServiceItem.id service) (ServiceItem.serviceName service)
        (ServiceItem.invoiceStartDate service) (ServiceItem.invoiceEndDate service)
        v (ServiceItem.actualServiceStartDate service)
  | SetActualServiceStartDate v =>
      ServiceItem.mk (ServiceItem.id service) (ServiceItem.serviceName service)
        (ServiceItem.invoiceStartDate service) (ServiceItem.invoiceEndDate service)
        (ServiceItem.pricePaid service) v
  end.

(** [updateService(serviceId, field, value)], lines 114-120. *)
Definition updateService (serviceId : Z) (fv : FieldValue) (c : t) : t :=
  let currentServices := services c in
  let updatedServices :=
    map (fun service =>
           if ServiceItem.id service =? serviceId
           then withField service fv
           else service)
        currentServices in
  mk (taxRate c) updatedServices (nextServiceId c) (isCalculating c)
     (calculationResult c) (alerts c).

(** [clearCalculation()], lines 221-223. *)
Definition clearCalculation (c : t) : t := set_calculationResult None c.

(** [getServiceById(id)], lines 248-250. *)
Definition getServiceById (id : Z) (c : t) : option ServiceItem.t :=
  find (fun s => ServiceItem.id s =? id) (services c).

(** The edits of the services list that the form triggers, and a
    sequence of them applied in order. *)
Inductive Edit : Type :=
| Add (serviceName : string) (invoiceStartDate invoiceEndDate : DateString)
      (pricePaid : Q) (actualServiceStartDate : DateString)
| Remove (serviceId : Z)
| Update (serviceId : Z) (fv : FieldValue).

Definition applyEdit (e : Edit) (c : t) : t :=
  match e with
  | Add n ds de p da => addService n ds de p da c
  | Remove i => removeService i c
  | Update i fv => updateService i fv c
  end.

Definition applyAll (es : list Edit) (c : t) : t :=
  fold_left (fun c e => applyEdit e c) es c.

(** An edit that does not write the [id] key. *)
Definition keepsIds (e : Edit) : Prop :=
  match e with
  | Update _ (SetId _) => False
  | _ => True
  end.

(** Every service has an identifier below [nextServiceId], and no two
    services share one. *)
Definition wellNumbered (c : t) : Prop :=
  Forall (fun s => ServiceItem.id s < nextServiceId c) (services c)
  /\ NoDup (map ServiceItem.id (services c)).

(** The message the first loop alerts for a service that fails its
    checks, and the message the second loop alerts for one that fails
    its own. *)
Definition validationMessage (service : ServiceItem.t) : string :=
  if empty (ServiceItem.serviceName service)
     || blank (ServiceItem.invoiceStartDate service)
     || blank (ServiceItem.invoiceEndDate service)
     || blank (ServiceItem.actualServiceStartDate service)
     || (Fin (ServiceItem.pricePaid service) <=? of_Z 0)%num
  then
    ("Please fill in all fields for service: "
     ++ (if empty (ServiceItem.serviceName service)
         then "Unnamed Service"
         else ServiceItem.serviceName service))%string
  else
    ("Invoice end date must be after start date for service: "
     ++ ServiceItem.serviceName service)%string.

Definition periodMessage (service : ServiceItem.t) : string :=
  if date_ltb (Date_parse (ServiceItem.actualServiceStartDate service))
              (Date_parse (ServiceItem.invoiceStartDate service))
  then
    ("Service start date for " ++ ServiceItem.serviceName service
     ++ " cannot be before its invoice start date.")%string
  else
    ("Service start date for " ++ ServiceItem.serviceName service
     ++ " cannot be after its invoice end date.")%string.

(** [d.toISOString().split('T')[0]] as a date string of the form: the
    date of [d] in UTC, which [new Date(...)] reads back as the midnight
    (UTC) of that day.  [toISOString] throws on an invalid date:
    [None]. *)
Definition toISODate (d : JsDate) : option DateString :=
  match d with
  | InvalidDate => None
  | TimeValue t => Some (Some (TimeValue (t / msPerDay * msPerDay)))
  end.

(** [loadSampleData()], lines 68-85, at the time [now] of the clock, in
    the time zone [localTZA]; [None] when it throws. *)
Definition loadSampleData (localTZA now : Z) (c : t) : option t :=
  let today := TimeValue now in
  let invoiceStart1 :=
    DateObject.Date_ymd localTZA (DateObject.getFullYear localTZA today)
                        (DateObject.getMonth localTZA today) (of_Z 1) in
  let invoiceEnd1 :=
    DateObject.Date_ymd localTZA (DateObject.getFullYear localTZA today)
                        (DateObject.getMonth localTZA today + of_Z 1)%num
                        (of_Z 0) in
  let serviceStart1 :=
    DateObject.Date_ymd localTZA (DateObject.getFullYear localTZA today)
                        (DateObject.getMonth localTZA today) (of_Z 10) in
  match toISODate invoiceStart1, toISODate invoiceEnd1,
        toISODate serviceStart1 with
  | Some invoiceStartDate, Some invoiceEndDate, Some actualServiceStartDate =>
      Some (addService "Internet Service" invoiceStartDate invoiceEndDate
                       (7999 # 100) actualServiceStartDate c)
  | _, _, _ => None
  end.

(** The component as its constructor leaves it. *)
Definition constructed (localTZA now : Z) : option t :=
  loadSampleData localTZA now created.

End Component.

(** ** Credit Calculator: the single-service component *)

Module SingleService.

(** [interface CreditCalculation] of the single-service component. *)
Module CreditCalculation.
Record t : Type := mk {
  totalBillingDays : number;
  daysWithoutService : number;
  dailyRate : number;
  creditAmount : number;
  taxOnCredit : number;
  totalCreditWithTax : number
}.
End CreditCalculation.

(** The signals of the component and the messages alerted so far. *)
Record t : Type := mk {
  invoiceStartDate : DateString;
  invoiceEndDate : DateString;
  pricePaid : Q;
  actualServiceStartDate : DateString;
  taxRate : Q;
  isCalculating : bool;
  calculationResult : option CreditCalculation.t;
  alerts : list string
}.

Definition alert (msg : string) (c : t) : t :=
  mk (invoiceStartDate c) (invoiceEndDate c) (pricePaid c)
     (actualServiceStartDate c) (taxRate c) (isCalculating c)
     (calculationResult c) (alerts c ++ [msg]).

Definition finish (r : CreditCalculation.t) (c : t) : t :=
  mk (invoiceStartDate c) (invoiceEndDate c) (pricePaid c)
     (actualServiceStartDate c) (taxRate c) false
     (Some r) (alerts c).

Definition calculateDaysBetween : JsDate -> JsDate -> number :=
  DaySpan.calculateDaysBetween.

(** [calculateCredit()], lines 301-358.  [isCalculating] is set and
    cleared again on the one path that reaches it. *)
Definition calculateCredit (c : t) : t :=
  if blank (invoiceStartDate c) || blank (invoiceEndDate c)
     || blank (actualServiceStartDate c)
     || (Fin (pricePaid c) <=? of_Z 0)%num
  then alert "Please fill in all required fields." c
  else
    let invoiceStart := Date_parse (invoiceStartDate c) in
    let invoiceEnd := Date_parse (invoiceEndDate c) in
    let serviceStart := Date_parse (actualServiceStartDate c) in
    if date_geb invoiceStart invoiceEnd
    then alert "Invoice end date must be after start date." c
    else if date_ltb serviceStart invoiceStart
    then alert "Service start date cannot be before invoice start date." c
    else if date_gtb serviceStart invoiceEnd
    then alert "Service start date cannot be after invoice end date." c
    else
      let totalBillingDays := calculateDaysBetween invoiceStart invoiceEnd in
      let daysWithoutService :=
        (calculateDaysBetween invoiceStart serviceStart - of_Z 1)%num in
      let dailyRate := (Fin (pricePaid c) / totalBillingDays)%num in
      let creditAmount := (dailyRate * Math_max (of_Z 0) daysWithoutService)%num in
      let taxOnCredit := (creditAmount * (Fin (taxRate c) / of_Z 100))%num in
      let totalCreditWithTax := (creditAmount + taxOnCredit)%num in
      let result :=
        CreditCalculation.mk
          totalBillingDays
          (Math_max (of_Z 0) daysWithoutService)
          dailyRate
          creditAmount
          taxOnCredit
          totalCreditWithTax in
      finish result c.

(** The checks of the specification on the one service of this
    component, which has no name. *)
Definition offending (c : t) : Prop :=
  (invoiceStartDate c = None \/ invoiceEndDate c = None
   \/ actualServiceStartDate c = None)
  \/ (pricePaid c <= 0)%Q
  \/ (exists b e, invoiceStartDate c = Some (TimeValue b)
                  /\ invoiceEndDate c = Some (TimeValue e) /\ e <= b)
  \/ (exists b a, invoiceStartDate c = Some (TimeValue b)
                  /\ actualServiceStartDate c = Some (TimeValue a) /\ a < b)
  \/ (exists e a, invoiceEndDate c = Some (TimeValue e)
                  /\ actualServiceStartDate c = Some (TimeValue a) /\ e < a).

End SingleService.

(** ** Credit Calculator: the amounts as doubles *)

Module Binary64.

(** The numbers of the program are binary64 doubles, and each of its
    sums, products and quotients is rounded to the nearest double.  Where
    a property turns on that rounding (whether a total depends on the
    order of its terms, whether a quotient times its divisor gives the
    dividend back) the exact rationals of [JsNumber] say nothing of the
    program.  This module is the calculation of the multi-service
    component once more, on [PrimFloat.float]: the doubles of IEEE 754
    with the operations and the rounding of the program. *)

Local Open Scope float_scope.

(** The double of an integer of less than [2^63] in absolute value; it
    is the integer itself below [2^53], as the time value of a date and
    every day count are. *)
Definition of_Z (z : Z) : float :=
  if (z <? 0)%Z then - of_uint63 (Uint63.of_Z (- z))
  else of_uint63 (Uint63.of_Z z).

(** [Math.ceil(x)]: a double [m * 2^e] with [e] negative is rounded up
    to an integer, of the sign of [x] when it is zero; the other doubles
    are integers, infinite or [NaN], and returned as they are. *)
Definition Math_ceil (x : float) : float :=
  match Prim2SF x with
  | S754_finite sign m e =>
      if (0 <=? e)%Z then x
      else if sign then - of_Z (Z.pos m / 2 ^ (- e))
      else of_Z (- (- Z.pos m / 2 ^ (- e)))
  | _ => x
  end.

(** [Math.max(x, y)]: [NaN] when either is; of two zeros, the positive
    one. *)
Definition Math_max (x y : float) : float :=
  if PrimFloat.is_nan x || PrimFloat.is_nan y then nan
  else if x <? y then y
  else if y <? x then x
  else if PrimFloat.is_zero x && PrimFloat.get_sign x then y
  else x.

(** [d.getTime()] *)
Definition getTime (d : JsDate) : float :=
  match d with
  | InvalidDate => nan
  | TimeValue t => of_Z t
  end.

(** The relational operators on two [Date]s compare their time values. *)
Definition date_ltb (a b : JsDate) : bool := getTime a <? getTime b.
Definition date_gtb (a b : JsDate) : bool := getTime b <? getTime a.
Definition date_geb (a b : JsDate) : bool := getTime b <=? getTime a.

(** [calculateDaysBetween(startDate, endDate)], lines 225-230. *)
Definition calculateDaysBetween (startDate endDate : JsDate) : float :=
  let start := Date_copy startDate in
  let end_ := Date_copy endDate in
  let timeDiff := getTime end_ - getTime start in
  Math_ceil (timeDiff / (of_Z 1000 * of_Z 3600 * of_Z 24)) + of_Z 1.

(** [interface ServiceItem] *)
Module ServiceItem.
Record t : Type := mk {
  id : Z;
  serviceName : string;
  invoiceStartDate : DateString;
  invoiceEndDate : DateString;
  pricePaid : float;
  actualServiceStartDate : DateString
}.
End ServiceItem.

(** [interface CreditCalculation] *)
Module CreditCalculation.
Record t : Type := mk {
  id : Z;
  serviceName : string;
  totalBillingDays : float;
  daysWithoutService : float;
  dailyRate : float;
  creditAmount : float;
  taxOnCredit : float;
  totalCreditWithTax : float
}.
End CreditCalculation.

(** [interface CombinedCreditResult] *)
Module CombinedCreditResult.
Record t : Type := mk {
  services : list CreditCalculation.t;
  totalCreditAmount : float;
  totalTaxOnCredit : float;
  grandTotalWithTax : float
}.
End CombinedCreditResult.

(** The first loop of [calculateCredit], lines 134-149: [Some msg] when
    it alerts [msg] and returns, [None] when it runs to its end. *)
Fixpoint validateServices (l : list ServiceItem.t) : option string :=
  match l with
  | [] => None
  | service :: rest =>
      if Component.empty (ServiceItem.serviceName service)
         || blank (ServiceItem.invoiceStartDate service)
         || blank (ServiceItem.invoiceEndDate service)
         || blank (ServiceItem.actualServiceStartDate service)
         || (ServiceItem.pricePaid service <=? of_Z 0)
      then
        Some ("Please fill in all fields for service: "
              ++ (if Component.empty (ServiceItem.serviceName service)
                  then "Unnamed Service"
                  else ServiceItem.serviceName service))%string
      else
        let invoiceStart := Date_parse (ServiceItem.invoiceStartDate service) in
        let invoiceEnd := Date_parse (ServiceItem.invoiceEndDate service) in
        if date_geb invoiceStart invoiceEnd
        then
          Some ("Invoice end date must be after start date for service: "
                ++ ServiceItem.serviceName service)%string
        else validateServices rest
  end.

(** The variables the second loop updates. *)
Record Totals : Type := mkTotals {
  serviceCalculations : list CreditCalculation.t;
  totalCreditAmount : float;
  totalTaxOnCredit : float
}.

(** The second loop of [calculateCredit], lines 158-208: [inl msg] when
    it alerts [msg] and returns, [inr] of the variables at its end. *)
Fixpoint calculateServices (taxRate : float) (l : list ServiceItem.t) (acc : Totals)
  : string + Totals :=
  match l with
  | [] => inr acc
  | service :: rest =>
      let invoiceStart := Date_parse (ServiceItem.invoiceStartDate service) in
      let invoiceEnd := Date_parse (ServiceItem.invoiceEndDate service) in
      let serviceStart := Date_parse (ServiceItem.actualServiceStartDate service) in
      if date_ltb serviceStart invoiceStart
      then
        inl ("Service start date for " ++ ServiceItem.serviceName service
             ++ " cannot be before its invoice start date.")%string
      else if date_gtb serviceStart invoiceEnd
      then
        inl ("Service start date for " ++ ServiceItem.serviceName service
             ++ " cannot be after its invoice end date.")%string
      else
        let totalBillingDays := calculateDaysBetween invoiceStart invoiceEnd in
        let daysWithoutService :=
          calculateDaysBetween invoiceStart serviceStart - of_Z 1 in
        let dailyRate := ServiceItem.pricePaid service / totalBillingDays in
        let creditAmount := dailyRate * Math_max (of_Z 0) daysWithoutService in
        let taxOnCredit := creditAmount * (taxRate / of_Z 100) in
        let totalCreditWithTax := creditAmount + taxOnCredit in
        let serviceCalculation :=
          CreditCalculation.mk
            (ServiceItem.id service)
            (ServiceItem.serviceName service)
            totalBillingDays
            (Math_max (of_Z 0) daysWithoutService)
            dailyRate
            creditAmount
            taxOnCredit
            totalCreditWithTax in
        calculateServices taxRate rest
          (mkTotals (serviceCalculations acc ++ [serviceCalculation])
                    (totalCreditAmount acc + creditAmount)
                    (totalTaxOnCredit acc + taxOnCredit))
  end.

(** [calculateCredit()], lines 127-219, of a component that holds the
    given services and tax rate: [inl] of the message it alerts, or [inr]
    of the result it stores. *)
Definition calculateCredit (services : list ServiceItem.t) (taxRate : float)
  : string + CombinedCreditResult.t :=
  if (Z.of_nat (List.length services) =? 0)%Z
  then inl "Please add at least one service to calculate credits."%string
  else
    match validateServices services with
    | Some msg => inl msg
    | None =>
        match calculateServices taxRate services
                                (mkTotals [] (of_Z 0) (of_Z 0)) with
        | inl msg => inl msg
        | inr totals =>
            inr (CombinedCreditResult.mk
                   (serviceCalculations totals)
                   (totalCreditAmount totals)
                   (totalTaxOnCredit totals)
                   (totalCreditAmount totals + totalTaxOnCredit totals))
        end
    end.

(** The calculation of one service, as the body of the second loop
    builds it. *)
Definition serviceCalculation (taxRate : float) (service : ServiceItem.t)
  : CreditCalculation.t :=
  let invoiceStart := Date_parse (ServiceItem.invoiceStartDate service) in
  let invoiceEnd := Date_parse (ServiceItem.invoiceEndDate service) in
  let serviceStart := Date_parse (ServiceItem.actualServiceStartDate service) in
  let totalBillingDays := calculateDaysBetween invoiceStart invoiceEnd in
  let daysWithoutService :=
    calculateDaysBetween invoiceStart serviceStart - of_Z 1 in
  let dailyRate := ServiceItem.pricePaid service / totalBillingDays in
  let creditAmount := dailyRate * Math_max (of_Z 0) daysWithoutService in
  let taxOnCredit := creditAmount * (taxRate / of_Z 100) in
  let totalCreditWithTax := creditAmount + taxOnCredit in
  CreditCalculation.mk
    (ServiceItem.id service)
    (ServiceItem.serviceName service)
    totalBillingDays
    (Math_max (of_Z 0) daysWithoutService)
    dailyRate
    creditAmount
    taxOnCredit
    totalCreditWithTax.

(** What the two loops test on one item: the first loop (required
    fields, price, billing period) and the second (service start within
    the billing period). *)
Definition passesValidation (service : ServiceItem.t) : bool :=
  negb (Component.empty (ServiceItem.serviceName service)
        || blank (ServiceItem.invoiceStartDate service)
        || blank (ServiceItem.invoiceEndDate service)
        || blank (ServiceItem.actualServiceStartDate service)
        || (ServiceItem.pricePaid service <=? of_Z 0))
  && negb (date_geb (Date_parse (ServiceItem.invoiceStartDate service))
                    (Date_parse (ServiceItem.invoiceEndDate service))).

Definition startsInPeriod (service : ServiceItem.t) : bool :=
  negb (date_ltb (Date_parse (ServiceItem.actualServiceStartDate service))
                 (Date_parse (ServiceItem.invoiceStartDate service)))
  && negb (date_gtb (Date_parse (ServiceItem.actualServiceStartDate service))
                    (Date_parse (ServiceItem.invoiceEndDate service))).

Definition validb (service : ServiceItem.t) : bool :=
  passesValidation service && startsInPeriod service.

(** [calculateTax(amount, taxRate)] of the service, lines 113-115. *)
Definition calculateTax (amount taxRate : float) : float :=
  amount * (taxRate / of_Z 100).

(** Three services billed for January 2024, each in service from the
    tenth, at 79.99, 15 and 49.99: the doubles nearest to these prices,
    which the quotients of 7999 and 4999 by 100 are. *)
Definition internet : ServiceItem.t :=
  ServiceItem.mk 1 "Internet Service"
                 (Some (TimeValue 1704067200000)) (Some (TimeValue 1706659200000))
                 (of_Z 7999 / of_Z 100) (Some (TimeValue 1704844800000)).

Definition staticIp : ServiceItem.t :=
  ServiceItem.mk 2 "Static IP Address"
                 (Some (TimeValue 1704067200000)) (Some (TimeValue 1706659200000))
                 (of_Z 15) (Some (TimeValue 1704844800000)).

Definition television : ServiceItem.t :=
  ServiceItem.mk 3 "Television"
                 (Some (TimeValue 1704067200000)) (Some (TimeValue 1706659200000))
                 (of_Z 4999 / of_Z 100) (Some (TimeValue 1704844800000)).

End Binary64.

(** ** Credit Calculator: the invoice-item-credit service *)

Module Service.

(** [interface Customer] *)
Module Customer.
Record t : Type := mk {
  id : string;
  name : string;
  email : string;
  accountNumber : string
}.
End Customer.

(** [interface InvoiceItem]; [isProrated] is optional. *)
Module InvoiceItem.
Record t : Type := mk {
  id : string;
  description : string;
  unitPrice : Q;
  quantity : Q;
  serviceStartDate : JsDate;
  serviceEndDate : JsDate;
  isProrated : option bool
}.
End InvoiceItem.

(** [interface Invoice] *)
Module Invoice.
Record t : Type := mk {
  id : string;
  customer : Customer.t;
  invoiceNumber : string;
  invoiceDate : JsDate;
  dueDate : JsDate;
  items : list InvoiceItem.t;
  subtotal : Q;
  taxRate : Q;
  taxAmount : Q;
  total : Q
}.
End Invoice.

(** [interface CreditRequest]; the two credit dates are optional. *)
Module CreditRequest.
Record t : Type := mk {
  invoiceId : string;
  customerId : string;
  creditReason : string;
  requestDate : JsDate;
  itemsToCredit : list string;
  creditStartDate : option JsDate;
  creditEndDate : option JsDate;
  isPartialCredit : bool
}.
End CreditRequest.

(** [interface CreditCalculation] *)
Module CreditCalculation.
Record t : Type := mk {
  originalAmount : number;
  proratedAmount : number;
  creditAmount : number;
  taxOnCredit : number;
  totalCreditWithTax : number;
  creditPercentage : number;
  daysInBillingPeriod : number;
  daysCredited : number
}.
End CreditCalculation.

(** [interface CreditResult] *)
Module CreditResult.
Record t : Type := mk {
  request : CreditRequest.t;
  calculations : list CreditCalculation.t;
  totalCredit : number;
  totalTax : number;
  finalCreditAmount : number;
  calculationDate : JsDate
}.
End CreditResult.

(** [calculateDaysBetween], the private method of the service. *)
Definition calculateDaysBetween : JsDate -> JsDate -> number :=
  DaySpan.calculateDaysBetween.

(** [calculateItemCredit(item, creditRequest, taxRate)], lines 48-92.
    A [Date] object is truthy, an absent optional date is not. *)
Definition calculateItemCredit
           (item : InvoiceItem.t) (creditRequest : CreditRequest.t) (taxRate : Q)
  : CreditCalculation.t :=
  let originalAmount :=
    (Fin (InvoiceItem.unitPrice item) * Fin (InvoiceItem.quantity item))%num in
  let '(creditAmount, proratedAmount, creditPercentage,
        daysInBillingPeriod, daysCredited) :=
    match CreditRequest.isPartialCredit creditRequest,
          CreditRequest.creditStartDate creditRequest,
          CreditRequest.creditEndDate creditRequest with
    | true, Some creditStartDate, Some creditEndDate =>
        let billingPeriodDays :=
          calculateDaysBetween (InvoiceItem.serviceStartDate item)
                               (InvoiceItem.serviceEndDate item) in
        let creditDays := calculateDaysBetween creditStartDate creditEndDate in
        let daysInBillingPeriod := billingPeriodDays in
        let daysCredited := creditDays in
        let creditPercentage := (creditDays / billingPeriodDays)%num in
        let proratedAmount := (originalAmount * creditPercentage)%num in
        let creditAmount := proratedAmount in
        (creditAmount, proratedAmount, creditPercentage,
         daysInBillingPeriod, daysCredited)
    | _, _, _ =>
        let daysInBillingPeriod :=
          calculateDaysBetween (InvoiceItem.serviceStartDate item)
                               (InvoiceItem.serviceEndDate item) in
        let daysCredited := daysInBillingPeriod in
        let creditPercentage := of_Z 1 in
        let proratedAmount := originalAmount in
        let creditAmount := originalAmount in
        (creditAmount, proratedAmount, creditPercentage,
         daysInBillingPeriod, daysCredited)
    end in
  let taxOnCredit := (creditAmount * (Fin taxRate / of_Z 100))%num in
  CreditCalculation.mk
    originalAmount
    proratedAmount
    creditAmount
    taxOnCredit
    (creditAmount + taxOnCredit)%num
    creditPercentage
    daysInBillingPeriod
    daysCredited.

(** [invoice.items.find(i => i.id === itemId)] *)
Definition findItem (items : list InvoiceItem.t) (itemId : string)
  : option InvoiceItem.t :=
  find (fun i => String.eqb (InvoiceItem.id i) itemId) items.

(** The loop of [calculateCredit], lines 23-29, pushing onto
    [calculations]. *)
Fixpoint creditItems (invoice : Invoice.t) (creditRequest : CreditRequest.t)
         (itemIds : list string) (calculations : list CreditCalculation.t)
  : list CreditCalculation.t :=
  match itemIds with
  | [] => calculations
  | itemId :: rest =>
      match findItem (Invoice.items invoice) itemId with
      | Some item =>
          let calculation :=
            calculateItemCredit item creditRequest (Invoice.taxRate invoice) in
          creditItems invoice creditRequest rest (calculations ++ [calculation])
      | None => creditItems invoice creditRequest rest calculations
      end
  end.

(** [calculateCredit(invoice, creditRequest)], lines 19-43.  [now] is
    the time value that [new Date()] reads off the clock. *)
Definition calculateCredit (now : Z) (invoice : Invoice.t) (creditRequest : CreditRequest.t)
  : CreditResult.t :=
  let calculations :=
    creditItems invoice creditRequest
                (CreditRequest.itemsToCredit creditRequest) [] in
  let totalCredit :=
    fold_left (fun sum calc => (sum + CreditCalculation.creditAmount calc)%num)
              calculations (of_Z 0) in
  let totalTax :=
    fold_left (fun sum calc => (sum + CreditCalculation.taxOnCredit calc)%num)
              calculations (of_Z 0) in
  let finalCreditAmount := (totalCredit + totalTax)%num in
  CreditResult.mk
    creditRequest
    calculations
    totalCredit
    totalTax
    finalCreditAmount
    (TimeValue now).

(** [createSampleInvoice()], lines 183-223: two items billed for
    January 2024. *)
Definition createSampleInvoice : Invoice.t :=
  let serviceStartDate := TimeValue 1704067200000 in
  let serviceEndDate := TimeValue 1706659200000 in
  Invoice.mk
    "INV-001"
    (Customer.mk "CUST-001" "Sample Customer" "" "")
    "SAMPLE-001"
    (TimeValue 1704067200000)
    (TimeValue 1705276800000)
    [ InvoiceItem.mk "ITEM-001" "High-Speed Internet Service - 100 Mbps"
                     (7999 # 100) 1 serviceStartDate serviceEndDate (Some false);
      InvoiceItem.mk "ITEM-002" "Static IP Address"
                     15 1 serviceStartDate serviceEndDate (Some false) ]
    (9499 # 100)
    13
    (807 # 100)
    (10306 # 100).

(** Whether an identifier is that of some item of the list, and the
    items that a list of identifiers names, one for each identifier that
    names one, in the order of the identifiers. *)
Definition occurs (items : list InvoiceItem.t) (itemId : string) : bool :=
  existsb (fun i => String.eqb (InvoiceItem.id i) itemId) items.

Definition namedItems (items : list InvoiceItem.t) (itemIds : list string)
  : list InvoiceItem.t :=
  flat_map (fun itemId =>
              match findItem items itemId with
              | Some item => [item]
              | None => []
              end) itemIds.

(** [calculateTax(amount, taxRate)], lines 113-115. *)
Definition calculateTax (amount taxRate : number) : number :=
  (amount * (taxRate / of_Z 100))%num.

(** A credit request with other [itemsToCredit]. *)
Definition withItemsToCredit (creditRequest : CreditRequest.t) (itemIds : list string)
  : CreditRequest.t :=
  CreditRequest.mk
    (CreditRequest.invoiceId creditRequest)
    (CreditRequest.customerId creditRequest)
    (CreditRequest.creditReason creditRequest)
    (CreditRequest.requestDate creditRequest)
    itemIds
    (CreditRequest.creditStartDate creditRequest)
    (CreditRequest.creditEndDate creditRequest)
    (CreditRequest.isPartialCredit creditRequest).

(** A credit request with [isPartialCredit] set to [false]. *)
Definition withoutPartialCredit (creditRequest : CreditRequest.t) : CreditRequest.t :=
  CreditRequest.mk
    (CreditRequest.invoiceId creditRequest)
    (CreditRequest.customerId creditRequest)
    (CreditRequest.creditReason creditRequest)
    (CreditRequest.requestDate creditRequest)
    (CreditRequest.itemsToCredit creditRequest)
    (CreditRequest.creditStartDate creditRequest)
    (CreditRequest.creditEndDate creditRequest)
    false.

(** [enum BillingPeriod] *)
Inductive BillingPeriod : Type :=
| MONTHLY
| QUARTERLY
| YEARLY
| DAILY.

(** [isLeapYear(year)], lines 176-178. *)
Definition isLeapYear (year : number) : bool :=
  (strict_eqb (rem year (of_Z 4)) (of_Z 0)
   && negb (strict_eqb (rem year (of_Z 100)) (of_Z 0)))
  || strict_eqb (rem year (of_Z 400)) (of_Z 0).

(** [getDaysInMonth(year, month)], lines 150-152. *)
Definition getDaysInMonth (localTZA : Z) (year month : number) : number :=
  DateObject.getDate localTZA
    (DateObject.Date_ymd localTZA year (month + of_Z 1)%num (of_Z 0)).

(** The loop of [getDaysInQuarter], lines 166-168, run for at most
    [fuel] rounds. *)
Fixpoint quarterDays (fuel : nat) (localTZA : Z)
         (year m quarterEndMonth days : number) : number :=
  match fuel with
  | O => days
  | S fuel' =>
      if (m <=? quarterEndMonth)%num
      then quarterDays fuel' localTZA year (m + of_Z 1)%num quarterEndMonth
                       (days + getDaysInMonth localTZA year m)%num
      else days
  end.

(** [getDaysInQuarter(date)], lines 157-171.  The loop runs from
    [quarterStartMonth] to [quarterStartMonth + 2]: three rounds end
    it. *)
Definition getDaysInQuarter (localTZA : Z) (date : JsDate) : number :=
  let year := DateObject.getFullYear localTZA date in
  let month := DateObject.getMonth localTZA date in
  let quarter := Math_floor (month / of_Z 3)%num in
  let quarterStartMonth := (quarter * of_Z 3)%num in
  let quarterEndMonth := (quarterStartMonth + of_Z 2)%num in
  quarterDays 3 localTZA year quarterStartMonth quarterEndMonth (of_Z 0).

(** [getBillingPeriodDays(period, referenceDate)], lines 130-145.  The
    [default] arm of the [switch] is for a value that is none of the
    four of the enum. *)
Definition getBillingPeriodDays (localTZA : Z)
           (period : BillingPeriod) (referenceDate : JsDate) : number :=
  let date := Date_copy referenceDate in
  match period with
  | DAILY => of_Z 1
  | MONTHLY =>
      getDaysInMonth localTZA (DateObject.getFullYear localTZA date)
                     (DateObject.getMonth localTZA date)
  | QUARTERLY => getDaysInQuarter localTZA date
  | YEARLY =>
      if isLeapYear (DateObject.getFullYear localTZA date)
      then of_Z 366 else of_Z 365
  end.

(** [calculateProratedAmount(monthlyRate, serviceStartDate, serviceEndDate,
    billingPeriod)], lines 97-108; [billingPeriod] left out is
    [MONTHLY]. *)
Definition calculateProratedAmount (localTZA : Z) (monthlyRate : Q)
           (serviceStartDate serviceEndDate : JsDate)
           (billingPeriod : BillingPeriod) : number :=
  let totalDays := calculateDaysBetween serviceStartDate serviceEndDate in
  let periodDays := getBillingPeriodDays localTZA billingPeriod serviceStartDate in
  let dailyRate := (Fin monthlyRate / periodDays)%num in
  (dailyRate * totalDays)%num.

End Service.

(** ** Sample credit requests *)

Module ServiceScenario.
Import Service.

(** A request for ten days of credit on both items of the sample
    invoice and on an identifier that is not on it. *)
Definition tenDays : CreditRequest.t :=
  CreditRequest.mk "INV-001" "CUST-001" "Service outage"
                   (TimeValue 1706745600000)
                   ["ITEM-001"; "ITEM-404"; "ITEM-002"]%string
                   (Some (TimeValue 1704067200000))
                   (Some (TimeValue 1704844800000))
                   true.

(** The same request with no partial period asked for. *)
Definition inFull : CreditRequest.t :=
  CreditRequest.mk "INV-001" "CUST-001" "Service outage"
                   (TimeValue 1706745600000)
                   ["ITEM-001"; "ITEM-404"; "ITEM-002"]%string
                   None None false.

(** A partial request that lacks its end date. *)
Definition noEndDate : CreditRequest.t :=
  CreditRequest.mk "INV-001" "CUST-001" "Service outage"
                   (TimeValue 1706745600000)
                   ["ITEM-001"]%string
                   (Some (TimeValue 1704067200000)) None true.

Definition item001 : InvoiceItem.t :=
  InvoiceItem.mk "ITEM-001" "High-Speed Internet Service - 100 Mbps"
                 (7999 # 100) 1
                 (TimeValue 1704067200000) (TimeValue 1706659200000)
                 (Some false).

(** The clock at the time of the calculation. *)
Definition now : Z := 1706745600000.

(** A credit period of sixty-two days, December 2023 and January 2024,
    asked for on the first item, which is billed for January. *)
Definition twoMonths : CreditRequest.t :=
  CreditRequest.mk "INV-001" "CUST-001" "Service outage"
                   (TimeValue 1706745600000) ["ITEM-001"]%string
                   (Some (TimeValue 1701388800000))
                   (Some (TimeValue 1706659200000))
                   true.

(** A partial credit over the very billing period of the first item. *)
Definition wholeJanuary : CreditRequest.t :=
  CreditRequest.mk "INV-001" "CUST-001" "Service outage"
                   (TimeValue 1706745600000) ["ITEM-001"]%string
                   (Some (TimeValue 1704067200000))
                   (Some (TimeValue 1706659200000))
                   true.

(** An item whose service ends the day before it starts. *)
Definition backdated : InvoiceItem.t :=
  InvoiceItem.mk "ITEM-003" "Backdated" 10 1
                 (TimeValue 1704153600000) (TimeValue 1704067200000) None.

(** A full credit of every item of the sample invoice, and one of items
    that are not on it. *)
Definition everyItem : CreditRequest.t :=
  CreditRequest.mk "INV-001" "CUST-001" "Cancelled"
                   (TimeValue 1706745600000)
                   ["ITEM-001"; "ITEM-002"]%string
                   None None false.

Definition unknownItems : CreditRequest.t :=
  CreditRequest.mk "INV-001" "CUST-001" "Cancelled"
                   (TimeValue 1706745600000)
                   ["ITEM-404"; "ITEM-405"]%string
                   None None false.

End ServiceScenario.

(** ** Sample data *)

Module Scenario.
Import Component.

(** Midnight (UTC) of 2024-01-01, 2024-01-10 and 2024-01-31. *)
Definition jan01 : Z := 1704067200000.
Definition jan10 : Z := 1704844800000.
Definition jan31 : Z := 1706659200000.

(** The sample service of [loadSampleData], for January 2024. *)
Definition internet : ServiceItem.t :=
  ServiceItem.mk 1 "Internet Service" (Some (TimeValue jan01)) (Some (TimeValue jan31))
                 (7999 # 100) (Some (TimeValue jan10)).

(** A second service, in service from the first billed day. *)
Definition staticIp : ServiceItem.t :=
  ServiceItem.mk 2 "Static IP Address" (Some (TimeValue jan01)) (Some (TimeValue jan31))
                 (15 # 1) (Some (TimeValue jan01)).

Definition january : list ServiceItem.t := [internet; staticIp].



Definition taxRate : Q := 13 # 1.

(** The single-service component holding the sample service. *)
Definition single : SingleService.t :=
  SingleService.mk (Some (TimeValue jan01)) (Some (TimeValue jan31)) (7999 # 100) (Some (TimeValue jan10))
                   13 false None [].

(** What the second loop builds for each of them, and the result. *)
Definition internetCalc : CreditCalculation.t :=
  serviceCalculation taxRate internet.
Definition staticIpCalc : CreditCalculation.t :=
  serviceCalculation taxRate staticIp.
Definition result : CombinedCreditResult.t := resultOf january taxRate.

End Scenario.

(** * Properties *)

(** ** Numbers *)

Lemma eqv_refl (x : number) : x =n= x.
Proof. destruct x; simpl; auto. reflexivity. Qed.

Lemma eqv_sym (x y : number) : x =n= y -> y =n= x.
Proof. destruct x, y; simpl; auto. intro H. symmetry. exact H. Qed.

Lemma eqv_trans (x y z : number) : x =n= y -> y =n= z -> x =n= z.
Proof.
  destruct x, y, z; simpl; auto; try contradiction.
  intros H1 H2. rewrite H1. exact H2.
Qed.

Lemma of_Z_add (a b : Z) : (of_Z a + of_Z b)%num = of_Z (a + b).
Proof.
  unfold of_Z, add, inject_Z, Qplus. simpl. do 2 f_equal. lia.
Qed.

Lemma of_Z_sub (a b : Z) : (of_Z a - of_Z b)%num = of_Z (a - b).
Proof.
  unfold sub, of_Z, opp, add, inject_Z, Qplus, Qopp. simpl. do 2 f_equal. lia.
Qed.

Lemma of_Z_inj (a b : Z) : of_Z a = of_Z b -> a = b.
Proof. unfold of_Z, inject_Z. intro H. injection H. auto. Qed.

Lemma Math_max_of_Z (a b : Z) : Math_max (of_Z a) (of_Z b) = of_Z (Z.max a b).
Proof.
  unfold Math_max, of_Z, leb.
  destruct (Qle_bool (inject_Z a) (inject_Z b)) eqn:E.
  - apply Qle_bool_iff in E. rewrite <- Zle_Qle in E.
    rewrite Z.max_r by assumption. reflexivity.
  - assert (~ a <= b) as H.
    { intro H. rewrite Zle_Qle in H. apply Qle_bool_iff in H. congruence. }
    rewrite Z.max_l by lia. reflexivity.
Qed.

Lemma is_zero_inject_Z (z : Z) : is_zero (inject_Z z) = (z =? 0).
Proof. reflexivity. Qed.

Lemma div_of_Z_nonzero (p : Q) (n : Z) :
  n <> 0 -> (Fin p / of_Z n)%num = Fin (p / inject_Z n)%Q.
Proof.
  intro H. unfold div, of_Z. rewrite is_zero_inject_Z.
  destruct (Z.eqb_spec n 0); [contradiction | reflexivity].
Qed.

Lemma leb_NaN_r (x : number) : (x <=? NaN)%num = false.
Proof. destruct x; reflexivity. Qed.

(** ** Day-Span Calculator *)

Lemma msPerDay_pos : 0 < msPerDay.
Proof. reflexivity. Qed.

Lemma Qceiling_quotient (a : Z) :
  Qceiling (inject_Z a / inject_Z msPerDay)%Q = - ((- a) / msPerDay).
Proof.
  unfold Qceiling. f_equal.
  rewrite Zdiv_Qdiv. apply Qfloor_comp.
  rewrite inject_Z_opp. field.
  intro H. discriminate H.
Qed.

(** On two valid dates the method returns an integer: the ceiling of the
    exact quotient of the time difference by a day, plus one. *)
Lemma calculateDaysBetween_valid (s e : Z) :
  calculateDaysBetween (TimeValue s) (TimeValue e) = of_Z (daysBetween s e).
Proof.
  unfold calculateDaysBetween, Date_copy, getTime. cbv zeta.
  rewrite of_Z_sub.
  change (of_Z (e - s) / of_Z msPerDay)%num
    with (Fin (inject_Z (e - s) / inject_Z msPerDay)%Q).
  unfold Math_ceil. rewrite of_Z_add, Qceiling_quotient.
  unfold daysBetween. replace (- (e - s)) with (s - e) by lia. reflexivity.
Qed.


(** The integer [daysBetween s e - 1] is the least number of whole days
    that covers the time difference. *)
Lemma daysBetween_bounds (s e : Z) :
  (daysBetween s e - 2) * msPerDay < e - s <= (daysBetween s e - 1) * msPerDay.
Proof.
  unfold daysBetween. pose proof msPerDay_pos as Hpos.
  pose proof (Z.div_mod (s - e) msPerDay ltac:(lia)) as Hdm.
  pose proof (Z.mod_pos_bound (s - e) msPerDay Hpos) as Hb.
  nia.
Qed.

Lemma daysBetween_unique (s e n : Z) :
  (n - 2) * msPerDay < e - s <= (n - 1) * msPerDay -> n = daysBetween s e.
Proof.
  intro H. pose proof (daysBetween_bounds s e) as H'.
  pose proof msPerDay_pos. nia.
Qed.

Lemma daysBetween_same (d : Z) : daysBetween d d = 1.
Proof. unfold daysBetween. rewrite Z.sub_diag. reflexivity. Qed.

Lemma daysBetween_mono (s e e' : Z) :
  e <= e' -> daysBetween s e <= daysBetween s e'.
Proof.
  intro H. unfold daysBetween.
  assert ((s - e') / msPerDay <= (s - e) / msPerDay).
  { apply Z.div_le_mono; [apply msPerDay_pos | lia]. }
  lia.
Qed.

Lemma daysBetween_ge_1 (s e : Z) : s <= e -> 1 <= daysBetween s e.
Proof.
  intro H. rewrite <- (daysBetween_same s). apply daysBetween_mono. exact H.
Qed.

Lemma daysBetween_ge_2 (s e : Z) : s < e -> 2 <= daysBetween s e.
Proof.
  intro H. pose proof (daysBetween_bounds s e). pose proof msPerDay_pos. nia.
Qed.

Lemma daysBetween_dayOf (s e : Z) :
  dayOf e - dayOf s + 1 <= daysBetween s e <= dayOf e - dayOf s + 2.
Proof.
  unfold dayOf. pose proof msPerDay_pos as Hpos.
  pose proof (daysBetween_bounds s e) as Hb.
  pose proof (Z.div_mod s msPerDay ltac:(lia)).
  pose proof (Z.mod_pos_bound s msPerDay Hpos).
  pose proof (Z.div_mod e msPerDay ltac:(lia)).
  pose proof (Z.mod_pos_bound e msPerDay Hpos).
  nia.
Qed.

Lemma daysBetween_midnights (s e : Z) :
  atMidnight s -> atMidnight e -> daysBetween s e = dayOf e - dayOf s + 1.
Proof.
  unfold atMidnight, dayOf. intros Hs He. symmetry.
  apply daysBetween_unique. pose proof msPerDay_pos as Hpos.
  pose proof (Z.div_mod s msPerDay ltac:(lia)).
  pose proof (Z.div_mod e msPerDay ltac:(lia)).
  nia.
Qed.

(** *** Claim C4 *)


(** January 2024 has 31 billed days; a period of a day and a second
    counts as three. *)
Example calculateDaysBetween_january :
  calculateDaysBetween (TimeValue Scenario.jan01) (TimeValue Scenario.jan31)
  = of_Z 31.
Proof. vm_compute. reflexivity. Qed.

(** An invalid date has no day count. *)
Example calculateDaysBetween_invalid :
  calculateDaysBetween InvalidDate (TimeValue Scenario.jan31) = NaN.
Proof. reflexivity. Qed.

Lemma calculateDaysBetween_invalid_start (d : JsDate) :
  calculateDaysBetween InvalidDate d = NaN.
Proof. destruct d; reflexivity. Qed.

Lemma calculateDaysBetween_invalid_end (d : JsDate) :
  calculateDaysBetween d InvalidDate = NaN.
Proof. destruct d; reflexivity. Qed.

Example calculateDaysBetween_a_day_and_a_second :
  calculateDaysBetween (TimeValue 0) (TimeValue (msPerDay + 1000)) = of_Z 3.
Proof. vm_compute. reflexivity. Qed.

(** *** Claim C8 *)

(** C8, as stated, fails: midnight of 1970-01-02 (UTC) and the
    millisecond after it fall on the same calendar day, in every time
    zone, and from midnight of 1970-01-01 the method counts two days to
    the one and three to the other. *)
Lemma calculateDaysBetween_sees_time_of_day :
  dayOf 86400000 = dayOf 86400001
  /\ calculateDaysBetween (TimeValue 0) (TimeValue 86400000) = of_Z 2
  /\ calculateDaysBetween (TimeValue 0) (TimeValue 86400001) = of_Z 3
  /\ calculateDaysBetween (TimeValue 0) (TimeValue 86400000)
     <> calculateDaysBetween (TimeValue 0) (TimeValue 86400001).
Proof.
  split; [reflexivity |]. split; [vm_compute; reflexivity |].
  split; [vm_compute; reflexivity |].
  rewrite !calculateDaysBetween_valid. intro H. apply of_Z_inj in H.
  vm_compute in H. discriminate H.
Qed.

(** So does noon of 1970-01-02. *)
Example calculateDaysBetween_to_noon :
  dayOf 86400000 = dayOf 129600000
  /\ calculateDaysBetween (TimeValue 0) (TimeValue 129600000) = of_Z 3.
Proof. split; vm_compute; reflexivity. Qed.

(** C8 (amended): [calculateDaysBetween] subtracts the time values as they
    are, without normalising them to midnight.  For two inputs that are
    both at midnight (UTC) the result is the difference of their calendar
    days plus one, hence the same for the same pair of calendar days; in
    general it is that number or one more, depending on the times of
    day. *)
Theorem calculateDaysBetween_calendar_days (s e : Z) :
  (atMidnight s -> atMidnight e ->
   calculateDaysBetween (TimeValue s) (TimeValue e)
   = of_Z (dayOf e - dayOf s + 1))
  /\ (exists n,
         calculateDaysBetween (TimeValue s) (TimeValue e) = of_Z n
         /\ dayOf e - dayOf s + 1 <= n <= dayOf e - dayOf s + 2).
Proof.
  split.
  - intros Hs He. rewrite calculateDaysBetween_valid.
    f_equal. apply daysBetween_midnights; assumption.
  - exists (daysBetween s e).
    split; [apply calculateDaysBetween_valid | apply daysBetween_dayOf].
Qed.

(** ** Comparisons of valid dates *)

Lemma Qle_bool_inject_Z (a b : Z) :
  Qle_bool (inject_Z a) (inject_Z b) = (a <=? b).
Proof. unfold Qle_bool, inject_Z. simpl. rewrite !Z.mul_1_r. reflexivity. Qed.

Lemma date_geb_valid (b e : Z) :
  date_geb (TimeValue b) (TimeValue e) = (e <=? b).
Proof. apply Qle_bool_inject_Z. Qed.

Lemma date_ltb_valid (a b : Z) :
  date_ltb (TimeValue a) (TimeValue b) = (a <? b).
Proof.
  unfold date_ltb, getTime, ltb, of_Z.
  rewrite Qle_bool_inject_Z. symmetry. apply Z.ltb_antisym.
Qed.

Lemma date_gtb_valid (a e : Z) :
  date_gtb (TimeValue a) (TimeValue e) = (e <? a).
Proof. unfold date_gtb, gtb. apply (date_ltb_valid e a). Qed.

Lemma price_leb_zero (p : Q) :
  (Fin p <=? of_Z 0)%num = true <-> (p <= 0)%Q.
Proof. unfold leb, of_Z. apply Qle_bool_iff. Qed.

(** A comparison of two dates holds only of two valid dates: with an
    invalid date on either side it is false. *)
Lemma date_geb_true (x y : JsDate) :
  date_geb x y = true
  <-> exists b e, x = TimeValue b /\ y = TimeValue e /\ e <= b.
Proof.
  destruct x as [| b], y as [| e];
    try (split; [discriminate | intros (? & ? & ? & ? & _); discriminate]).
  rewrite date_geb_valid, Z.leb_le. split.
  - intro H. exists b, e. auto.
  - intros (b' & e' & Hb & He & H). injection Hb as <-. injection He as <-.
    exact H.
Qed.

Lemma date_ltb_true (x y : JsDate) :
  date_ltb x y = true
  <-> exists a b, x = TimeValue a /\ y = TimeValue b /\ a < b.
Proof.
  destruct x as [| a], y as [| b];
    try (split; [discriminate | intros (? & ? & ? & ? & _); discriminate]).
  rewrite date_ltb_valid, Z.ltb_lt. split.
  - intro H. exists a, b. auto.
  - intros (a' & b' & Ha & Hb & H). injection Ha as <-. injection Hb as <-.
    exact H.
Qed.

Lemma date_gtb_true (x y : JsDate) :
  date_gtb x y = true
  <-> exists a e, x = TimeValue a /\ y = TimeValue e /\ e < a.
Proof.
  destruct x as [| a], y as [| e];
    try (split; [discriminate | intros (? & ? & ? & ? & _); discriminate]).
  rewrite date_gtb_valid, Z.ltb_lt. split.
  - intro H. exists a, e. auto.
  - intros (a' & e' & Ha & He & H). injection Ha as <-. injection He as <-.
    exact H.
Qed.

Lemma Date_parse_TimeValue (d : DateString) (t : Z) :
  Date_parse d = TimeValue t <-> d = Some (TimeValue t).
Proof.
  destruct d as [d |]; cbn; split; intro H; try congruence; discriminate.
Qed.

(** ** Credit Calculator: validation *)

Module ComponentFacts.
Import Component.

(** Reduce the projections of an item and the tests on its fields, leaving
  the comparisons of numbers and dates folded. *)
Tactic Notation "fields" :=
cbn [ServiceItem.id ServiceItem.serviceName ServiceItem.invoiceStartDate
     ServiceItem.invoiceEndDate ServiceItem.pricePaid
     ServiceItem.actualServiceStartDate
     empty blank Date_parse orb andb negb].
Tactic Notation "fields" "in" hyp(H) :=
cbn [ServiceItem.id ServiceItem.serviceName ServiceItem.invoiceStartDate
     ServiceItem.invoiceEndDate ServiceItem.pricePaid
     ServiceItem.actualServiceStartDate
     empty blank Date_parse orb andb negb] in H.

Lemma empty_spec (s : string) : empty s = true <-> s = ""%string.
Proof. destruct s; simpl; split; congruence. Qed.

Lemma blank_spec (d : DateString) : blank d = true <-> d = None.
Proof. destruct d; simpl; split; congruence. Qed.

(** The tests of the two loops, one by one, in the words of the five
  checks. *)
Lemma geb_period (s : ServiceItem.t) :
date_geb (Date_parse (ServiceItem.invoiceStartDate s))
         (Date_parse (ServiceItem.invoiceEndDate s)) = true
<-> periodNotPositive s.
Proof.
unfold periodNotPositive. rewrite date_geb_true.
split; intros (b & e & Hb & He & H); exists b, e;
  (split; [apply Date_parse_TimeValue; exact Hb |]);
  (split; [apply Date_parse_TimeValue; exact He | exact H]).
Qed.

Lemma ltb_before (s : ServiceItem.t) :
date_ltb (Date_parse (ServiceItem.actualServiceStartDate s))
         (Date_parse (ServiceItem.invoiceStartDate s)) = true
<-> startsBeforePeriod s.
Proof.
unfold startsBeforePeriod. rewrite date_ltb_true.
split.
- intros (a & b & Ha & Hb & H). exists b, a.
  split; [apply Date_parse_TimeValue; exact Hb |].
  split; [apply Date_parse_TimeValue; exact Ha | exact H].
- intros (b & a & Hb & Ha & H). exists a, b.
  split; [apply Date_parse_TimeValue; exact Ha |].
  split; [apply Date_parse_TimeValue; exact Hb | exact H].
Qed.

Lemma gtb_after (s : ServiceItem.t) :
date_gtb (Date_parse (ServiceItem.actualServiceStartDate s))
         (Date_parse (ServiceItem.invoiceEndDate s)) = true
<-> startsAfterPeriod s.
Proof.
unfold startsAfterPeriod. rewrite date_gtb_true.
split.
- intros (a & e & Ha & He & H). exists e, a.
  split; [apply Date_parse_TimeValue; exact He |].
  split; [apply Date_parse_TimeValue; exact Ha | exact H].
- intros (e & a & He & Ha & H). exists a, e.
  split; [apply Date_parse_TimeValue; exact Ha |].
  split; [apply Date_parse_TimeValue; exact He | exact H].
Qed.

Lemma missing_or_price (s : ServiceItem.t) :
empty (ServiceItem.serviceName s)
|| blank (ServiceItem.invoiceStartDate s)
|| blank (ServiceItem.invoiceEndDate s)
|| blank (ServiceItem.actualServiceStartDate s)
|| (Fin (ServiceItem.pricePaid s) <=? of_Z 0)%num = true
<-> missingField s \/ priceNotPositive s.
Proof.
unfold missingField, priceNotPositive.
rewrite !orb_true_iff, empty_spec, !blank_spec, price_leb_zero. tauto.
Qed.

(** The checks of the code on one item are the five checks of the
  specification.  An item with a date that [new Date(...)] cannot read
  fails none of them on account of that date. *)
Lemma offending_spec (s : ServiceItem.t) : validb s = false <-> offending s.
Proof.
unfold validb, passesValidation, startsInPeriod, offending.
rewrite <- geb_period, <- ltb_before, <- gtb_after.
pose proof (missing_or_price s) as Hm.
destruct (empty (ServiceItem.serviceName s)
          || blank (ServiceItem.invoiceStartDate s)
          || blank (ServiceItem.invoiceEndDate s)
          || blank (ServiceItem.actualServiceStartDate s)
          || (Fin (ServiceItem.pricePaid s) <=? of_Z 0)%num).
{ cbn [negb andb]. split; [intros _ | reflexivity].
  destruct (proj1 Hm eq_refl) as [H | H]; auto. }
assert (~ (missingField s \/ priceNotPositive s)) as Hn.
{ intro H. apply Hm in H. discriminate H. }
destruct (date_geb _ _), (date_ltb _ _), (date_gtb _ _); cbn [negb andb];
  split; intro H; try reflexivity; try discriminate H; auto 6;
  destruct H as [H | [H | [H | [H | H]]]];
  try discriminate H; exfalso; apply Hn; auto.
Qed.

Lemma validb_spec (s : ServiceItem.t) : validb s = true <-> valid s.
Proof.
unfold valid. rewrite <- offending_spec.
destruct (validb s); split; congruence.
Qed.

(** *** The two loops *)

Lemma validateServices_passes (l : list ServiceItem.t) :
forallb passesValidation l = true -> validateServices l = None.
Proof.
induction l as [| s l IH]; [reflexivity |].
cbn [forallb validateServices]. intro H.
apply andb_prop in H. destruct H as [Hs Hl].
unfold passesValidation in Hs. apply andb_prop in Hs. destruct Hs as [H1 H2].
apply negb_true_iff in H1. apply negb_true_iff in H2.
rewrite H1. cbv zeta. rewrite H2. apply IH. exact Hl.
Qed.

Lemma validateServices_alerts (l : list ServiceItem.t) :
forallb passesValidation l = false -> exists msg, validateServices l = Some msg.
Proof.
induction l as [| s l IH]; [discriminate |].
cbn [forallb validateServices]. intro H.
destruct (empty (ServiceItem.serviceName s)
          || blank (ServiceItem.invoiceStartDate s)
          || blank (ServiceItem.invoiceEndDate s)
          || blank (ServiceItem.actualServiceStartDate s)
          || (Fin (ServiceItem.pricePaid s) <=? of_Z 0)%num) eqn:H1.
{ eexists. reflexivity. }
cbv zeta.
destruct (date_geb (Date_parse (ServiceItem.invoiceStartDate s))
                   (Date_parse (ServiceItem.invoiceEndDate s))) eqn:H2.
{ eexists. reflexivity. }
apply IH. unfold passesValidation in H. rewrite H1, H2 in H. exact H.
Qed.

Lemma calculateServices_passes (taxRate : Q) (l : list ServiceItem.t) (acc : Totals) :
forallb startsInPeriod l = true ->
calculateServices taxRate l acc
= inr (mkTotals
         (serviceCalculations acc ++ map (serviceCalculation taxRate) l)
         (fold_left add
            (map CreditCalculation.creditAmount (map (serviceCalculation taxRate) l))
            (totalCreditAmount acc))
         (fold_left add
            (map CreditCalculation.taxOnCredit (map (serviceCalculation taxRate) l))
            (totalTaxOnCredit acc))).
Proof.
revert acc. induction l as [| s l IH]; intros acc H.
- cbn. rewrite app_nil_r. destruct acc. reflexivity.
- cbn [forallb] in H. apply andb_prop in H. destruct H as [Hs Hl].
  unfold startsInPeriod in Hs. apply andb_prop in Hs. destruct Hs as [H1 H2].
  apply negb_true_iff in H1. apply negb_true_iff in H2.
  cbn [calculateServices]. cbv zeta. rewrite H1, H2.
  rewrite (IH _ Hl).
  cbn [serviceCalculations totalCreditAmount totalTaxOnCredit map fold_left].
  rewrite <- app_assoc. reflexivity.
Qed.

Lemma calculateServices_alerts (taxRate : Q) (l : list ServiceItem.t) (acc : Totals) :
forallb startsInPeriod l = false ->
exists msg, calculateServices taxRate l acc = inl msg.
Proof.
revert acc. induction l as [| s l IH]; intros acc H; [discriminate |].
cbn [forallb] in H. cbn [calculateServices]. cbv zeta.
destruct (date_ltb (Date_parse (ServiceItem.actualServiceStartDate s))
                   (Date_parse (ServiceItem.invoiceStartDate s))) eqn:H1.
{ eexists. reflexivity. }
destruct (date_gtb (Date_parse (ServiceItem.actualServiceStartDate s))
                   (Date_parse (ServiceItem.invoiceEndDate s))) eqn:H2.
{ eexists. reflexivity. }
apply IH. unfold startsInPeriod in H. rewrite H1, H2 in H. exact H.
Qed.

Lemma forallb_validb (l : list ServiceItem.t) :
forallb validb l = forallb passesValidation l && forallb startsInPeriod l.
Proof.
induction l as [| s l IH]; [reflexivity |].
cbn [forallb]. rewrite IH. unfold validb.
destruct (passesValidation s), (startsInPeriod s),
  (forallb passesValidation l), (forallb startsInPeriod l); reflexivity.
Qed.

(** *** The method on a component *)

(** A run of [calculateCredit] either stores a result and alerts nothing,
  or alerts one message and leaves the stored result as it was. *)
Lemma calculateCredit_cases (c : t) :
(services c <> [] /\ forallb validb (services c) = true
 /\ calculationResult (calculateCredit c)
    = Some (resultOf (services c) (taxRate c))
 /\ alerts (calculateCredit c) = alerts c)
\/ ((services c = [] \/ forallb validb (services c) = false)
    /\ calculationResult (calculateCredit c) = calculationResult c
    /\ exists msg, alerts (calculateCredit c) = alerts c ++ [msg]).
Proof.
unfold calculateCredit.
destruct (services c) as [| s l] eqn:Hs.
{ right. cbn. split; [auto |]. split; [reflexivity |]. eexists. reflexivity. }
replace (Z.of_nat (List.length (s :: l)) =? 0) with false
  by (symmetry; apply Z.eqb_neq; cbn [List.length]; lia).
rewrite forallb_validb.
destruct (forallb passesValidation (s :: l)) eqn:Hv.
- rewrite (validateServices_passes _ Hv). cbv zeta.
  cbn [taxRate services set_isCalculating]. rewrite Hs.
  destruct (forallb startsInPeriod (s :: l)) eqn:Hp.
  + left. rewrite (calculateServices_passes _ _ _ Hp).
    split; [discriminate |]. split; [reflexivity |].
    split; reflexivity.
  + right. destruct (calculateServices_alerts (taxRate c) (s :: l)
                       (mkTotals [] (of_Z 0) (of_Z 0)) Hp) as [msg Hm].
    rewrite Hm. split; [auto |]. split; [reflexivity |].
    exists msg. reflexivity.
- right. destruct (validateServices_alerts _ Hv) as [msg Hm].
  rewrite Hm. split; [auto |]. split; [reflexivity |].
  exists msg. reflexivity.
Qed.

Lemma calculate_cases (items : list ServiceItem.t) (taxRate : Q) :
(items <> [] /\ forallb validb items = true
 /\ calculate items taxRate = Result (resultOf items taxRate))
\/ ((items = [] \/ forallb validb items = false)
    /\ exists msg, calculate items taxRate = ValidationError [msg]).
Proof.
unfold calculate. cbv zeta.
destruct (calculateCredit_cases (holding items taxRate))
  as [(Hne & Hv & Hr & _) | (Hbad & Hr & msg & Hm)].
- left. rewrite Hr. auto.
- right. rewrite Hr, Hm. split; [exact Hbad |]. exists msg. reflexivity.
Qed.

Lemma forallb_validb_Forall (items : list ServiceItem.t) :
forallb validb items = true <-> Forall valid items.
Proof.
rewrite forallb_forall, Forall_forall.
split; intros H s Hin; apply validb_spec; auto.
Qed.

Lemma forallb_validb_Exists (items : list ServiceItem.t) :
forallb validb items = false <-> Exists offending items.
Proof.
induction items as [| s l IH].
- split; [discriminate | intro H; inversion H].
- cbn [forallb]. rewrite Exists_cons, <- IH, <- offending_spec.
  destruct (validb s), (forallb validb l); cbn; intuition congruence.
Qed.

Lemma calculate_Result (items : list ServiceItem.t) (taxRate : Q) (r : CombinedCreditResult.t) :
calculate items taxRate = Result r ->
items <> [] /\ Forall valid items /\ r = resultOf items taxRate.
Proof.
intro H.
destruct (calculate_cases items taxRate)
  as [(Hne & Hv & Hr) | (_ & msg & Hm)]; [| congruence].
rewrite Hr in H. injection H as <-.
split; [exact Hne |]. split; [| reflexivity].
apply forallb_validb_Forall. exact Hv.
Qed.

(** *** One valid item *)

(** What the checks leave of an item whose three dates are the text of
  dates. *)
Lemma valid_inv (s : ServiceItem.t) (b e a : Z) :
valid s ->
ServiceItem.invoiceStartDate s = Some (TimeValue b) ->
ServiceItem.invoiceEndDate s = Some (TimeValue e) ->
ServiceItem.actualServiceStartDate s = Some (TimeValue a) ->
b < e /\ b <= a <= e.
Proof.
intros H Hb He Ha.
unfold valid, offending, periodNotPositive, startsBeforePeriod,
  startsAfterPeriod in H.
repeat split.
- destruct (Z_lt_le_dec b e); [assumption |].
  exfalso. apply H. right. right. left. exists b, e. auto.
- destruct (Z_lt_le_dec a b); [| assumption].
  exfalso. apply H. do 3 right. left. exists b, a. auto.
- destruct (Z_lt_le_dec e a); [| assumption].
  exfalso. apply H. do 4 right. exists e, a. auto.
Qed.

Lemma valid_price (s : ServiceItem.t) :
valid s -> (0 < ServiceItem.pricePaid s)%Q.
Proof.
intro H. destruct (Qlt_le_dec 0 (ServiceItem.pricePaid s)); [assumption |].
exfalso. apply H. right. left. assumption.
Qed.

Lemma valid_filled (s : ServiceItem.t) :
valid s ->
ServiceItem.serviceName s <> ""%string
/\ ServiceItem.invoiceStartDate s <> None
/\ ServiceItem.invoiceEndDate s <> None
/\ ServiceItem.actualServiceStartDate s <> None.
Proof.
intro H. unfold valid, offending, missingField in H.
repeat split; intro Hn; apply H; auto 6.
Qed.

(** The calculation of an item with its three dates present and a billing
  period of positive length: every field is finite, the day counts are
  integers. *)
Lemma serviceCalculation_dates (taxRate : Q) (s : ServiceItem.t) (b e a : Z) :
ServiceItem.invoiceStartDate s = Some (TimeValue b) ->
ServiceItem.invoiceEndDate s = Some (TimeValue e) ->
ServiceItem.actualServiceStartDate s = Some (TimeValue a) ->
b < e ->
let n := daysBetween b e in
let d := Z.max 0 (daysBetween b a - 1) in
let p := ServiceItem.pricePaid s in
serviceCalculation taxRate s
= CreditCalculation.mk
    (ServiceItem.id s) (ServiceItem.serviceName s)
    (of_Z n) (of_Z d)
    (Fin (p / inject_Z n)%Q)
    (Fin (p / inject_Z n * inject_Z d)%Q)
    (Fin (p / inject_Z n * inject_Z d * (taxRate / inject_Z 100))%Q)
    (Fin (p / inject_Z n * inject_Z d
          + p / inject_Z n * inject_Z d * (taxRate / inject_Z 100))%Q).
Proof.
intros Hb He Ha Hbe n d p.
unfold serviceCalculation, calculateDaysBetween.
rewrite Hb, He, Ha. cbn [Date_parse]. cbv zeta.
rewrite !calculateDaysBetween_valid, of_Z_sub, Math_max_of_Z.
fold n d p.
assert (n <> 0) as Hn.
{ pose proof (daysBetween_ge_2 b e Hbe). subst n. lia. }
rewrite (div_of_Z_nonzero p n Hn).
reflexivity.
Qed.

(** *** Claim C1 *)

(** C1, as stated, fails on the empty list: no item of it offends one of
  the five checks, and yet [calculateCredit] alerts and stores no
  result. *)
Lemma calculate_empty_list_fails :
calculate [] (13 # 1)
= ValidationError ["Please add at least one service to calculate credits."%string]
/\ ~ Exists offending []
/\ Forall valid [].
Proof.
split; [reflexivity |]. split; [| constructor].
intro H. inversion H.
Qed.

(** C1 (amended): [calculate items taxRate] fails with a validation error,
  storing no result, if and only if the list of items is empty or some
  item has a missing required field (name, either billing-period date,
  actual-service-start date), a price that is not positive, a billing
  period whose end is not after its start, or an actual-service-start
  date strictly before the billing-period start or strictly after its
  end; it returns a result if and only if the list is not empty and
  every item passes the five checks. *)
Theorem calculate_fails_iff (items : list ServiceItem.t) (taxRate : Q) :
((exists msgs, calculate items taxRate = ValidationError msgs)
 <-> (items = [] \/ Exists offending items))
/\ ((exists r, calculate items taxRate = Result r)
    <-> (items <> [] /\ Forall valid items)).
Proof.
destruct (calculate_cases items taxRate)
  as [(Hne & Hv & Hr) | (Hbad & msg & Hm)].
- split; split.
  + intros [msgs H]. congruence.
  + intros [H | H]; [contradiction |].
    apply forallb_validb_Exists in H. congruence.
  + intros _. split; [exact Hne |]. apply forallb_validb_Forall. exact Hv.
  + intros _. eexists. exact Hr.
- split; split.
  + intros _. destruct Hbad as [H | H]; [left; exact H |].
    right. apply forallb_validb_Exists. exact H.
  + intros _. eexists. exact Hm.
  + intros [r H]. congruence.
  + intros [Hne Hall]. exfalso. destruct Hbad as [H | H]; [contradiction |].
    apply forallb_validb_Forall in Hall. congruence.
Qed.

(** *** The stored result, item by item *)

Lemma result_item (items : list ServiceItem.t) (taxRate : Q)
    (r : CombinedCreditResult.t) (i : nat) (s : ServiceItem.t)
    (c : CreditCalculation.t) :
calculate items taxRate = Result r ->
nth_error items i = Some s ->
nth_error (CombinedCreditResult.services r) i = Some c ->
valid s /\ c = serviceCalculation taxRate s.
Proof.
intros Hr Hs Hc.
apply calculate_Result in Hr. destruct Hr as (_ & Hall & ->).
split.
- rewrite Forall_forall in Hall. apply Hall.
  eapply nth_error_In. exact Hs.
- unfold resultOf in Hc. cbn [CombinedCreditResult.services] in Hc.
  rewrite nth_error_map, Hs in Hc. cbn in Hc. congruence.
Qed.

(** *** Claim C2 *)




(** *** Claim C3 *)

Lemma leb_of_Z (a b : Z) : (of_Z a <=? of_Z b)%num = (a <=? b).
Proof. apply Qle_bool_inject_Z. Qed.




(** The sample service: 31 billed days, 9 of them without service. *)
Example internet_days :
CreditCalculation.totalBillingDays
  Scenario.internetCalc = of_Z 31
/\ CreditCalculation.daysWithoutService
     Scenario.internetCalc = of_Z 9
/\ CreditCalculation.creditAmount
     Scenario.internetCalc
   =n= Fin (71991 # 3100).
Proof. vm_compute. repeat split. Qed.

(** *** Claim C6 *)

Lemma prorated_le_price (p : Q) (n d : Z) :
(0 < p)%Q -> 0 < n -> d <= n -> (p / inject_Z n * inject_Z d <= p)%Q.
Proof.
intros Hp Hn Hd.
assert (0 < inject_Z n)%Q as HnQ.
{ change 0%Q with (inject_Z 0). rewrite <- Zlt_Qlt. exact Hn. }
assert (~ inject_Z n == 0)%Q as Hnz.
{ intro H. rewrite H in HnQ. apply (Qlt_irrefl 0). exact HnQ. }
assert (0 <= p / inject_Z n)%Q as Hrate.
{ apply Qlt_le_weak. apply Qlt_shift_div_l; [exact HnQ |].
  rewrite Qmult_0_l. exact Hp. }
apply Qle_trans with (p / inject_Z n * inject_Z n)%Q.
- rewrite !(Qmult_comm (p / inject_Z n)).
  apply Qmult_le_compat_r; [| exact Hrate].
  rewrite <- Zle_Qle. exact Hd.
- apply Qle_lteq. right. field. exact Hnz.
Qed.

(** Two day counts that compare are those of an item whose three dates
  are the text of dates: with a date that is not, one of the counts is
  [NaN]. *)
Lemma compared_days_are_dated (taxRate : Q) (s : ServiceItem.t) :
valid s ->
(CreditCalculation.daysWithoutService (serviceCalculation taxRate s)
 <=? CreditCalculation.totalBillingDays (serviceCalculation taxRate s))%num
= true ->
exists b e a,
  ServiceItem.invoiceStartDate s = Some (TimeValue b)
  /\ ServiceItem.invoiceEndDate s = Some (TimeValue e)
  /\ ServiceItem.actualServiceStartDate s = Some (TimeValue a).
Proof.
intros Hv.
destruct (valid_filled s Hv) as (_ & Hb & He & Ha).
unfold serviceCalculation, calculateDaysBetween.
cbn [CreditCalculation.daysWithoutService CreditCalculation.totalBillingDays].
destruct (ServiceItem.invoiceStartDate s) as [[| b] |]; [| | contradiction].
{ cbn [Date_parse]. rewrite !calculateDaysBetween_invalid_start.
  intro H. rewrite leb_NaN_r in H. discriminate H. }
destruct (ServiceItem.invoiceEndDate s) as [[| e] |]; [| | contradiction].
{ cbn [Date_parse]. rewrite !calculateDaysBetween_invalid_end.
  intro H. rewrite leb_NaN_r in H. discriminate H. }
destruct (ServiceItem.actualServiceStartDate s) as [[| a] |]; [| | contradiction].
{ cbn [Date_parse]. rewrite !calculateDaysBetween_invalid_end.
  intro H. discriminate H. }
intros _. exists b, e, a. auto.
Qed.

(** C6: for an item whose computed [daysWithoutService] is at most its
  [totalBillingDays], the computed [creditAmount] is at most
  [pricePaid]. *)
Theorem creditAmount_le_pricePaid
      (items : list ServiceItem.t) (taxRate : Q)
      (r : CombinedCreditResult.t) (i : nat) (s : ServiceItem.t)
      (c : CreditCalculation.t) :
calculate items taxRate = Result r ->
nth_error items i = Some s ->
nth_error (CombinedCreditResult.services r) i = Some c ->
(CreditCalculation.daysWithoutService c
 <=? CreditCalculation.totalBillingDays c)%num = true ->
(CreditCalculation.creditAmount c <=? Fin (ServiceItem.pricePaid s))%num = true.
Proof.
intros Hr Hs Hc.
destruct (result_item _ _ _ _ _ _ Hr Hs Hc) as [Hv ->].
intro Hle.
destruct (compared_days_are_dated taxRate s Hv Hle) as (b & e & a & Hb & He & Ha).
destruct (valid_inv s b e a Hv Hb He Ha) as [Hbe Hae].
pose proof (valid_price s Hv) as Hp.
revert Hle.
rewrite (serviceCalculation_dates taxRate s b e a Hb He Ha Hbe).
cbn [CreditCalculation.totalBillingDays CreditCalculation.daysWithoutService
     CreditCalculation.creditAmount].
rewrite leb_of_Z. intro Hd. apply Z.leb_le in Hd.
unfold leb. apply Qle_bool_iff.
apply prorated_le_price; [exact Hp | | exact Hd].
pose proof (daysBetween_ge_2 b e Hbe). lia.
Qed.

Lemma creditAmount_le_pricePaid_witness :
(CreditCalculation.creditAmount
   Scenario.internetCalc
 <=? Fin (ServiceItem.pricePaid Scenario.internet))%num = true.
Proof.
apply (creditAmount_le_pricePaid
         Scenario.january Scenario.taxRate
         Scenario.result 0
         Scenario.internet
         Scenario.internetCalc).
- vm_compute. reflexivity.
- reflexivity.
- reflexivity.
- vm_compute. reflexivity.
Defined.

End ComponentFacts.

(** ** Credit Calculator: the totals of doubles *)

Module Binary64Facts.
Import Binary64.

Local Open Scope float_scope.

(** The operations on some doubles: a day and a millisecond are two
  days, rounded up; a negative fraction of a day is rounded up to the
  negative zero; January 2024 has 31 billed days; no day count comes of
  an invalid date; [Math.max] of zero and a negative number is zero. *)
Example doubles :
Math_ceil (of_Z 86400001 / of_Z 86400000) = of_Z 2
/\ Math_ceil (of_Z (-1) / of_Z 86400000) = - of_Z 0
/\ calculateDaysBetween (TimeValue 1704067200000) (TimeValue 1706659200000)
   = of_Z 31
/\ calculateDaysBetween InvalidDate (TimeValue 1706659200000) = nan
/\ Math_max (of_Z 0) (of_Z (-3)) = of_Z 0
/\ Math_max (of_Z 0) nan = nan.
Proof. repeat split; vm_compute; reflexivity. Qed.

Lemma first_loop_passes (l : list ServiceItem.t) :
forallb passesValidation l = true -> validateServices l = None.
Proof.
induction l as [| s l IH]; [reflexivity |].
cbn [forallb validateServices]. intro H.
apply andb_prop in H. destruct H as [Hs Hl].
unfold passesValidation in Hs. apply andb_prop in Hs. destruct Hs as [H1 H2].
apply negb_true_iff in H1. apply negb_true_iff in H2.
rewrite H1. cbv zeta. rewrite H2. apply IH. exact Hl.
Qed.

Lemma second_loop_totals (taxRate : float) (l : list ServiceItem.t) (acc : Totals) :
forallb startsInPeriod l = true ->
calculateServices taxRate l acc
= inr (mkTotals
         (serviceCalculations acc ++ map (serviceCalculation taxRate) l)
         (fold_left PrimFloat.add
            (map CreditCalculation.creditAmount (map (serviceCalculation taxRate) l))
            (totalCreditAmount acc))
         (fold_left PrimFloat.add
            (map CreditCalculation.taxOnCredit (map (serviceCalculation taxRate) l))
            (totalTaxOnCredit acc))).
Proof.
revert acc. induction l as [| s l IH]; intros acc H.
- cbn. rewrite app_nil_r. destruct acc. reflexivity.
- cbn [forallb] in H. apply andb_prop in H. destruct H as [Hs Hl].
  unfold startsInPeriod in Hs. apply andb_prop in Hs. destruct Hs as [H1 H2].
  apply negb_true_iff in H1. apply negb_true_iff in H2.
  cbn [calculateServices]. cbv zeta. rewrite H1, H2.
  rewrite (IH _ Hl).
  cbn [serviceCalculations totalCreditAmount totalTaxOnCredit map fold_left].
  rewrite <- app_assoc. reflexivity.
Qed.

Lemma forallb_both (l : list ServiceItem.t) :
forallb validb l = true ->
forallb passesValidation l = true /\ forallb startsInPeriod l = true.
Proof.
induction l as [| s l IH]; [auto |].
cbn [forallb]. unfold validb at 1. intro H.
apply andb_prop in H. destruct H as [Hs Hl].
apply andb_prop in Hs. destruct Hs as [H1 H2].
destruct (IH Hl) as [IH1 IH2]. rewrite H1, H2, IH1, IH2. auto.
Qed.

(** *** Claim C5 *)

(** C5, as stated, fails: the totals are sums of doubles, added in the
  order of the items, and depend on that order.  Of the three services
  of January 2024 the credits are 23.222903225806448, 4.35483870967742
  and 14.513225806451613; added in this order they come to
  42.09096774193548 and the grand total to 47.56279354838709, with the
  last two exchanged to 42.090967741935486 and 47.5627935483871. *)
Lemma totals_depend_on_order :
Permutation [internet; staticIp; television] [internet; television; staticIp]
/\ exists r r',
    calculateCredit [internet; staticIp; television] (of_Z 13) = inr r
    /\ calculateCredit [internet; television; staticIp] (of_Z 13) = inr r'
    /\ CombinedCreditResult.totalCreditAmount r = 0x1.50ba4d4ba4d4bp+5
    /\ CombinedCreditResult.totalCreditAmount r' = 0x1.50ba4d4ba4d4cp+5
    /\ (CombinedCreditResult.totalCreditAmount r
        =? CombinedCreditResult.totalCreditAmount r') = false
    /\ CombinedCreditResult.grandTotalWithTax r = 0x1.7c8099e765c76p+5
    /\ CombinedCreditResult.grandTotalWithTax r' = 0x1.7c8099e765c77p+5
    /\ (CombinedCreditResult.grandTotalWithTax r
        =? CombinedCreditResult.grandTotalWithTax r') = false.
Proof.
split; [apply perm_skip, perm_swap |].
eexists. eexists.
split; [vm_compute; reflexivity |]. split; [vm_compute; reflexivity |].
repeat split; vm_compute; reflexivity.
Qed.

(** C5 (amended): for every list of items that is not empty and passes
  the checks, the result holds one calculation per item, in the order of
  the items; [totalCreditAmount] is the sum of the [creditAmount]s of
  the calculations and [totalTaxOnCredit] the sum of their
  [taxOnCredit]s, each added up in doubles from zero in the order of the
  items; [grandTotalWithTax] is the sum of the two totals. *)
Theorem totals_in_input_order (items : list ServiceItem.t) (taxRate : float) :
items <> [] ->
forallb validb items = true ->
exists r,
  calculateCredit items taxRate = inr r
  /\ CombinedCreditResult.services r = map (serviceCalculation taxRate) items
  /\ List.length (CombinedCreditResult.services r) = List.length items
  /\ map CreditCalculation.id (CombinedCreditResult.services r)
     = map ServiceItem.id items
  /\ map CreditCalculation.serviceName (CombinedCreditResult.services r)
     = map ServiceItem.serviceName items
  /\ CombinedCreditResult.totalCreditAmount r
     = fold_left PrimFloat.add
                 (map CreditCalculation.creditAmount
                      (CombinedCreditResult.services r))
                 (of_Z 0)
  /\ CombinedCreditResult.totalTaxOnCredit r
     = fold_left PrimFloat.add
                 (map CreditCalculation.taxOnCredit
                      (CombinedCreditResult.services r))
                 (of_Z 0)
  /\ CombinedCreditResult.grandTotalWithTax r
     = CombinedCreditResult.totalCreditAmount r
       + CombinedCreditResult.totalTaxOnCredit r.
Proof.
intros Hne Hv. destruct (forallb_both items Hv) as [H1 H2].
unfold calculateCredit.
destruct items as [| s l]; [contradiction |].
replace (Z.of_nat (List.length (s :: l)) =? 0)%Z with false
  by (symmetry; apply Z.eqb_neq; cbn [List.length]; lia).
rewrite (first_loop_passes _ H1), (second_loop_totals _ _ _ H2).
cbn [serviceCalculations totalCreditAmount totalTaxOnCredit app].
eexists. split; [reflexivity |].
cbn [CombinedCreditResult.services CombinedCreditResult.totalCreditAmount
     CombinedCreditResult.totalTaxOnCredit
     CombinedCreditResult.grandTotalWithTax].
split; [reflexivity |]. split; [apply length_map |].
split; [rewrite map_map; reflexivity |].
split; [rewrite map_map; reflexivity |].
repeat split.
Qed.

Lemma totals_in_input_order_witness :
exists r,
  calculateCredit [internet; staticIp; television] (of_Z 13) = inr r
  /\ CombinedCreditResult.services r
     = map (serviceCalculation (of_Z 13)) [internet; staticIp; television]
  /\ List.length (CombinedCreditResult.services r)
     = List.length [internet; staticIp; television]
  /\ map CreditCalculation.id (CombinedCreditResult.services r)
     = map ServiceItem.id [internet; staticIp; television]
  /\ map CreditCalculation.serviceName (CombinedCreditResult.services r)
     = map ServiceItem.serviceName [internet; staticIp; television]
  /\ CombinedCreditResult.totalCreditAmount r
     = fold_left PrimFloat.add
                 (map CreditCalculation.creditAmount
                      (CombinedCreditResult.services r))
                 (of_Z 0)
  /\ CombinedCreditResult.totalTaxOnCredit r
     = fold_left PrimFloat.add
                 (map CreditCalculation.taxOnCredit
                      (CombinedCreditResult.services r))
                 (of_Z 0)
  /\ CombinedCreditResult.grandTotalWithTax r
     = CombinedCreditResult.totalCreditAmount r
       + CombinedCreditResult.totalTaxOnCredit r.
Proof.
apply (totals_in_input_order [internet; staticIp; television] (of_Z 13)).
- discriminate.
- vm_compute. reflexivity.
Defined.

(** The total tax is the sum of the taxes of the items, not the tax on
  the total credit: on the two items of the sample invoice, 79.99 and
  15, at 13 percent, the taxes add up to 12.348700000000001 and the tax
  on their sum, 94.99, is 12.3487. *)
Example total_tax_is_not_tax_on_total :
of_Z 0 + of_Z 7999 / of_Z 100 + of_Z 15 = of_Z 9499 / of_Z 100
/\ of_Z 0 + calculateTax (of_Z 7999 / of_Z 100) (of_Z 13)
   + calculateTax (of_Z 15) (of_Z 13)
   = 0x1.8b288ce703afcp+3
/\ calculateTax (of_Z 9499 / of_Z 100) (of_Z 13) = 0x1.8b288ce703afbp+3.
Proof. repeat split; vm_compute; reflexivity. Qed.

(** A quotient times its divisor need not give the dividend back: 31
  divided by the 29 days of a February and multiplied by 29 is
  30.999999999999996. *)
Example quotient_times_divisor :
of_Z 31 / of_Z 29 * of_Z 29 = 0x1.effffffffffffp+4
/\ (of_Z 31 / of_Z 29 * of_Z 29 <? of_Z 31) = true
/\ of_Z 7999 / of_Z 100 / of_Z 29 * of_Z 29 = of_Z 7999 / of_Z 100.
Proof. repeat split; vm_compute; reflexivity. Qed.

End Binary64Facts.

(** ** Credit Calculator: the invoice-item-credit service *)

Module ServiceFacts.
Import Service.

(** The three copies of [calculateDaysBetween] are one function. *)
Lemma calculateDaysBetween_shared :
Service.calculateDaysBetween = Component.calculateDaysBetween
/\ Service.calculateDaysBetween = SingleService.calculateDaysBetween.
Proof. split; reflexivity. Qed.

(** *** Claim C7 *)

(** C7: when a credit request asks for a partial credit and gives both
  dates of the credit period, the credit of an item is
  [originalAmount * (creditDays / billingDays)], both day counts being
  those of [calculateDaysBetween]; when it does not ask for a partial
  credit, [creditAmount] is [originalAmount] and [creditPercentage]
  is [1]. *)
Theorem calculateItemCredit_modes
      (item : InvoiceItem.t) (creditRequest : CreditRequest.t) (taxRate : Q) :
let c := calculateItemCredit item creditRequest taxRate in
CreditCalculation.originalAmount c
= (Fin (InvoiceItem.unitPrice item) * Fin (InvoiceItem.quantity item))%num
/\ (forall creditStartDate creditEndDate,
       CreditRequest.isPartialCredit creditRequest = true ->
       CreditRequest.creditStartDate creditRequest = Some creditStartDate ->
       CreditRequest.creditEndDate creditRequest = Some creditEndDate ->
       let creditDays :=
         DaySpan.calculateDaysBetween creditStartDate creditEndDate in
       let billingDays :=
         DaySpan.calculateDaysBetween (InvoiceItem.serviceStartDate item)
                                      (InvoiceItem.serviceEndDate item) in
       CreditCalculation.creditAmount c
       = (CreditCalculation.originalAmount c * (creditDays / billingDays))%num
       /\ CreditCalculation.creditPercentage c = (creditDays / billingDays)%num
       /\ CreditCalculation.daysCredited c = creditDays
       /\ CreditCalculation.daysInBillingPeriod c = billingDays)
/\ (CreditRequest.isPartialCredit creditRequest = false ->
    CreditCalculation.creditAmount c = CreditCalculation.originalAmount c
    /\ CreditCalculation.creditPercentage c = of_Z 1).
Proof.
cbv zeta. unfold calculateItemCredit.
split; [| split].
- destruct (CreditRequest.isPartialCredit creditRequest),
    (CreditRequest.creditStartDate creditRequest),
    (CreditRequest.creditEndDate creditRequest); reflexivity.
- intros cs ce Hp Hs He. rewrite Hp, Hs, He. repeat split.
- intros Hp. rewrite Hp. split; reflexivity.
Qed.

(** Ten days of credit on the 31 billed days of the first sample item:
  ten thirty-firsts of its price. *)
Example item001_ten_days :
CreditCalculation.creditAmount
  (calculateItemCredit ServiceScenario.item001 ServiceScenario.tenDays 13)
=n= Fin ((7999 # 100) * (10 # 31)).
Proof. vm_compute. reflexivity. Qed.

(** A billing period that ends the day before it starts has no days, and
  the partial credit of a priced item is then infinite. *)
Example calculateItemCredit_zero_billing_days :
CreditCalculation.daysInBillingPeriod
  (calculateItemCredit
     (InvoiceItem.mk "ITEM-003" "Backdated" 10 1
                     (TimeValue 1704153600000) (TimeValue 1704067200000) None)
     ServiceScenario.tenDays 13) = of_Z 0
/\ CreditCalculation.creditAmount
     (calculateItemCredit
        (InvoiceItem.mk "ITEM-003" "Backdated" 10 1
                        (TimeValue 1704153600000) (TimeValue 1704067200000) None)
        ServiceScenario.tenDays 13) = PosInf.
Proof. split; vm_compute; reflexivity. Qed.

(** *** Claim C10 *)

(** C10: a request that asks for a partial credit and lacks the start or
  the end date of the credit period is credited in full: the calculation
  is the one of the same request with [isPartialCredit] false;
  [originalAmount] is [unitPrice * quantity], [creditPercentage] is [1],
  [creditAmount] is [originalAmount], the tax is charged on that amount,
  and [daysCredited] is [daysInBillingPeriod], the days of the service
  period of the item. *)
Theorem partial_without_dates_is_full
      (item : InvoiceItem.t) (creditRequest : CreditRequest.t) (taxRate : Q) :
CreditRequest.isPartialCredit creditRequest = true ->
CreditRequest.creditStartDate creditRequest = None
\/ CreditRequest.creditEndDate creditRequest = None ->
let c := calculateItemCredit item creditRequest taxRate in
c = calculateItemCredit item (withoutPartialCredit creditRequest) taxRate
/\ CreditCalculation.originalAmount c
   = (Fin (InvoiceItem.unitPrice item) * Fin (InvoiceItem.quantity item))%num
/\ CreditCalculation.creditPercentage c = of_Z 1
/\ CreditCalculation.creditAmount c = CreditCalculation.originalAmount c
/\ CreditCalculation.creditAmount c
   = (Fin (InvoiceItem.unitPrice item) * Fin (InvoiceItem.quantity item))%num
/\ CreditCalculation.proratedAmount c
   = (Fin (InvoiceItem.unitPrice item) * Fin (InvoiceItem.quantity item))%num
/\ CreditCalculation.taxOnCredit c
   = (Fin (InvoiceItem.unitPrice item) * Fin (InvoiceItem.quantity item)
      * (Fin taxRate / of_Z 100))%num
/\ CreditCalculation.totalCreditWithTax c
   = (CreditCalculation.creditAmount c + CreditCalculation.taxOnCredit c)%num
/\ CreditCalculation.daysCredited c = CreditCalculation.daysInBillingPeriod c
/\ CreditCalculation.daysInBillingPeriod c
   = DaySpan.calculateDaysBetween (InvoiceItem.serviceStartDate item)
                                  (InvoiceItem.serviceEndDate item).
Proof.
intros Hp Hd. cbv zeta. unfold calculateItemCredit, withoutPartialCredit.
cbn [CreditRequest.isPartialCredit CreditRequest.creditStartDate
     CreditRequest.creditEndDate].
rewrite Hp.
destruct Hd as [Hd | Hd]; rewrite Hd.
- repeat split.
- destruct (CreditRequest.creditStartDate creditRequest); repeat split.
Qed.

Lemma partial_without_dates_is_full_witness :
calculateItemCredit ServiceScenario.item001 ServiceScenario.noEndDate 13
= calculateItemCredit ServiceScenario.item001
                      (withoutPartialCredit ServiceScenario.noEndDate) 13
/\ CreditCalculation.originalAmount
     (calculateItemCredit ServiceScenario.item001 ServiceScenario.noEndDate 13)
   = (Fin (InvoiceItem.unitPrice ServiceScenario.item001)
      * Fin (InvoiceItem.quantity ServiceScenario.item001))%num
/\ CreditCalculation.creditPercentage
     (calculateItemCredit ServiceScenario.item001 ServiceScenario.noEndDate 13)
   = of_Z 1
/\ CreditCalculation.creditAmount
     (calculateItemCredit ServiceScenario.item001 ServiceScenario.noEndDate 13)
   = CreditCalculation.originalAmount
       (calculateItemCredit ServiceScenario.item001 ServiceScenario.noEndDate 13)
/\ CreditCalculation.creditAmount
     (calculateItemCredit ServiceScenario.item001 ServiceScenario.noEndDate 13)
   = (Fin (InvoiceItem.unitPrice ServiceScenario.item001)
      * Fin (InvoiceItem.quantity ServiceScenario.item001))%num
/\ CreditCalculation.proratedAmount
     (calculateItemCredit ServiceScenario.item001 ServiceScenario.noEndDate 13)
   = (Fin (InvoiceItem.unitPrice ServiceScenario.item001)
      * Fin (InvoiceItem.quantity ServiceScenario.item001))%num
/\ CreditCalculation.taxOnCredit
     (calculateItemCredit ServiceScenario.item001 ServiceScenario.noEndDate 13)
   = (Fin (InvoiceItem.unitPrice ServiceScenario.item001)
      * Fin (InvoiceItem.quantity ServiceScenario.item001)
      * (Fin 13 / of_Z 100))%num
/\ CreditCalculation.totalCreditWithTax
     (calculateItemCredit ServiceScenario.item001 ServiceScenario.noEndDate 13)
   = (CreditCalculation.creditAmount
        (calculateItemCredit ServiceScenario.item001 ServiceScenario.noEndDate 13)
      + CreditCalculation.taxOnCredit
          (calculateItemCredit ServiceScenario.item001
                               ServiceScenario.noEndDate 13))%num
/\ CreditCalculation.daysCredited
     (calculateItemCredit ServiceScenario.item001 ServiceScenario.noEndDate 13)
   = CreditCalculation.daysInBillingPeriod
       (calculateItemCredit ServiceScenario.item001 ServiceScenario.noEndDate 13)
/\ CreditCalculation.daysInBillingPeriod
     (calculateItemCredit ServiceScenario.item001 ServiceScenario.noEndDate 13)
   = DaySpan.calculateDaysBetween
       (InvoiceItem.serviceStartDate ServiceScenario.item001)
       (InvoiceItem.serviceEndDate ServiceScenario.item001).
Proof.
apply (partial_without_dates_is_full
         ServiceScenario.item001 ServiceScenario.noEndDate 13).
- reflexivity.
- right. reflexivity.
Defined.

(** The partial request without an end date on the first sample item:
  its whole price, 79.99, for the 31 days of January. *)
Example item001_without_end_date :
CreditCalculation.creditAmount
  (calculateItemCredit ServiceScenario.item001 ServiceScenario.noEndDate 13)
=n= Fin (7999 # 100)
/\ CreditCalculation.daysCredited
     (calculateItemCredit ServiceScenario.item001 ServiceScenario.noEndDate 13)
   = of_Z 31.
Proof. split; vm_compute; reflexivity. Qed.

(** *** Claim C9 *)

Lemma creditItems_namedItems
    (invoice : Invoice.t) (creditRequest : CreditRequest.t)
    (itemIds : list string) (calculations : list CreditCalculation.t) :
creditItems invoice creditRequest itemIds calculations
= calculations
  ++ map (fun item =>
            calculateItemCredit item creditRequest (Invoice.taxRate invoice))
         (namedItems (Invoice.items invoice) itemIds).
Proof.
revert calculations.
induction itemIds as [| itemId rest IH]; intro calculations.
- cbn. rewrite app_nil_r. reflexivity.
- cbn [creditItems namedItems flat_map].
  destruct (findItem (Invoice.items invoice) itemId) as [item |].
  + rewrite IH. cbn [app map]. rewrite <- app_assoc. reflexivity.
  + rewrite IH. reflexivity.
Qed.

Lemma findItem_Some (items : list InvoiceItem.t) (itemId : string) (item : InvoiceItem.t) :
findItem items itemId = Some item ->
In item items /\ InvoiceItem.id item = itemId /\ occurs items itemId = true.
Proof.
unfold findItem, occurs. intro H. apply find_some in H.
destruct H as [Hin Heq]. split; [exact Hin |].
split; [apply String.eqb_eq; exact Heq |].
apply existsb_exists. exists item. auto.
Qed.

Lemma findItem_None (items : list InvoiceItem.t) (itemId : string) :
findItem items itemId = None -> occurs items itemId = false.
Proof.
unfold findItem, occurs. intro H.
destruct (existsb _ items) eqn:E; [| reflexivity].
apply existsb_exists in E. destruct E as (i & Hin & Hi).
pose proof (find_none _ _ H i Hin) as Hn. cbv beta in Hn. congruence.
Qed.

Lemma namedItems_ids (items : list InvoiceItem.t) (itemIds : list string) :
map InvoiceItem.id (namedItems items itemIds) = filter (occurs items) itemIds
/\ Forall (fun item => In item items) (namedItems items itemIds).
Proof.
induction itemIds as [| itemId rest [IH1 IH2]]; [split; constructor |].
cbn [namedItems flat_map filter].
destruct (findItem items itemId) as [item |] eqn:E.
- apply findItem_Some in E. destruct E as (Hin & Hid & Hocc).
  rewrite Hocc. cbn [app map]. split.
  + fold (namedItems items rest). rewrite IH1, Hid. reflexivity.
  + constructor; assumption.
- apply findItem_None in E. rewrite E. cbn [app]. split; assumption.
Qed.

(** C9: an identifier of [itemsToCredit] that matches no item of the
  invoice is skipped, and [calculateCredit] returns a result all the
  same: its [calculations] hold one entry for each identifier of
  [itemsToCredit] that occurs among [invoice.items], in the order of
  [itemsToCredit], each entry the credit of an item of the invoice with
  that identifier. *)
Theorem calculateCredit_skips_unmatched
      (now : Z) (invoice : Invoice.t) (creditRequest : CreditRequest.t) :
let r := calculateCredit now invoice creditRequest in
let present :=
  filter (occurs (Invoice.items invoice))
         (CreditRequest.itemsToCredit creditRequest) in
List.length (CreditResult.calculations r) = List.length present
/\ exists matched,
    map InvoiceItem.id matched = present
    /\ Forall (fun item => In item (Invoice.items invoice)) matched
    /\ CreditResult.calculations r
       = map (fun item =>
                calculateItemCredit item creditRequest (Invoice.taxRate invoice))
             matched.
Proof.
cbv zeta. unfold calculateCredit. cbn [CreditResult.calculations].
rewrite creditItems_namedItems. cbn [app].
destruct (namedItems_ids (Invoice.items invoice)
                         (CreditRequest.itemsToCredit creditRequest))
  as [Hids Hin].
split.
- rewrite length_map, <- Hids, length_map. reflexivity.
- exists (namedItems (Invoice.items invoice)
                     (CreditRequest.itemsToCredit creditRequest)).
  auto.
Qed.

(** On the sample invoice, the unknown identifier is passed over. *)
Example tenDays_calculations :
map CreditCalculation.originalAmount
    (CreditResult.calculations
       (calculateCredit ServiceScenario.now createSampleInvoice
                        ServiceScenario.tenDays))
= [ (Fin (7999 # 100) * Fin 1)%num; (Fin 15 * Fin 1)%num ].
Proof. vm_compute. reflexivity. Qed.

Lemma reduce_sum {A : Type} (f : A -> number) (l : list A) (a : number) :
fold_left (fun sum x => (sum + f x)%num) l a = fold_left add (map f l) a.
Proof.
revert a. induction l as [| x l IH]; intro a; [reflexivity |].
cbn [fold_left map]. apply IH.
Qed.

(** The totals of the service are the sums over its calculations. *)
Lemma calculateCredit_totals
    (now : Z) (invoice : Invoice.t) (creditRequest : CreditRequest.t) :
let r := calculateCredit now invoice creditRequest in
CreditResult.totalCredit r
= sum (map CreditCalculation.creditAmount (CreditResult.calculations r))
/\ CreditResult.totalTax r
   = sum (map CreditCalculation.taxOnCredit (CreditResult.calculations r))
/\ CreditResult.finalCreditAmount r
   = (CreditResult.totalCredit r + CreditResult.totalTax r)%num
/\ CreditResult.calculationDate r = TimeValue now.
Proof.
cbv zeta. unfold calculateCredit.
cbn [CreditResult.totalCredit CreditResult.totalTax
     CreditResult.finalCreditAmount CreditResult.calculations
     CreditResult.calculationDate].
unfold sum.
rewrite (reduce_sum CreditCalculation.creditAmount),
  (reduce_sum CreditCalculation.taxOnCredit).
repeat split.
Qed.

End ServiceFacts.

(** ** Credit Calculator: the single-service component *)

Module SingleServiceFacts.
Import SingleService.

(** The single-service [calculateCredit] alerts one message and keeps the
  stored result as it was exactly when its service offends one of the
  checks; otherwise it stores a result and alerts nothing. *)
Lemma single_calculateCredit_cases (c : t) :
(offending c
 /\ calculationResult (calculateCredit c) = calculationResult c
 /\ exists msg, alerts (calculateCredit c) = alerts c ++ [msg])
\/ (~ offending c
    /\ (exists r, calculationResult (calculateCredit c) = Some r)
    /\ alerts (calculateCredit c) = alerts c).
Proof.
unfold calculateCredit, offending.
destruct c as [ds de p da tax busy res log].
cbn [invoiceStartDate invoiceEndDate pricePaid actualServiceStartDate
     taxRate isCalculating calculationResult alerts].
destruct ds as [ds |];
  [| left; cbn; split; [auto | split; [reflexivity | eexists; reflexivity]]].
destruct de as [de |];
  [| left; cbn; split; [auto | split; [reflexivity | eexists; reflexivity]]].
destruct da as [da |];
  [| left; cbn; split; [auto | split; [reflexivity | eexists; reflexivity]]].
cbn [blank orb Date_parse].
destruct (Fin p <=? of_Z 0)%num eqn:Hp.
{ left. apply price_leb_zero in Hp. cbn.
  split; [auto | split; [reflexivity | eexists; reflexivity]]. }
cbv zeta.
destruct (date_geb ds de) eqn:H1.
{ left. cbn. split; [| split; [reflexivity | eexists; reflexivity]].
  apply date_geb_true in H1. destruct H1 as (b & e & -> & -> & H).
  right. right. left. exists b, e. auto. }
destruct (date_ltb da ds) eqn:H2.
{ left. cbn. split; [| split; [reflexivity | eexists; reflexivity]].
  apply date_ltb_true in H2. destruct H2 as (a & b & -> & -> & H).
  do 3 right. left. exists b, a. auto. }
destruct (date_gtb da de) eqn:H3.
{ left. cbn. split; [| split; [reflexivity | eexists; reflexivity]].
  apply date_gtb_true in H3. destruct H3 as (a & e & -> & -> & H).
  do 4 right. exists e, a. auto. }
right. split; [| split; [eexists; reflexivity | reflexivity]].
intros [[H | [H | H]] | [H | [H | [H | H]]]]; try discriminate.
- apply price_leb_zero in H. congruence.
- destruct H as (b & e & Hb & He & Hle).
  injection Hb as ->. injection He as ->.
  assert (date_geb (TimeValue b) (TimeValue e) = true) as Ht
      by (apply date_geb_true; exists b, e; auto).
  congruence.
- destruct H as (b & a & Hb & Ha & Hlt).
  injection Hb as ->. injection Ha as ->.
  assert (date_ltb (TimeValue a) (TimeValue b) = true) as Ht
      by (apply date_ltb_true; exists a, b; auto).
  congruence.
- destruct H as (e & a & He & Ha & Hlt).
  injection He as ->. injection Ha as ->.
  assert (date_gtb (TimeValue a) (TimeValue e) = true) as Ht
      by (apply date_gtb_true; exists a, e; auto).
  congruence.
Qed.

End SingleServiceFacts.

(** ** Credit Calculator: editing the services of the component *)

Module ComponentEditFacts.
Import Component.

Lemma removeService_ids (i : Z) (services : list ServiceItem.t) :
  NoDup (map ServiceItem.id services) ->
  NoDup (map ServiceItem.id
             (filter (fun s => negb (ServiceItem.id s =? i)) services)).
Proof.
  intro Hnd. induction services as [| s rest IH]; [constructor |].
  cbn [map] in Hnd. apply NoDup_cons_iff in Hnd. destruct Hnd as [Hfresh Hrest].
  cbn [filter]. destruct (negb (ServiceItem.id s =? i)).
  - cbn [map]. apply NoDup_cons; [| exact (IH Hrest)].
    rewrite in_map_iff. intros (s' & Hid & Hin).
    apply filter_In in Hin. apply Hfresh.
    rewrite <- Hid. apply in_map. tauto.
  - exact (IH Hrest).
Qed.

Lemma updateService_ids (serviceId : Z) (fv : FieldValue) (l : list ServiceItem.t) :
  keepsIds (Update serviceId fv) ->
  map ServiceItem.id
      (map (fun service =>
              if ServiceItem.id service =? serviceId
              then withField service fv else service) l)
  = map ServiceItem.id l.
Proof.
  intro Hk. rewrite map_map. apply map_ext. intro s.
  destruct (ServiceItem.id s =? serviceId); [| reflexivity].
  destruct fv; cbn in Hk; try contradiction; reflexivity.
Qed.

Lemma applyEdit_wellNumbered (e : Edit) (c : t) :
  keepsIds e -> wellNumbered c -> wellNumbered (applyEdit e c).
Proof.
  intros Hk [Hlt Hnd]. destruct e as [n ds de p da | i | i fv]; cbn [applyEdit].
  - unfold wellNumbered, addService. cbv zeta. cbn [services nextServiceId].
    split.
    + apply Forall_app. split.
      * eapply Forall_impl; [| exact Hlt]. cbv beta. intros s Hs. lia.
      * constructor; [| constructor]. cbn [ServiceItem.id]. lia.
    + rewrite map_app. cbn [map ServiceItem.id].
      apply NoDup_app; [exact Hnd | repeat constructor; intros [] |].
      intros x Hin [Hx | []]. subst x.
      apply in_map_iff in Hin. destruct Hin as (s & Hs & Hin).
      rewrite Forall_forall in Hlt. specialize (Hlt s Hin). lia.
  - unfold wellNumbered, removeService. cbn [services nextServiceId].
    split.
    + rewrite Forall_forall in *. intros s Hin.
      apply filter_In in Hin. apply Hlt. tauto.
    + apply removeService_ids. exact Hnd.
  - unfold wellNumbered, updateService. cbv zeta. cbn [services nextServiceId].
    split.
    + assert (Forall (fun z => z < nextServiceId c)
                     (map ServiceItem.id (services c))) as H
          by (apply Forall_map; exact Hlt).
      rewrite <- (updateService_ids i fv (services c) Hk) in H.
      apply Forall_map in H. exact H.
    + rewrite (updateService_ids i fv (services c) Hk). exact Hnd.
Qed.

(** Whatever services are added, removed and updated, as long as no
    update writes the [id] key, the services keep distinct identifiers,
    all below [nextServiceId]. *)
Theorem edits_keep_ids_distinct (es : list Edit) (c : t) :
  wellNumbered c ->
  Forall keepsIds es ->
  wellNumbered (applyAll es c).
Proof.
  revert c. induction es as [| e es IH]; intros c Hc Hes; [exact Hc |].
  inversion Hes as [| ? ? He Hes']; subst.
  cbn [applyAll fold_left]. apply IH; [| exact Hes'].
  apply applyEdit_wellNumbered; assumption.
Qed.

Lemma created_wellNumbered : wellNumbered created.
Proof. split; constructor. Qed.

Lemma edits_keep_ids_distinct_witness :
  wellNumbered
    (applyAll [ Add "Internet Service" (Some (TimeValue Scenario.jan01)) (Some (TimeValue Scenario.jan31))
                    (7999 # 100) (Some (TimeValue Scenario.jan10));
                Add "" None None 0 None;
                Update 2 (SetServiceName "Static IP Address");
                Remove 1;
                Add "" None None 0 None ]
              created).
Proof.
  apply (edits_keep_ids_distinct
           [ Add "Internet Service" (Some (TimeValue Scenario.jan01)) (Some (TimeValue Scenario.jan31))
                 (7999 # 100) (Some (TimeValue Scenario.jan10));
             Add "" None None 0 None;
             Update 2 (SetServiceName "Static IP Address");
             Remove 1;
             Add "" None None 0 None ]
           created).
  - split; constructor.
  - repeat constructor.
Defined.

(** An update that writes the [id] key can make two services share an
    identifier. *)
Example update_id_clashes :
  map ServiceItem.id
      (services (applyAll [ Add "a" None None 0 None; Add "b" None None 0 None;
                            Update 2 (SetId 1) ] created))
  = [1; 1].
Proof. reflexivity. Qed.

(** Removing the service that was just added gives the services back:
    with every identifier below [nextServiceId], [removeService] of the
    new identifier undoes [addService], but for the counter. *)
Theorem removeService_undoes_addService
        (serviceName : string) (invoiceStartDate invoiceEndDate : DateString)
        (pricePaid : Q) (actualServiceStartDate : DateString) (c : t) :
  Forall (fun s => ServiceItem.id s < nextServiceId c) (services c) ->
  removeService (nextServiceId c)
    (addService serviceName invoiceStartDate invoiceEndDate pricePaid
                actualServiceStartDate c)
  = mk (taxRate c) (services c) (nextServiceId c + 1) (isCalculating c)
       (calculationResult c) (alerts c).
Proof.
  intro Hlt. unfold removeService, addService. cbv zeta.
  cbn [taxRate services nextServiceId isCalculating calculationResult alerts].
  f_equal. rewrite filter_app. cbn [filter ServiceItem.id].
  rewrite Z.eqb_refl. cbn [negb]. rewrite app_nil_r.
  apply forallb_filter_id. apply forallb_forall. intros s Hin.
  rewrite Forall_forall in Hlt. specialize (Hlt s Hin).
  apply negb_true_iff, Z.eqb_neq. lia.
Qed.

Lemma removeService_undoes_addService_witness :
  removeService 2
    (addService "Static IP Address" None None 15 (Some (TimeValue Scenario.jan01))
                (mk 13 [Scenario.internet] 2 false None []))
  = mk 13 [Scenario.internet] 3 false None [].
Proof.
  apply (removeService_undoes_addService
           "Static IP Address" None None 15 (Some (TimeValue Scenario.jan01))
           (mk 13 [Scenario.internet] 2 false None [])).
  repeat constructor.
Defined.

(** *** Looking services up *)

Lemma find_filter_other (i j : Z) (l : list ServiceItem.t) :
  j <> i ->
  find (fun s => ServiceItem.id s =? j)
       (filter (fun s => negb (ServiceItem.id s =? i)) l)
  = find (fun s => ServiceItem.id s =? j) l.
Proof.
  intro Hij. induction l as [| x l IH]; [reflexivity |].
  cbn [filter find].
  destruct (Z.eqb_spec (ServiceItem.id x) i) as [Hi | Hi]; cbn [negb].
  - destruct (Z.eqb_spec (ServiceItem.id x) j) as [Hj | Hj]; [congruence |].
    exact IH.
  - cbn [find]. destruct (ServiceItem.id x =? j); [reflexivity | exact IH].
Qed.

(** After [removeService(i)] no service is found under [i], and every
    other identifier finds what it found before. *)
Theorem removeService_lookup (i : Z) (c : t) :
  getServiceById i (removeService i c) = None
  /\ (forall j, j <> i ->
        getServiceById j (removeService i c) = getServiceById j c).
Proof.
  unfold getServiceById, removeService. cbn [services].
  split.
  - destruct (find _ (filter _ (services c))) as [s |] eqn:E; [| reflexivity].
    apply find_some in E. destruct E as [Hin Heq].
    apply filter_In in Hin. destruct Hin as [_ Hne].
    rewrite Heq in Hne. discriminate Hne.
  - intros j Hij. apply find_filter_other. exact Hij.
Qed.

(** With no service under [i], [removeService(i)] and
    [updateService(i, field, value)] change nothing. *)
Theorem edits_of_absent_id_do_nothing (i : Z) (c : t) :
  getServiceById i c = None ->
  removeService i c = c
  /\ forall fv, updateService i fv c = c.
Proof.
  intro Hnone. destruct c as [tax l next busy res log].
  unfold getServiceById, removeService, updateService in *. cbv zeta.
  cbn [taxRate services nextServiceId isCalculating calculationResult alerts] in *.
  split.
  - f_equal. apply forallb_filter_id. apply forallb_forall. intros s Hin.
    pose proof (find_none _ _ Hnone s Hin) as H. cbv beta in H.
    rewrite H. reflexivity.
  - intro fv. f_equal. rewrite <- (map_id l) at 2. apply map_ext_in.
    intros s Hin.
    pose proof (find_none _ _ Hnone s Hin) as H. cbv beta in H.
    rewrite H. reflexivity.
Qed.

Lemma edits_of_absent_id_do_nothing_witness :
  removeService 7 (mk 13 Scenario.january 3 false None [])
  = mk 13 Scenario.january 3 false None []
  /\ forall fv,
      updateService 7 fv (mk 13 Scenario.january 3 false None [])
      = mk 13 Scenario.january 3 false None [].
Proof.
  apply (edits_of_absent_id_do_nothing 7 (mk 13 Scenario.january 3 false None [])).
  reflexivity.
Defined.

Lemma withField_id (s : ServiceItem.t) (i : Z) (fv : FieldValue) :
  keepsIds (Update i fv) -> ServiceItem.id (withField s fv) = ServiceItem.id s.
Proof. destruct fv; cbn; intro H; try contradiction; reflexivity. Qed.

(** After [updateService(i, field, value)] on a key other than [id], the
    service found under [i] is the one found before with the new value
    under the key, and every other identifier finds what it found
    before; the number of services is the same. *)
Theorem updateService_lookup (i : Z) (fv : FieldValue) (c : t) :
  keepsIds (Update i fv) ->
  getServiceById i (updateService i fv c)
  = option_map (fun s => withField s fv) (getServiceById i c)
  /\ (forall j, j <> i ->
        getServiceById j (updateService i fv c) = getServiceById j c)
  /\ List.length (services (updateService i fv c)) = List.length (services c).
Proof.
  intro Hk. unfold getServiceById, updateService. cbv zeta. cbn [services].
  split; [| split].
  - induction (services c) as [| x l IH]; [reflexivity |].
    cbn [map find].
    destruct (Z.eqb_spec (ServiceItem.id x) i) as [Hi | Hi].
    + rewrite (withField_id x i fv Hk), Hi, Z.eqb_refl. reflexivity.
    + destruct (Z.eqb_spec (ServiceItem.id x) i); [contradiction | exact IH].
  - intros j Hij. induction (services c) as [| x l IH]; [reflexivity |].
    cbn [map find].
    destruct (Z.eqb_spec (ServiceItem.id x) i) as [Hi | Hi].
    + rewrite (withField_id x i fv Hk).
      destruct (Z.eqb_spec (ServiceItem.id x) j); [congruence | exact IH].
    + destruct (ServiceItem.id x =? j); [reflexivity | exact IH].
  - apply length_map.
Qed.

Lemma updateService_lookup_witness :
  getServiceById 1
    (updateService 1 (SetPricePaid 60) (mk 13 Scenario.january 3 false None []))
  = option_map (fun s => withField s (SetPricePaid 60))
               (getServiceById 1 (mk 13 Scenario.january 3 false None []))
  /\ (forall j, j <> 1 ->
        getServiceById j
          (updateService 1 (SetPricePaid 60)
                         (mk 13 Scenario.january 3 false None []))
        = getServiceById j (mk 13 Scenario.january 3 false None []))
  /\ List.length
       (services (updateService 1 (SetPricePaid 60)
                                (mk 13 Scenario.january 3 false None [])))
     = List.length (services (mk 13 Scenario.january 3 false None [])).
Proof.
  apply (updateService_lookup 1 (SetPricePaid 60)
           (mk 13 Scenario.january 3 false None [])).
  exact I.
Defined.

Lemma find_app_new (j : Z) (l : list ServiceItem.t) (x : ServiceItem.t) :
  find (fun s => ServiceItem.id s =? j) (l ++ [x])
  = match find (fun s => ServiceItem.id s =? j) l with
    | Some s => Some s
    | None => if ServiceItem.id x =? j then Some x else None
    end.
Proof.
  induction l as [| y l IH]; cbn [app find]; [reflexivity |].
  destruct (ServiceItem.id y =? j); [reflexivity | exact IH].
Qed.

(** With every identifier below [nextServiceId], the service that
    [addService] adds is the last one, is found under the identifier
    [nextServiceId] had, and bears the name given; every other identifier
    finds what it found before. *)
Theorem addService_lookup
        (serviceName : string) (invoiceStartDate invoiceEndDate : DateString)
        (pricePaid : Q) (actualServiceStartDate : DateString) (c : t) :
  Forall (fun s => ServiceItem.id s < nextServiceId c) (services c) ->
  let c' := addService serviceName invoiceStartDate invoiceEndDate pricePaid
                       actualServiceStartDate c in
  (exists s,
      getServiceById (nextServiceId c) c' = Some s
      /\ lastService (services c') = Some s
      /\ ServiceItem.id s = nextServiceId c
      /\ ServiceItem.serviceName s = serviceName)
  /\ (forall j, j <> nextServiceId c ->
        getServiceById j c' = getServiceById j c)
  /\ List.length (services c') = S (List.length (services c)).
Proof.
  intro Hlt. cbv zeta. unfold getServiceById, addService. cbv zeta.
  cbn [services]. split; [| split].
  - eexists. split; [| split; [| split]].
    + rewrite find_app_new. cbn [ServiceItem.id]. rewrite Z.eqb_refl.
      destruct (find _ (services c)) as [s |] eqn:E; [| reflexivity].
      exfalso. apply find_some in E. destruct E as [Hin Heq].
      rewrite Forall_forall in Hlt. specialize (Hlt s Hin).
      apply Z.eqb_eq in Heq. lia.
    + unfold lastService at 1. rewrite length_app. cbn [List.length].
      replace (0 <? Z.of_nat (List.length (services c) + 1)) with true
        by (symmetry; apply Z.ltb_lt; lia).
      replace (List.length (services c) + 1 - 1)%nat
        with (List.length (services c)) by lia.
      rewrite nth_error_app2 by lia. rewrite Nat.sub_diag. reflexivity.
    + reflexivity.
    + reflexivity.
  - intros j Hj. rewrite find_app_new. cbn [ServiceItem.id].
    destruct (find _ (services c)); [reflexivity |].
    destruct (Z.eqb_spec (nextServiceId c) j); [congruence | reflexivity].
  - rewrite length_app. cbn [List.length]. lia.
Qed.

Lemma addService_lookup_witness :
  (exists s,
      getServiceById 3
        (addService "Phone" None None 0 None
                    (mk 13 Scenario.january 3 false None [])) = Some s
      /\ lastService
           (services (addService "Phone" None None 0 None
                                 (mk 13 Scenario.january 3 false None [])))
         = Some s
      /\ ServiceItem.id s = 3
      /\ ServiceItem.serviceName s = "Phone"%string)
  /\ (forall j, j <> 3 ->
        getServiceById j
          (addService "Phone" None None 0 None
                      (mk 13 Scenario.january 3 false None []))
        = getServiceById j (mk 13 Scenario.january 3 false None []))
  /\ List.length
       (services (addService "Phone" None None 0 None
                             (mk 13 Scenario.january 3 false None [])))
     = S (List.length (services (mk 13 Scenario.january 3 false None []))).
Proof.
  apply (addService_lookup "Phone" None None 0 None
           (mk 13 Scenario.january 3 false None [])).
  repeat constructor.
Defined.

End ComponentEditFacts.

(** ** Credit Calculator: what a calculation leaves behind *)

Module ComponentRunFacts.
Import Component.
Import ComponentFacts.

(** [calculateCredit] never touches the services, the tax rate or the
    identifier counter.  A run that fails alerts exactly one message and
    leaves the result of an earlier calculation stored; a run that
    succeeds stores its result and alerts nothing.  [isCalculating] is
    not left set by a run that found it clear. *)
Theorem calculateCredit_effects (c : t) :
  taxRate (calculateCredit c) = taxRate c
  /\ services (calculateCredit c) = services c
  /\ nextServiceId (calculateCredit c) = nextServiceId c
  /\ ((calculationResult (calculateCredit c) = calculationResult c
       /\ exists msg, alerts (calculateCredit c) = alerts c ++ [msg])
      \/ (exists r, calculationResult (calculateCredit c) = Some r
                    /\ alerts (calculateCredit c) = alerts c
                    /\ isCalculating (calculateCredit c) = false))
  /\ (isCalculating c = false -> isCalculating (calculateCredit c) = false).
Proof.
  unfold calculateCredit.
  destruct (Z.of_nat (List.length (services c)) =? 0).
  { cbn. repeat split; auto. left. split; [reflexivity |]. eexists. reflexivity. }
  destruct (validateServices (services c)) as [msg |].
  { cbn. repeat split; auto. left. split; [reflexivity |]. eexists. reflexivity. }
  cbv zeta.
  destruct (calculateServices _ _ _) as [msg | totals].
  - cbn. repeat split; auto. left. split; [reflexivity |]. eexists. reflexivity.
  - cbn. repeat split; auto. right. eexists. repeat split.
Qed.

(** A service added without a name makes the next calculation fail,
    whatever its other fields and whatever the other services: no result
    is stored and one message is alerted. *)
Theorem unnamed_service_blocks_calculation
        (invoiceStartDate invoiceEndDate : DateString)
        (pricePaid : Q) (actualServiceStartDate : DateString) (c : t) :
  let c' := addService "" invoiceStartDate invoiceEndDate pricePaid
                       actualServiceStartDate c in
  calculationResult (calculateCredit c') = calculationResult c
  /\ exists msg, alerts (calculateCredit c') = alerts c ++ [msg].
Proof.
  cbv zeta.
  destruct (calculateCredit_cases
              (addService "" invoiceStartDate invoiceEndDate pricePaid
                          actualServiceStartDate c))
    as [(_ & Hv & _) | (_ & Hr & Hm)].
  - exfalso. unfold addService in Hv. cbv zeta in Hv. cbn [services] in Hv.
    rewrite forallb_app in Hv. apply andb_prop in Hv. destruct Hv as [_ Hv].
    cbn [forallb] in Hv. unfold validb, passesValidation in Hv.
    cbn [ServiceItem.serviceName empty orb negb andb] in Hv. discriminate Hv.
  - split; [exact Hr | exact Hm].
Qed.

Lemma validateServices_first (l1 l2 : list ServiceItem.t) (s : ServiceItem.t) :
  forallb passesValidation l1 = true ->
  passesValidation s = false ->
  validateServices (l1 ++ s :: l2) = Some (validationMessage s).
Proof.
  intros H1 Hs. induction l1 as [| x l1 IH]; cbn [app validateServices].
  - unfold passesValidation in Hs. unfold validationMessage.
    destruct (empty (ServiceItem.serviceName s)
              || blank (ServiceItem.invoiceStartDate s)
              || blank (ServiceItem.invoiceEndDate s)
              || blank (ServiceItem.actualServiceStartDate s)
              || (Fin (ServiceItem.pricePaid s) <=? of_Z 0)%num);
      [reflexivity |].
    cbv zeta. cbn [negb andb] in Hs. apply negb_false_iff in Hs.
    rewrite Hs. reflexivity.
  - cbn [forallb] in H1. apply andb_prop in H1. destruct H1 as [Hx H1].
    unfold passesValidation in Hx. apply andb_prop in Hx. destruct Hx as [Ha Hb].
    apply negb_true_iff in Ha. apply negb_true_iff in Hb.
    rewrite Ha. cbv zeta. rewrite Hb. apply IH. exact H1.
Qed.

Lemma calculateServices_first
      (taxRate : Q) (l1 l2 : list ServiceItem.t) (s : ServiceItem.t) (acc : Totals) :
  forallb startsInPeriod l1 = true ->
  startsInPeriod s = false ->
  calculateServices taxRate (l1 ++ s :: l2) acc = inl (periodMessage s).
Proof.
  intros H1 Hs. revert acc.
  induction l1 as [| x l1 IH]; intro acc; cbn [app calculateServices]; cbv zeta.
  - unfold startsInPeriod in Hs. unfold periodMessage.
    destruct (date_ltb (Date_parse (ServiceItem.actualServiceStartDate s))
                       (Date_parse (ServiceItem.invoiceStartDate s)));
      [reflexivity |].
    cbn [negb andb] in Hs. apply negb_false_iff in Hs. rewrite Hs. reflexivity.
  - cbn [forallb] in H1. apply andb_prop in H1. destruct H1 as [Hx H1].
    unfold startsInPeriod in Hx. apply andb_prop in Hx. destruct Hx as [Ha Hb].
    apply negb_true_iff in Ha. apply negb_true_iff in Hb.
    rewrite Ha, Hb. apply IH. exact H1.
Qed.

(** The one message of a failed run is about the first service that fails
    the checks of the first loop (required fields, price, billing
    period), wherever it stands and whatever the service start dates of
    the services before it. *)
Theorem first_invalid_service_is_reported
        (c : t) (l1 l2 : list ServiceItem.t) (s : ServiceItem.t) :
  services c = l1 ++ s :: l2 ->
  forallb passesValidation l1 = true ->
  passesValidation s = false ->
  alerts (calculateCredit c) = alerts c ++ [validationMessage s].
Proof.
  intros Hs H1 H2. unfold calculateCredit. rewrite Hs.
  replace (Z.of_nat (List.length (l1 ++ s :: l2)) =? 0) with false
    by (symmetry; apply Z.eqb_neq; rewrite length_app; cbn [List.length]; lia).
  rewrite (validateServices_first l1 l2 s H1 H2). reflexivity.
Qed.

Lemma first_invalid_service_is_reported_witness :
  alerts (calculateCredit
            (mk 13 [ ServiceItem.mk 1 "Early" (Some (TimeValue Scenario.jan10))
                                    (Some (TimeValue Scenario.jan31)) 10 (Some (TimeValue Scenario.jan01));
                     ServiceItem.mk 2 "" None None 0 None ]
                3 false None ["earlier"%string]))
  = ["earlier"%string]
    ++ [validationMessage (ServiceItem.mk 2 "" None None 0 None)].
Proof.
  apply (first_invalid_service_is_reported
           (mk 13 [ ServiceItem.mk 1 "Early" (Some (TimeValue Scenario.jan10))
                                   (Some (TimeValue Scenario.jan31)) 10 (Some (TimeValue Scenario.jan01));
                    ServiceItem.mk 2 "" None None 0 None ]
               3 false None ["earlier"%string])
           [ ServiceItem.mk 1 "Early" (Some (TimeValue Scenario.jan10))
                            (Some (TimeValue Scenario.jan31)) 10 (Some (TimeValue Scenario.jan01)) ]
           []
           (ServiceItem.mk 2 "" None None 0 None)).
  - reflexivity.
  - reflexivity.
  - reflexivity.
Defined.

(** When every service passes the checks of the first loop, the one
    message of a failed run is about the first service whose start date
    lies outside its billing period. *)
Theorem first_service_outside_period_is_reported
        (c : t) (l1 l2 : list ServiceItem.t) (s : ServiceItem.t) :
  services c = l1 ++ s :: l2 ->
  forallb passesValidation (services c) = true ->
  forallb startsInPeriod l1 = true ->
  startsInPeriod s = false ->
  alerts (calculateCredit c) = alerts c ++ [periodMessage s]
  /\ isCalculating (calculateCredit c) = false.
Proof.
  intros Hs Hv H1 H2. unfold calculateCredit.
  rewrite (validateServices_passes _ Hv). rewrite Hs.
  replace (Z.of_nat (List.length (l1 ++ s :: l2)) =? 0) with false
    by (symmetry; apply Z.eqb_neq; rewrite length_app; cbn [List.length]; lia).
  cbv zeta. cbn [taxRate services set_isCalculating]. rewrite Hs.
  rewrite (calculateServices_first _ l1 l2 s _ H1 H2). split; reflexivity.
Qed.

Lemma first_service_outside_period_is_reported_witness :
  alerts (calculateCredit
            (mk 13 [ Scenario.internet;
                     ServiceItem.mk 2 "Early" (Some (TimeValue Scenario.jan10))
                                    (Some (TimeValue Scenario.jan31)) 10 (Some (TimeValue Scenario.jan01)) ]
                3 false None []))
  = [] ++ [periodMessage
             (ServiceItem.mk 2 "Early" (Some (TimeValue Scenario.jan10))
                             (Some (TimeValue Scenario.jan31)) 10 (Some (TimeValue Scenario.jan01)))]
  /\ isCalculating
       (calculateCredit
          (mk 13 [ Scenario.internet;
                   ServiceItem.mk 2 "Early" (Some (TimeValue Scenario.jan10))
                                  (Some (TimeValue Scenario.jan31)) 10 (Some (TimeValue Scenario.jan01)) ]
              3 false None []))
     = false.
Proof.
  apply (first_service_outside_period_is_reported
           (mk 13 [ Scenario.internet;
                    ServiceItem.mk 2 "Early" (Some (TimeValue Scenario.jan10))
                                   (Some (TimeValue Scenario.jan31)) 10 (Some (TimeValue Scenario.jan01)) ]
               3 false None [])
           [Scenario.internet] []
           (ServiceItem.mk 2 "Early" (Some (TimeValue Scenario.jan10))
                           (Some (TimeValue Scenario.jan31)) 10 (Some (TimeValue Scenario.jan01)))).
  - reflexivity.
  - vm_compute. reflexivity.
  - vm_compute. reflexivity.
  - vm_compute. reflexivity.
Defined.

(** A service before its billing period, followed by a service without a
    name: the run reports the second. *)
Example later_missing_field_wins :
  alerts (calculateCredit
            (mk 13 [ ServiceItem.mk 1 "Early" (Some (TimeValue Scenario.jan10))
                                    (Some (TimeValue Scenario.jan31)) 10 (Some (TimeValue Scenario.jan01));
                     ServiceItem.mk 2 "" None None 0 None ]
                3 false None []))
  = ["Please fill in all fields for service: Unnamed Service"%string].
Proof. vm_compute. reflexivity. Qed.

End ComponentRunFacts.

(** ** Day-Span Calculator: inverted periods, adjacent periods *)


Lemma daysBetween_adjacent (s m e : Z) :
  atMidnight s -> atMidnight m ->
  daysBetween s e = daysBetween s m + daysBetween m e - 1.
Proof.
  intros Hs Hm. symmetry. apply daysBetween_unique.
  rewrite (daysBetween_midnights s m Hs Hm).
  pose proof (daysBetween_bounds m e) as Hb. pose proof msPerDay_pos as Hp.
  unfold atMidnight, dayOf in *.
  pose proof (Z.div_mod s msPerDay ltac:(lia)).
  pose proof (Z.div_mod m msPerDay ltac:(lia)).
  nia.
Qed.

(** Two periods that share a day, the first between two midnights (UTC):
    the count of the whole is the sum of the two counts less the shared
    day. *)
Theorem calculateDaysBetween_adjacent (s m e : Z) :
  atMidnight s -> atMidnight m ->
  (calculateDaysBetween (TimeValue s) (TimeValue e)
   = calculateDaysBetween (TimeValue s) (TimeValue m)
     + calculateDaysBetween (TimeValue m) (TimeValue e) - of_Z 1)%num.
Proof.
  intros Hs Hm. rewrite !calculateDaysBetween_valid, of_Z_add, of_Z_sub.
  f_equal. apply daysBetween_adjacent; assumption.
Qed.

Lemma calculateDaysBetween_adjacent_witness :
  (calculateDaysBetween (TimeValue Scenario.jan01) (TimeValue Scenario.jan31)
   = calculateDaysBetween (TimeValue Scenario.jan01) (TimeValue Scenario.jan10)
     + calculateDaysBetween (TimeValue Scenario.jan10) (TimeValue Scenario.jan31)
     - of_Z 1)%num.
Proof.
  apply (calculateDaysBetween_adjacent Scenario.jan01 Scenario.jan10 Scenario.jan31).
  - reflexivity.
  - reflexivity.
Defined.

(** Without the midnights the sum can be a day more than the whole. *)
Example calculateDaysBetween_not_adjacent :
  calculateDaysBetween (TimeValue 0) (TimeValue 86400000) = of_Z 2
  /\ (calculateDaysBetween (TimeValue 0) (TimeValue 43200000)
      + calculateDaysBetween (TimeValue 43200000) (TimeValue 86400000)
      - of_Z 1)%num = of_Z 3.
Proof. split; vm_compute; reflexivity. Qed.

(** The count does not decrease when the start moves back or the end
    moves on. *)
Theorem calculateDaysBetween_monotone (s s' e e' : Z) :
  s' <= s -> e <= e' ->
  (calculateDaysBetween (TimeValue s) (TimeValue e)
   <=? calculateDaysBetween (TimeValue s') (TimeValue e'))%num = true.
Proof.
  intros Hs He. rewrite !calculateDaysBetween_valid.
  unfold leb, of_Z. rewrite Qle_bool_inject_Z. apply Z.leb_le.
  unfold daysBetween.
  assert ((s' - e') / msPerDay <= (s - e) / msPerDay).
  { apply Z.div_le_mono; [apply msPerDay_pos | lia]. }
  lia.
Qed.

Lemma calculateDaysBetween_monotone_witness :
  (calculateDaysBetween (TimeValue Scenario.jan10) (TimeValue Scenario.jan10)
   <=? calculateDaysBetween (TimeValue Scenario.jan01) (TimeValue Scenario.jan31))%num
  = true.
Proof.
  apply (calculateDaysBetween_monotone
           Scenario.jan10 Scenario.jan01 Scenario.jan10 Scenario.jan31).
  - vm_compute. discriminate.
  - vm_compute. discriminate.
Defined.

(** ** Credit Calculator: what the amounts satisfy *)

Module ComponentAmountFacts.
Import Component.
Import ComponentFacts.

Lemma inject_Z_pos (n : Z) : 0 < n -> (0 < inject_Z n)%Q.
Proof. intro H. change 0%Q with (inject_Z 0). rewrite <- Zlt_Qlt. exact H. Qed.

Lemma rate_pos (p : Q) (n : Z) : (0 < p)%Q -> 0 < n -> (0 < p / inject_Z n)%Q.
Proof.
  intros Hp Hn. apply Qlt_shift_div_l; [apply inject_Z_pos; exact Hn |].
  rewrite Qmult_0_l. exact Hp.
Qed.



(** Service that starts on the last billed day: every day but that one
    is credited. *)
Example last_day_start :
  CreditCalculation.daysWithoutService
    (serviceCalculation 13
       (ServiceItem.mk 1 "Late" (Some (TimeValue Scenario.jan01)) (Some (TimeValue Scenario.jan31))
                       31 (Some (TimeValue Scenario.jan31))))
  = of_Z 30
  /\ CreditCalculation.creditAmount
       (serviceCalculation 13
          (ServiceItem.mk 1 "Late" (Some (TimeValue Scenario.jan01)) (Some (TimeValue Scenario.jan31))
                          31 (Some (TimeValue Scenario.jan31))))
     =n= of_Z 30.
Proof. split; vm_compute; reflexivity. Qed.

(** Of two services of one calculation with the same billing period,
    whose two dates are the text of dates, and the same price, the one
    whose service started later has no smaller a credit. *)
Theorem creditAmount_grows_with_service_start
        (items : list ServiceItem.t) (taxRate : Q) (r : CombinedCreditResult.t)
        (i j : nat) (s s' : ServiceItem.t) (c c' : CreditCalculation.t)
        (b e a a' : Z) :
  calculate items taxRate = Result r ->
  nth_error items i = Some s ->
  nth_error items j = Some s' ->
  nth_error (CombinedCreditResult.services r) i = Some c ->
  nth_error (CombinedCreditResult.services r) j = Some c' ->
  ServiceItem.invoiceStartDate s = Some (TimeValue b) ->
  ServiceItem.invoiceEndDate s = Some (TimeValue e) ->
  ServiceItem.invoiceStartDate s = ServiceItem.invoiceStartDate s' ->
  ServiceItem.invoiceEndDate s = ServiceItem.invoiceEndDate s' ->
  ServiceItem.pricePaid s = ServiceItem.pricePaid s' ->
  ServiceItem.actualServiceStartDate s = Some (TimeValue a) ->
  ServiceItem.actualServiceStartDate s' = Some (TimeValue a') ->
  a <= a' ->
  (CreditCalculation.creditAmount c <=? CreditCalculation.creditAmount c')%num
  = true.
Proof.
  intros Hr Hs Hs' Hc Hc' Hb He Hstart Hend Hprice Ha Ha' Hle.
  destruct (result_item _ _ _ _ _ _ Hr Hs Hc) as [Hv ->].
  destruct (result_item _ _ _ _ _ _ Hr Hs' Hc') as [Hv' ->].
  destruct (valid_inv s b e a Hv Hb He Ha) as [Hbe Hae].
  pose proof (valid_price s Hv) as Hp.
  rewrite (serviceCalculation_dates taxRate s b e a Hb He Ha Hbe).
  rewrite Hstart in Hb. rewrite Hend in He.
  rewrite (serviceCalculation_dates taxRate s' b e a' Hb He Ha' Hbe).
  cbn [CreditCalculation.creditAmount]. rewrite <- Hprice.
  unfold leb. apply Qle_bool_iff.
  pose proof (daysBetween_ge_2 b e Hbe) as Hn.
  pose proof (daysBetween_mono b a a' Hle) as Hd.
  rewrite !(Qmult_comm (ServiceItem.pricePaid s / inject_Z (daysBetween b e))).
  apply Qmult_le_compat_r.
  - rewrite <- Zle_Qle. lia.
  - apply Qlt_le_weak. apply rate_pos; [exact Hp | lia].
Qed.

Lemma creditAmount_grows_with_service_start_witness :
  (CreditCalculation.creditAmount Scenario.staticIpCalc
   <=? CreditCalculation.creditAmount
         (serviceCalculation Scenario.taxRate
            (ServiceItem.mk 3 "Static IP Address" (Some (TimeValue Scenario.jan01))
                            (Some (TimeValue Scenario.jan31)) 15 (Some (TimeValue Scenario.jan10)))))%num
  = true.
Proof.
  apply (creditAmount_grows_with_service_start
           [ Scenario.staticIp;
             ServiceItem.mk 3 "Static IP Address" (Some (TimeValue Scenario.jan01))
                            (Some (TimeValue Scenario.jan31)) 15 (Some (TimeValue Scenario.jan10)) ]
           Scenario.taxRate
           (resultOf [ Scenario.staticIp;
                       ServiceItem.mk 3 "Static IP Address" (Some (TimeValue Scenario.jan01))
                                      (Some (TimeValue Scenario.jan31)) 15 (Some (TimeValue Scenario.jan10)) ]
                     Scenario.taxRate)
           0%nat 1%nat
           Scenario.staticIp
           (ServiceItem.mk 3 "Static IP Address" (Some (TimeValue Scenario.jan01))
                           (Some (TimeValue Scenario.jan31)) 15 (Some (TimeValue Scenario.jan10)))
           Scenario.staticIpCalc
           (serviceCalculation Scenario.taxRate
              (ServiceItem.mk 3 "Static IP Address" (Some (TimeValue Scenario.jan01))
                              (Some (TimeValue Scenario.jan31)) 15 (Some (TimeValue Scenario.jan10))))
           Scenario.jan01 Scenario.jan31 Scenario.jan01 Scenario.jan10).
  - vm_compute. reflexivity.
  - reflexivity.
  - reflexivity.
  - reflexivity.
  - reflexivity.
  - reflexivity.
  - reflexivity.
  - reflexivity.
  - reflexivity.
  - reflexivity.
  - reflexivity.
  - reflexivity.
  - vm_compute. discriminate.
Defined.

(** With the billing period starting and service starting at midnights
    (UTC), as dates typed into the form do, the billed days are the days
    without service and the days from the service start to the end of
    the period. *)
Theorem billed_days_split
        (items : list ServiceItem.t) (taxRate : Q)
        (r : CombinedCreditResult.t) (i : nat) (s : ServiceItem.t)
        (c : CreditCalculation.t) (b e a : Z) :
  calculate items taxRate = Result r ->
  nth_error items i = Some s ->
  nth_error (CombinedCreditResult.services r) i = Some c ->
  ServiceItem.invoiceStartDate s = Some (TimeValue b) ->
  ServiceItem.invoiceEndDate s = Some (TimeValue e) ->
  ServiceItem.actualServiceStartDate s = Some (TimeValue a) ->
  atMidnight b -> atMidnight a ->
  CreditCalculation.totalBillingDays c
  = (CreditCalculation.daysWithoutService c
     + calculateDaysBetween (TimeValue a) (TimeValue e))%num.
Proof.
  intros Hr Hs Hc Hb He Ha Hmb Hma.
  destruct (result_item _ _ _ _ _ _ Hr Hs Hc) as [Hv ->].
  destruct (valid_inv s b e a Hv Hb He Ha) as [Hbe Hae].
  rewrite (serviceCalculation_dates taxRate s b e a Hb He Ha Hbe).
  cbn [CreditCalculation.totalBillingDays CreditCalculation.daysWithoutService].
  unfold calculateDaysBetween. rewrite calculateDaysBetween_valid, of_Z_add.
  f_equal. rewrite (daysBetween_adjacent b a e Hmb Hma).
  pose proof (daysBetween_ge_1 b a (proj1 Hae)). lia.
Qed.

Lemma billed_days_split_witness :
  CreditCalculation.totalBillingDays Scenario.internetCalc
  = (CreditCalculation.daysWithoutService Scenario.internetCalc
     + calculateDaysBetween (TimeValue Scenario.jan10) (TimeValue Scenario.jan31))%num.
Proof.
  apply (billed_days_split
           Scenario.january Scenario.taxRate Scenario.result 0
           Scenario.internet Scenario.internetCalc
           Scenario.jan01 Scenario.jan31 Scenario.jan10).
  - vm_compute. reflexivity.
  - reflexivity.
  - reflexivity.
  - reflexivity.
  - reflexivity.
  - reflexivity.
  - reflexivity.
  - reflexivity.
Defined.

Lemma is_zero_pos (p : Q) : (0 < p)%Q -> is_zero p = false.
Proof.
  intro H. unfold is_zero. apply Z.eqb_neq. intro Hz.
  unfold Qlt in H. cbn in H. rewrite Hz in H. cbn in H. lia.
Qed.

(** A service added after a valid one with nothing but a name takes its
    dates and price from that one, and is valid itself. *)
Theorem addService_copies_last
        (serviceName : string) (c : t) (l : ServiceItem.t) :
  lastService (services c) = Some l ->
  valid l ->
  serviceName <> ""%string ->
  lastService (services (addService serviceName None None 0 None c))
  = Some (ServiceItem.mk (nextServiceId c) serviceName
                         (ServiceItem.invoiceStartDate l)
                         (ServiceItem.invoiceEndDate l)
                         (ServiceItem.pricePaid l)
                         (ServiceItem.actualServiceStartDate l))
  /\ valid (ServiceItem.mk (nextServiceId c) serviceName
                           (ServiceItem.invoiceStartDate l)
                           (ServiceItem.invoiceEndDate l)
                           (ServiceItem.pricePaid l)
                           (ServiceItem.actualServiceStartDate l)).
Proof.
  intros Hlast Hv Hname.
  destruct (valid_filled l Hv) as (_ & Hb & He & Ha).
  pose proof (valid_price l Hv) as Hp.
  split.
  - unfold addService. cbv zeta. cbn [services]. rewrite Hlast.
    destruct (ServiceItem.invoiceStartDate l) as [ds |]; [| contradiction].
    destruct (ServiceItem.invoiceEndDate l) as [de |]; [| contradiction].
    destruct (ServiceItem.actualServiceStartDate l) as [da |]; [| contradiction].
    cbn [orDate]. unfold orPrice. cbn [is_zero Qnum Z.eqb].
    rewrite (is_zero_pos _ Hp).
    unfold lastService. rewrite length_app. cbn [List.length].
    replace (0 <? Z.of_nat (List.length (services c) + 1)) with true
      by (symmetry; apply Z.ltb_lt; lia).
    replace (List.length (services c) + 1 - 1)%nat
      with (List.length (services c)) by lia.
    rewrite nth_error_app2 by lia. rewrite Nat.sub_diag. reflexivity.
  - intro H. apply Hv.
    unfold offending, missingField, priceNotPositive, periodNotPositive,
      startsBeforePeriod, startsAfterPeriod in *.
    fields in H.
    destruct H as [[H | H] | H]; [contradiction | auto | auto].
Qed.

Lemma addService_copies_last_witness :
  lastService
    (services (addService "Phone" None None 0 None
                          (mk 13 [Scenario.internet] 2 false None [])))
  = Some (ServiceItem.mk 2 "Phone"
                         (ServiceItem.invoiceStartDate Scenario.internet)
                         (ServiceItem.invoiceEndDate Scenario.internet)
                         (ServiceItem.pricePaid Scenario.internet)
                         (ServiceItem.actualServiceStartDate Scenario.internet))
  /\ valid (ServiceItem.mk 2 "Phone"
                           (ServiceItem.invoiceStartDate Scenario.internet)
                           (ServiceItem.invoiceEndDate Scenario.internet)
                           (ServiceItem.pricePaid Scenario.internet)
                           (ServiceItem.actualServiceStartDate Scenario.internet)).
Proof.
  apply (addService_copies_last
           "Phone" (mk 13 [Scenario.internet] 2 false None []) Scenario.internet).
  - reflexivity.
  - apply validb_spec. vm_compute. reflexivity.
  - discriminate.
Defined.

End ComponentAmountFacts.

(** ** The two components agree *)

Module SingleServiceParity.
Import SingleService.

(** The single-service component computes what the multi-service
    component computes for a list of one named service with the same
    dates, price and tax rate: the same six numbers when the one stores a
    result, a failure when the other fails. *)
Theorem single_agrees_with_multi (c : t) (id : Z) (serviceName : string) :
  serviceName <> ""%string ->
  match
    Component.calculate
      [Component.ServiceItem.mk id serviceName (invoiceStartDate c)
                                (invoiceEndDate c) (pricePaid c)
                                (actualServiceStartDate c)]
      (taxRate c)
  with
  | Component.Result r =>
      exists sc,
        Component.CombinedCreditResult.services r = [sc]
        /\ calculationResult (calculateCredit c)
           = Some (CreditCalculation.mk
                     (Component.CreditCalculation.totalBillingDays sc)
                     (Component.CreditCalculation.daysWithoutService sc)
                     (Component.CreditCalculation.dailyRate sc)
                     (Component.CreditCalculation.creditAmount sc)
                     (Component.CreditCalculation.taxOnCredit sc)
                     (Component.CreditCalculation.totalCreditWithTax sc))
        /\ alerts (calculateCredit c) = alerts c
  | Component.ValidationError _ =>
      calculationResult (calculateCredit c) = calculationResult c
      /\ exists msg, alerts (calculateCredit c) = alerts c ++ [msg]
  end.
Proof.
  intro Hname.
  destruct serviceName as [| ch rest]; [contradiction |].
  set (item := Component.ServiceItem.mk id (String ch rest) (invoiceStartDate c)
                 (invoiceEndDate c) (pricePaid c) (actualServiceStartDate c)).
  destruct (ComponentFacts.calculate_cases [item] (taxRate c))
    as [(_ & Hv & Hr) | ([Hnil | Hv] & msg & Hm)]; [| discriminate Hnil |].
  - rewrite Hr. cbn [forallb] in Hv. rewrite andb_true_r in Hv.
    unfold Component.validb, Component.passesValidation,
      Component.startsInPeriod in Hv.
    subst item.
    cbn [Component.ServiceItem.serviceName Component.ServiceItem.invoiceStartDate
         Component.ServiceItem.invoiceEndDate Component.ServiceItem.pricePaid
         Component.ServiceItem.actualServiceStartDate Component.empty orb] in Hv.
    apply andb_prop in Hv. destruct Hv as [Hv1 Hv2].
    apply andb_prop in Hv1. destruct Hv1 as [Ha Hb].
    apply andb_prop in Hv2. destruct Hv2 as [Hc Hd].
    apply negb_true_iff in Ha. apply negb_true_iff in Hb.
    apply negb_true_iff in Hc. apply negb_true_iff in Hd.
    eexists. split; [reflexivity |].
    unfold calculateCredit. rewrite Ha. cbv zeta. rewrite Hb, Hc, Hd.
    split; reflexivity.
  - rewrite Hm. cbn [forallb] in Hv. rewrite andb_true_r in Hv.
    unfold Component.validb, Component.passesValidation,
      Component.startsInPeriod in Hv.
    subst item.
    cbn [Component.ServiceItem.serviceName Component.ServiceItem.invoiceStartDate
         Component.ServiceItem.invoiceEndDate Component.ServiceItem.pricePaid
         Component.ServiceItem.actualServiceStartDate Component.empty orb] in Hv.
    unfold calculateCredit.
    destruct (blank (invoiceStartDate c) || blank (invoiceEndDate c)
              || blank (actualServiceStartDate c)
              || (Fin (pricePaid c) <=? of_Z 0)%num).
    { split; [reflexivity | eexists; reflexivity]. }
    cbv zeta.
    destruct (date_geb (Date_parse (invoiceStartDate c))
                       (Date_parse (invoiceEndDate c))).
    { split; [reflexivity | eexists; reflexivity]. }
    destruct (date_ltb (Date_parse (actualServiceStartDate c))
                       (Date_parse (invoiceStartDate c))).
    { split; [reflexivity | eexists; reflexivity]. }
    destruct (date_gtb (Date_parse (actualServiceStartDate c))
                       (Date_parse (invoiceEndDate c))).
    { split; [reflexivity | eexists; reflexivity]. }
    discriminate Hv.
Qed.

Lemma single_agrees_with_multi_witness :
  match
    Component.calculate
      [Component.ServiceItem.mk 1 "Internet Service"
         (invoiceStartDate Scenario.single) (invoiceEndDate Scenario.single)
         (pricePaid Scenario.single) (actualServiceStartDate Scenario.single)]
      (taxRate Scenario.single)
  with
  | Component.Result r =>
      exists sc,
        Component.CombinedCreditResult.services r = [sc]
        /\ calculationResult (calculateCredit Scenario.single)
           = Some (CreditCalculation.mk
                     (Component.CreditCalculation.totalBillingDays sc)
                     (Component.CreditCalculation.daysWithoutService sc)
                     (Component.CreditCalculation.dailyRate sc)
                     (Component.CreditCalculation.creditAmount sc)
                     (Component.CreditCalculation.taxOnCredit sc)
                     (Component.CreditCalculation.totalCreditWithTax sc))
        /\ alerts (calculateCredit Scenario.single) = alerts Scenario.single
  | Component.ValidationError _ =>
      calculationResult (calculateCredit Scenario.single)
      = calculationResult Scenario.single
      /\ exists msg,
          alerts (calculateCredit Scenario.single)
          = alerts Scenario.single ++ [msg]
  end.
Proof.
  apply (single_agrees_with_multi
           Scenario.single
           1 "Internet Service").
  discriminate.
Defined.

End SingleServiceParity.

(** ** The invoice-item-credit service: partial credits, whole invoices *)

Module ServiceCreditFacts.
Import Service.
Import ServiceFacts.

Lemma div_of_Z (m n : Z) :
  n <> 0 -> (of_Z m / of_Z n)%num = Fin (inject_Z m / inject_Z n)%Q.
Proof. intro H. apply (div_of_Z_nonzero (inject_Z m) n H). Qed.

(** A partial credit is not capped at the amount of the item: with a
    positive amount and a billing period of at least one day, the credit
    is within the amount exactly when the credit period has no more days
    than the billing period. *)
Theorem partial_credit_not_capped
        (item : InvoiceItem.t) (creditRequest : CreditRequest.t) (taxRate : Q)
        (bs be cs ce : Z) :
  CreditRequest.isPartialCredit creditRequest = true ->
  CreditRequest.creditStartDate creditRequest = Some (TimeValue cs) ->
  CreditRequest.creditEndDate creditRequest = Some (TimeValue ce) ->
  InvoiceItem.serviceStartDate item = TimeValue bs ->
  InvoiceItem.serviceEndDate item = TimeValue be ->
  (0 < InvoiceItem.unitPrice item * InvoiceItem.quantity item)%Q ->
  0 < daysBetween bs be ->
  let c := calculateItemCredit item creditRequest taxRate in
  CreditCalculation.creditAmount c
  = Fin (InvoiceItem.unitPrice item * InvoiceItem.quantity item
         * (inject_Z (daysBetween cs ce) / inject_Z (daysBetween bs be)))%Q
  /\ (CreditCalculation.creditAmount c <=? CreditCalculation.originalAmount c)%num
     = (daysBetween cs ce <=? daysBetween bs be).
Proof.
  intros Hp Hcs Hce Hbs Hbe Hpos Hn. cbv zeta.
  unfold calculateItemCredit. rewrite Hp, Hcs, Hce, Hbs, Hbe.
  cbn [CreditCalculation.creditAmount CreditCalculation.originalAmount].
  unfold calculateDaysBetween. rewrite !calculateDaysBetween_valid.
  rewrite div_of_Z by lia. cbn [mul].
  split; [reflexivity |].
  set (o := (InvoiceItem.unitPrice item * InvoiceItem.quantity item)%Q) in *.
  set (m := daysBetween cs ce). set (n := daysBetween bs be) in *.
  assert (0 < inject_Z n)%Q as HnQ.
  { change 0%Q with (inject_Z 0). rewrite <- Zlt_Qlt. exact Hn. }
  assert (~ inject_Z n == 0)%Q as Hnz.
  { intro H. rewrite H in HnQ. apply (Qlt_irrefl 0). exact HnQ. }
  unfold leb.
  destruct (Z.leb_spec m n) as [Hmn | Hmn].
  - apply Qle_bool_iff.
    apply Qle_trans with (o * (inject_Z n / inject_Z n))%Q.
    + apply Qmult_le_l; [exact Hpos |].
      apply Qmult_le_compat_r; [rewrite <- Zle_Qle; exact Hmn |].
      apply Qlt_le_weak, Qinv_lt_0_compat. exact HnQ.
    + apply Qle_lteq. right. field. exact Hnz.
  - destruct (Qle_bool (o * (inject_Z m / inject_Z n)) o) eqn:E; [| reflexivity].
    exfalso. apply Qle_bool_iff in E.
    assert (o * (inject_Z n / inject_Z n) < o * (inject_Z m / inject_Z n))%Q as Hlt.
    { apply Qmult_lt_l; [exact Hpos |].
      apply Qmult_lt_compat_r; [apply Qinv_lt_0_compat; exact HnQ |].
      rewrite <- Zlt_Qlt. exact Hmn. }
    assert (o * (inject_Z n / inject_Z n) == o)%Q as Heq by (field; exact Hnz).
    rewrite Heq in Hlt. apply (Qlt_irrefl o).
    eapply Qlt_le_trans; eassumption.
Qed.

Lemma partial_credit_not_capped_witness :
  CreditCalculation.creditAmount
    (calculateItemCredit ServiceScenario.item001 ServiceScenario.twoMonths 13)
  = Fin (InvoiceItem.unitPrice ServiceScenario.item001
         * InvoiceItem.quantity ServiceScenario.item001
         * (inject_Z (daysBetween 1701388800000 1706659200000)
            / inject_Z (daysBetween 1704067200000 1706659200000)))%Q
  /\ (CreditCalculation.creditAmount
        (calculateItemCredit ServiceScenario.item001 ServiceScenario.twoMonths 13)
      <=? CreditCalculation.originalAmount
            (calculateItemCredit ServiceScenario.item001 ServiceScenario.twoMonths 13))%num
     = (daysBetween 1701388800000 1706659200000
        <=? daysBetween 1704067200000 1706659200000).
Proof.
  apply (partial_credit_not_capped
           ServiceScenario.item001 ServiceScenario.twoMonths 13
           1704067200000 1706659200000 1701388800000 1706659200000).
  - reflexivity.
  - reflexivity.
  - reflexivity.
  - reflexivity.
  - reflexivity.
  - reflexivity.
  - reflexivity.
Defined.

Example two_months_of_credit :
  daysBetween 1701388800000 1706659200000 = 62
  /\ (CreditCalculation.creditAmount
        (calculateItemCredit ServiceScenario.item001 ServiceScenario.twoMonths 13)
      <=? CreditCalculation.originalAmount
            (calculateItemCredit ServiceScenario.item001 ServiceScenario.twoMonths 13))%num
     = false.
Proof. split; vm_compute; reflexivity. Qed.

(** A partial credit over the very billing period of the item, when that
    period has a day count other than zero, is the full credit: the same
    amount, a percentage of [1], the same tax. *)
Theorem partial_over_billing_period_is_full
        (item : InvoiceItem.t) (creditRequest : CreditRequest.t) (taxRate : Q)
        (bs be : Z) :
  CreditRequest.isPartialCredit creditRequest = true ->
  CreditRequest.creditStartDate creditRequest
  = Some (InvoiceItem.serviceStartDate item) ->
  CreditRequest.creditEndDate creditRequest
  = Some (InvoiceItem.serviceEndDate item) ->
  InvoiceItem.serviceStartDate item = TimeValue bs ->
  InvoiceItem.serviceEndDate item = TimeValue be ->
  daysBetween bs be <> 0 ->
  let c := calculateItemCredit item creditRequest taxRate in
  CreditCalculation.creditPercentage c =n= of_Z 1
  /\ CreditCalculation.creditAmount c =n= CreditCalculation.originalAmount c
  /\ CreditCalculation.daysCredited c = CreditCalculation.daysInBillingPeriod c
  /\ CreditCalculation.taxOnCredit c
     =n= calculateTax (CreditCalculation.originalAmount c) (Fin taxRate).
Proof.
  intros Hp Hcs Hce Hbs Hbe Hn. cbv zeta.
  unfold calculateItemCredit, calculateTax. rewrite Hp, Hcs, Hce, Hbs, Hbe.
  cbn [CreditCalculation.creditAmount CreditCalculation.originalAmount
       CreditCalculation.creditPercentage CreditCalculation.daysCredited
       CreditCalculation.daysInBillingPeriod CreditCalculation.taxOnCredit].
  unfold calculateDaysBetween. rewrite !calculateDaysBetween_valid.
  rewrite (div_of_Z _ _ Hn).
  change (Fin taxRate / of_Z 100)%num with (Fin (taxRate / inject_Z 100)%Q).
  assert (~ inject_Z (daysBetween bs be) == 0)%Q as Hnz.
  { intro H. apply Hn. unfold Qeq in H. cbn in H. lia. }
  cbn [mul eqv of_Z]. repeat split; try reflexivity; field; exact Hnz.
Qed.

Lemma partial_over_billing_period_is_full_witness :
  CreditCalculation.creditPercentage
    (calculateItemCredit ServiceScenario.item001 ServiceScenario.wholeJanuary 13)
  =n= of_Z 1
  /\ CreditCalculation.creditAmount
       (calculateItemCredit ServiceScenario.item001 ServiceScenario.wholeJanuary 13)
     =n= CreditCalculation.originalAmount
           (calculateItemCredit ServiceScenario.item001
                                ServiceScenario.wholeJanuary 13)
  /\ CreditCalculation.daysCredited
       (calculateItemCredit ServiceScenario.item001 ServiceScenario.wholeJanuary 13)
     = CreditCalculation.daysInBillingPeriod
         (calculateItemCredit ServiceScenario.item001
                              ServiceScenario.wholeJanuary 13)
  /\ CreditCalculation.taxOnCredit
       (calculateItemCredit ServiceScenario.item001 ServiceScenario.wholeJanuary 13)
     =n= calculateTax
           (CreditCalculation.originalAmount
              (calculateItemCredit ServiceScenario.item001
                                   ServiceScenario.wholeJanuary 13))
           (Fin 13).
Proof.
  apply (partial_over_billing_period_is_full
           ServiceScenario.item001 ServiceScenario.wholeJanuary 13
           1704067200000 1706659200000).
  - reflexivity.
  - reflexivity.
  - reflexivity.
  - reflexivity.
  - reflexivity.
  - vm_compute. discriminate.
Defined.

Lemma add_not_finite (x y : number) : ~ finite x -> ~ finite (x + y)%num.
Proof. destruct x, y; cbn; tauto. Qed.

Lemma mul_not_finite_l (x y : number) : ~ finite x -> ~ finite (x * y)%num.
Proof.
  destruct x, y; cbn; try tauto;
    destruct (is_zero q); try tauto; destruct (is_neg q); cbn; tauto.
Qed.

Lemma mul_not_finite_r (x y : number) : ~ finite y -> ~ finite (x * y)%num.
Proof.
  destruct x, y; cbn; try tauto;
    destruct (is_zero q); try tauto; destruct (is_neg q); cbn; tauto.
Qed.

Lemma div_by_zero_not_finite (m : Z) : ~ finite (of_Z m / of_Z 0)%num.
Proof.
  unfold div, of_Z. change (is_zero (inject_Z 0)) with true. cbv iota.
  destruct (is_zero (inject_Z m)); [cbn; tauto |].
  destruct (is_neg (inject_Z m)); cbn; tauto.
Qed.

(** An item whose service ends a day before it starts, up to but not
    including two days, has a billing period of zero days; a partial
    credit of it divides by that zero, and neither the percentage nor the
    credit nor its tax nor their sum is a finite number. *)
Theorem zero_billing_days_not_finite
        (item : InvoiceItem.t) (creditRequest : CreditRequest.t) (taxRate : Q)
        (bs be : Z) (creditStartDate creditEndDate : Z) :
  CreditRequest.isPartialCredit creditRequest = true ->
  CreditRequest.creditStartDate creditRequest = Some (TimeValue creditStartDate) ->
  CreditRequest.creditEndDate creditRequest = Some (TimeValue creditEndDate) ->
  InvoiceItem.serviceStartDate item = TimeValue bs ->
  InvoiceItem.serviceEndDate item = TimeValue be ->
  bs - 2 * msPerDay < be <= bs - msPerDay ->
  let c := calculateItemCredit item creditRequest taxRate in
  CreditCalculation.daysInBillingPeriod c = of_Z 0
  /\ ~ finite (CreditCalculation.creditPercentage c)
  /\ ~ finite (CreditCalculation.creditAmount c)
  /\ ~ finite (CreditCalculation.taxOnCredit c)
  /\ ~ finite (CreditCalculation.totalCreditWithTax c).
Proof.
  intros Hp Hcs Hce Hbs Hbe Hrange. cbv zeta.
  assert (daysBetween bs be = 0) as Hn.
  { symmetry. apply daysBetween_unique. lia. }
  unfold calculateItemCredit. rewrite Hp, Hcs, Hce, Hbs, Hbe.
  cbn [CreditCalculation.creditAmount CreditCalculation.taxOnCredit
       CreditCalculation.creditPercentage CreditCalculation.totalCreditWithTax
       CreditCalculation.daysInBillingPeriod].
  unfold calculateDaysBetween. rewrite !calculateDaysBetween_valid, Hn.
  pose proof (div_by_zero_not_finite (daysBetween creditStartDate creditEndDate))
    as Hdiv.
  split; [reflexivity |]. split; [exact Hdiv |].
  split; [apply mul_not_finite_r; exact Hdiv |].
  split.
  - apply mul_not_finite_l, mul_not_finite_r. exact Hdiv.
  - apply add_not_finite, mul_not_finite_r. exact Hdiv.
Qed.

Lemma zero_billing_days_not_finite_witness :
  CreditCalculation.daysInBillingPeriod
    (calculateItemCredit ServiceScenario.backdated ServiceScenario.tenDays 13)
  = of_Z 0
  /\ ~ finite (CreditCalculation.creditPercentage
                 (calculateItemCredit ServiceScenario.backdated
                                      ServiceScenario.tenDays 13))
  /\ ~ finite (CreditCalculation.creditAmount
                 (calculateItemCredit ServiceScenario.backdated
                                      ServiceScenario.tenDays 13))
  /\ ~ finite (CreditCalculation.taxOnCredit
                 (calculateItemCredit ServiceScenario.backdated
                                      ServiceScenario.tenDays 13))
  /\ ~ finite (CreditCalculation.totalCreditWithTax
                 (calculateItemCredit ServiceScenario.backdated
                                      ServiceScenario.tenDays 13)).
Proof.
  apply (zero_billing_days_not_finite
           ServiceScenario.backdated ServiceScenario.tenDays 13
           1704153600000 1704067200000 1704067200000 1704844800000).
  - reflexivity.
  - reflexivity.
  - reflexivity.
  - reflexivity.
  - reflexivity.
  - vm_compute. split; [reflexivity | discriminate].
Defined.

(** *** Totals *)

Lemma taxOnCredit_calculateTax
      (item : InvoiceItem.t) (creditRequest : CreditRequest.t) (taxRate : Q) :
  CreditCalculation.taxOnCredit (calculateItemCredit item creditRequest taxRate)
  = calculateTax
      (CreditCalculation.creditAmount (calculateItemCredit item creditRequest taxRate))
      (Fin taxRate).
Proof.
  unfold calculateItemCredit, calculateTax.
  destruct (CreditRequest.isPartialCredit creditRequest),
    (CreditRequest.creditStartDate creditRequest),
    (CreditRequest.creditEndDate creditRequest); reflexivity.
Qed.

Lemma calculations_namedItems
      (now : Z) (invoice : Invoice.t) (creditRequest : CreditRequest.t) :
  CreditResult.calculations (calculateCredit now invoice creditRequest)
  = map (fun item =>
           calculateItemCredit item creditRequest (Invoice.taxRate invoice))
        (namedItems (Invoice.items invoice)
                    (CreditRequest.itemsToCredit creditRequest)).
Proof.
  unfold calculateCredit. cbn [CreditResult.calculations].
  rewrite creditItems_namedItems. reflexivity.
Qed.

(** *** Whole invoices, unknown items *)

Lemma findItem_first (items : list InvoiceItem.t) (x : InvoiceItem.t) :
  NoDup (map InvoiceItem.id items) ->
  In x items ->
  findItem items (InvoiceItem.id x) = Some x.
Proof.
  unfold findItem. induction items as [| y l IH]; intros Hnd Hin; [contradiction |].
  cbn [map] in Hnd. inversion Hnd as [| ? ? Hnin Hnd']; subst.
  cbn [find]. destruct Hin as [-> | Hin].
  - rewrite String.eqb_refl. reflexivity.
  - destruct (String.eqb_spec (InvoiceItem.id y) (InvoiceItem.id x)) as [E | _].
    + exfalso. apply Hnin. rewrite E. apply in_map. exact Hin.
    + apply IH; assumption.
Qed.

Lemma namedItems_every (items l : list InvoiceItem.t) :
  NoDup (map InvoiceItem.id items) ->
  incl l items ->
  namedItems items (map InvoiceItem.id l) = l.
Proof.
  intros Hnd. induction l as [| x l IH]; intro Hincl; [reflexivity |].
  cbn [map namedItems flat_map].
  rewrite (findItem_first items x Hnd) by (apply Hincl; left; reflexivity).
  cbn [app]. f_equal. apply IH. intros y Hy. apply Hincl. right. exact Hy.
Qed.

(** A full credit of every item of an invoice whose items have distinct
    identifiers comes to the invoice: one calculation per item, in order,
    a total credit that is the sum, from the first item on, of
    [unitPrice * quantity] over the items, and on each calculation the tax
    that [calculateTax] gives for its credit. *)
Theorem full_credit_of_every_item
        (now : Z) (invoice : Invoice.t) (creditRequest : CreditRequest.t) :
  NoDup (map InvoiceItem.id (Invoice.items invoice)) ->
  CreditRequest.isPartialCredit creditRequest = false ->
  CreditRequest.itemsToCredit creditRequest
  = map InvoiceItem.id (Invoice.items invoice) ->
  map CreditCalculation.creditAmount
      (CreditResult.calculations (calculateCredit now invoice creditRequest))
  = map (fun item =>
           (Fin (InvoiceItem.unitPrice item) * Fin (InvoiceItem.quantity item))%num)
        (Invoice.items invoice)
  /\ CreditResult.totalCredit (calculateCredit now invoice creditRequest)
     = sum (map (fun item =>
                   (Fin (InvoiceItem.unitPrice item)
                    * Fin (InvoiceItem.quantity item))%num)
                (Invoice.items invoice))
  /\ map CreditCalculation.taxOnCredit
         (CreditResult.calculations (calculateCredit now invoice creditRequest))
     = map (fun item =>
              calculateTax
                (Fin (InvoiceItem.unitPrice item) * Fin (InvoiceItem.quantity item))%num
                (Fin (Invoice.taxRate invoice)))
           (Invoice.items invoice).
Proof.
  intros Hnd Hfull Hids.
  pose proof (calculations_namedItems now invoice creditRequest) as Hcalcs.
  rewrite Hids, (namedItems_every _ _ Hnd (incl_refl _)) in Hcalcs.
  assert (map CreditCalculation.creditAmount
              (CreditResult.calculations (calculateCredit now invoice creditRequest))
          = map (fun item =>
                   (Fin (InvoiceItem.unitPrice item)
                    * Fin (InvoiceItem.quantity item))%num)
                (Invoice.items invoice)) as Hcredits.
  { rewrite Hcalcs, map_map. apply map_ext. intro item.
    unfold calculateItemCredit. rewrite Hfull. reflexivity. }
  split; [exact Hcredits |]. split.
  - destruct (calculateCredit_totals now invoice creditRequest) as (Hc & _).
    cbv zeta in Hc. rewrite Hc, Hcredits. reflexivity.
  - rewrite Hcalcs, map_map. apply map_ext. intro item.
    unfold calculateItemCredit, calculateTax. rewrite Hfull. reflexivity.
Qed.

Lemma full_credit_of_every_item_witness :
  map CreditCalculation.creditAmount
      (CreditResult.calculations
         (calculateCredit ServiceScenario.now createSampleInvoice
                          ServiceScenario.everyItem))
  = map (fun item =>
           (Fin (InvoiceItem.unitPrice item) * Fin (InvoiceItem.quantity item))%num)
        (Invoice.items createSampleInvoice)
  /\ CreditResult.totalCredit
       (calculateCredit ServiceScenario.now createSampleInvoice
                        ServiceScenario.everyItem)
     = sum (map (fun item =>
                   (Fin (InvoiceItem.unitPrice item)
                    * Fin (InvoiceItem.quantity item))%num)
                (Invoice.items createSampleInvoice))
  /\ map CreditCalculation.taxOnCredit
         (CreditResult.calculations
            (calculateCredit ServiceScenario.now createSampleInvoice
                             ServiceScenario.everyItem))
     = map (fun item =>
              calculateTax
                (Fin (InvoiceItem.unitPrice item) * Fin (InvoiceItem.quantity item))%num
                (Fin (Invoice.taxRate createSampleInvoice)))
           (Invoice.items createSampleInvoice).
Proof.
  apply (full_credit_of_every_item
           ServiceScenario.now createSampleInvoice ServiceScenario.everyItem).
  - cbn. repeat constructor; cbn; intuition discriminate.
  - reflexivity.
  - reflexivity.
Defined.

(** The full credit of the sample invoice is its subtotal, 94.99. *)
Example sample_invoice_full_credit :
  CreditResult.totalCredit
    (calculateCredit ServiceScenario.now createSampleInvoice
                     ServiceScenario.everyItem)
  =n= Fin (Invoice.subtotal createSampleInvoice).
Proof. vm_compute. reflexivity. Qed.

(** With two items under one identifier the second is never credited. *)
Example shadowed_item_is_not_credited :
  map CreditCalculation.originalAmount
      (CreditResult.calculations
         (calculateCredit
            ServiceScenario.now
            (Invoice.mk "INV-002" (Customer.mk "CUST-001" "Sample Customer" "" "")
                        "SAMPLE-002" (TimeValue 1704067200000)
                        (TimeValue 1705276800000)
                        [ InvoiceItem.mk "ITEM-001" "First" 10 1
                                         (TimeValue 1704067200000)
                                         (TimeValue 1706659200000) None;
                          InvoiceItem.mk "ITEM-001" "Second" 20 1
                                         (TimeValue 1704067200000)
                                         (TimeValue 1706659200000) None ]
                        30 13 (39 # 10) (339 # 10))
            (withItemsToCredit ServiceScenario.everyItem
                               ["ITEM-001"; "ITEM-001"]%string)))
  = [ (Fin 10 * Fin 1)%num; (Fin 10 * Fin 1)%num ].
Proof. vm_compute. reflexivity. Qed.

Lemma namedItems_unknown (items : list InvoiceItem.t) (itemIds : list string) :
  Forall (fun itemId => occurs items itemId = false) itemIds ->
  namedItems items itemIds = [].
Proof.
  induction 1 as [| itemId rest Hocc _ IH]; [reflexivity |].
  cbn [namedItems flat_map]. fold (namedItems items rest). rewrite IH.
  destruct (findItem items itemId) as [item |] eqn:E; [| reflexivity].
  apply findItem_Some in E. destruct E as (_ & _ & E). congruence.
Qed.

(** A request that names no item of the invoice, an empty request
    included, is answered like any other: a result with no calculation
    and a total credit, total tax and final amount of zero. *)
Theorem unknown_items_credit_nothing
        (now : Z) (invoice : Invoice.t) (creditRequest : CreditRequest.t) :
  Forall (fun itemId => occurs (Invoice.items invoice) itemId = false)
         (CreditRequest.itemsToCredit creditRequest) ->
  calculateCredit now invoice creditRequest
  = CreditResult.mk creditRequest [] (of_Z 0) (of_Z 0) (of_Z 0) (TimeValue now).
Proof.
  intro H. unfold calculateCredit. rewrite creditItems_namedItems.
  rewrite (namedItems_unknown _ _ H). reflexivity.
Qed.

Lemma unknown_items_credit_nothing_witness :
  calculateCredit ServiceScenario.now createSampleInvoice
                  ServiceScenario.unknownItems
  = CreditResult.mk ServiceScenario.unknownItems [] (of_Z 0) (of_Z 0) (of_Z 0)
                    (TimeValue ServiceScenario.now).
Proof.
  apply (unknown_items_credit_nothing
           ServiceScenario.now createSampleInvoice ServiceScenario.unknownItems).
  repeat constructor.
Defined.

Lemma namedItems_app (items : list InvoiceItem.t) (ids1 ids2 : list string) :
  namedItems items (ids1 ++ ids2) = namedItems items ids1 ++ namedItems items ids2.
Proof. unfold namedItems. apply flat_map_app. Qed.

(** The calculations of a request are those of the identifiers it lists,
    one after the other: a request for two lists of identifiers put
    together gets the calculations of the first followed by those of the
    second, so that an identifier listed twice is credited twice. *)
Theorem calculations_of_appended_requests
        (now : Z) (invoice : Invoice.t) (creditRequest : CreditRequest.t)
        (ids1 ids2 : list string) :
  CreditResult.calculations
    (calculateCredit now invoice (withItemsToCredit creditRequest (ids1 ++ ids2)))
  = CreditResult.calculations
      (calculateCredit now invoice (withItemsToCredit creditRequest ids1))
    ++ CreditResult.calculations
         (calculateCredit now invoice (withItemsToCredit creditRequest ids2)).
Proof.
  rewrite !calculations_namedItems.
  cbn [withItemsToCredit CreditRequest.itemsToCredit].
  rewrite namedItems_app, map_app.
  f_equal; apply map_ext; intro item; unfold calculateItemCredit; reflexivity.
Qed.

End ServiceCreditFacts.

(** ** The [Date] object: years, months and days of the month *)

Module DateObjectFacts.
Import DateObject.

Lemma DayFromYear_succ y : DayFromYear (y + 1) = DayFromYear y + DaysInYear y.
Proof.
  unfold DayFromYear, DaysInYear.
  destruct (Z.eqb_spec (y mod 4) 0), (Z.eqb_spec (y mod 100) 0), (Z.eqb_spec (y mod 400) 0);
    cbn [negb]; Z.div_mod_to_equations; lia.
Qed.

Lemma DayFromYear_estimate y :
  146097 * (y - 1970) - 607 < 400 * DayFromYear y < 146097 * (y - 1970) + 593.
Proof. unfold DayFromYear. Z.div_mod_to_equations. lia. Qed.

Lemma YearFromDay_spec d :
  DayFromYear (YearFromDay d) <= d < DayFromYear (YearFromDay d + 1).
Proof.
  unfold YearFromDay. cbv zeta.
  set (y := 1970 + 400 * d / 146097).
  assert (146097 * (y - 1970) <= 400 * d < 146097 * (y - 1970) + 146097) as Hy.
  { subst y. Z.div_mod_to_equations. lia. }
  pose proof (DayFromYear_estimate (y - 1)).
  pose proof (DayFromYear_estimate y).
  pose proof (DayFromYear_estimate (y + 1)).
  pose proof (DayFromYear_estimate (y + 2)).
  destruct (Z.ltb_spec d (DayFromYear y)).
  - replace (y - 1 + 1) with y by lia. lia.
  - destruct (Z.leb_spec (DayFromYear (y + 1)) d).
    + replace (y + 1 + 1) with (y + 2) by lia. lia.
    + lia.
Qed.

Lemma DaysInYear_values y : DaysInYear y = 365 \/ DaysInYear y = 366.
Proof.
  unfold DaysInYear.
  destruct (negb _); [auto |]. destruct (negb _); [auto |]. destruct (negb _); auto.
Qed.

Lemma DayFromYear_mono y y' : y <= y' -> DayFromYear y <= DayFromYear y'.
Proof. intro H. unfold DayFromYear. Z.div_mod_to_equations. lia. Qed.

Lemma YearFromDay_unique y d :
  DayFromYear y <= d < DayFromYear (y + 1) -> YearFromDay d = y.
Proof.
  intro H. pose proof (YearFromDay_spec d) as Hs.
  destruct (Z.lt_trichotomy (YearFromDay d) y) as [Hlt | [Heq | Hgt]]; [| exact Heq |].
  - pose proof (DayFromYear_mono (YearFromDay d + 1) y ltac:(lia)). lia.
  - pose proof (DayFromYear_mono (y + 1) (YearFromDay d) ltac:(lia)). lia.
Qed.

(** [YearFromTime t] is the largest year that starts at or before [t]. *)
Lemma YearFromTime_largest t :
  TimeFromYear (YearFromTime t) <= t
  /\ forall y, TimeFromYear y <= t -> y <= YearFromTime t.
Proof.
  unfold YearFromTime, TimeFromYear, Day.
  pose proof (YearFromDay_spec (t / msPerDay)) as [H1 H2].
  assert (0 < msPerDay) as Hp by reflexivity.
  pose proof (Z.div_mod t msPerDay ltac:(lia)).
  pose proof (Z.mod_pos_bound t msPerDay Hp).
  split; [nia |].
  intros y Hy.
  destruct (Z_le_gt_dec y (YearFromDay (t / msPerDay))) as [Hle | Hgt]; [exact Hle |].
  exfalso.
  pose proof (DayFromYear_mono (YearFromDay (t / msPerDay) + 1) y ltac:(lia)).
  nia.
Qed.

Lemma Day_of_day (d r : Z) : 0 <= r < msPerDay -> Day (msPerDay * d + r) = d.
Proof.
  intro H. unfold Day.
  rewrite Z.mul_comm, Z.div_add_l by discriminate.
  rewrite Z.div_small by exact H. lia.
Qed.

Lemma Day_exact (d : Z) : Day (msPerDay * d) = d.
Proof. rewrite <- (Z.add_0_r (msPerDay * d)). apply Day_of_day. split; [lia | reflexivity]. Qed.

Lemma MakeDay_normal (ym mn date : Z) :
  0 <= mn <= 11 ->
  MakeDay ym mn date
  = DayFromYear ym
    + daysBeforeMonth mn (if DaysInYear ym =? 366 then 1 else 0) + date - 1.
Proof.
  intro Hmn. unfold MakeDay. cbv zeta.
  rewrite (Z.div_small mn 12), (Z.mod_small mn 12) by lia.
  rewrite Z.add_0_r, Day_exact. reflexivity.
Qed.

Lemma civil_in_year (y k r : Z) :
  0 <= k < DaysInYear y -> 0 <= r < msPerDay ->
  YearFromTime (msPerDay * (DayFromYear y + k) + r) = y
  /\ DayWithinYear (msPerDay * (DayFromYear y + k) + r) = k
  /\ InLeapYear (msPerDay * (DayFromYear y + k) + r)
     = (if DaysInYear y =? 366 then 1 else 0).
Proof.
  intros Hk Hr.
  assert (YearFromTime (msPerDay * (DayFromYear y + k) + r) = y) as Hy.
  { unfold YearFromTime. rewrite Day_of_day by exact Hr.
    apply YearFromDay_unique. rewrite DayFromYear_succ. lia. }
  split; [exact Hy |]. split.
  - unfold DayWithinYear. rewrite Hy, Day_of_day by exact Hr. lia.
  - unfold InLeapYear. rewrite Hy. reflexivity.
Qed.

Ltac months m H :=
  assert (m = 0 \/ m = 1 \/ m = 2 \/ m = 3 \/ m = 4 \/ m = 5 \/ m = 6
          \/ m = 7 \/ m = 8 \/ m = 9 \/ m = 10 \/ m = 11) as H by lia.

(** The day [MakeDay] counts from is in the year and month asked for, on
    the first of the month. *)
Lemma MakeDay_first (ym mn r : Z) :
  0 <= mn <= 11 -> 0 <= r < msPerDay ->
  let t := msPerDay * MakeDay ym mn 1 + r in
  YearFromTime t = ym /\ MonthFromTime t = mn /\ DateFromTime t = 1.
Proof.
  intros Hmn Hr. cbv zeta. rewrite (MakeDay_normal ym mn 1 Hmn).
  replace (DayFromYear ym + daysBeforeMonth mn (if DaysInYear ym =? 366 then 1 else 0) + 1 - 1)
    with (DayFromYear ym + daysBeforeMonth mn (if DaysInYear ym =? 366 then 1 else 0)) by lia.
  assert (0 <= daysBeforeMonth mn (if DaysInYear ym =? 366 then 1 else 0) < DaysInYear ym) as Hk.
  { months mn Hm. destruct (DaysInYear_values ym) as [E | E]; rewrite E;
      repeat (destruct Hm as [-> | Hm]); try subst mn; cbn; lia. }
  destruct (civil_in_year ym _ r Hk Hr) as (Hy & Hd & HL).
  split; [exact Hy |].
  unfold DateFromTime, MonthFromTime. cbv zeta. rewrite Hd, HL.
  months mn Hm. destruct (DaysInYear_values ym) as [E | E]; rewrite E;
    repeat (destruct Hm as [-> | Hm]); try subst mn; cbn; split; reflexivity.
Qed.

Lemma MakeDay_last (year month : Z) :
  0 <= month <= 11 ->
  MakeDay year (month + 1) 0
  = DayFromYear year
    + (daysBeforeMonth month (if DaysInYear year =? 366 then 1 else 0)
       + monthLength (DaysInYear year =? 366) month - 1).
Proof.
  intro Hm. destruct (Z.eq_dec month 11) as [-> | Hne].
  - unfold MakeDay. cbv zeta. change ((11 + 1) / 12) with 1.
    change ((11 + 1) mod 12) with 0. cbn [daysBeforeMonth].
    rewrite Z.add_0_r, Day_exact, DayFromYear_succ.
    destruct (DaysInYear_values year) as [E | E]; rewrite E; cbn; lia.
  - rewrite MakeDay_normal by lia.
    months month H. destruct (DaysInYear_values year) as [E | E]; rewrite E;
      repeat (destruct H as [-> | H]); try subst month; cbn; lia.
Qed.

Lemma last_of_month (year month r : Z) :
  0 <= month <= 11 -> 0 <= r < msPerDay ->
  let t := msPerDay * MakeDay year (month + 1) 0 + r in
  YearFromTime t = year /\ MonthFromTime t = month
  /\ DateFromTime t = monthLength (DaysInYear year =? 366) month.
Proof.
  intros Hm Hr. cbv zeta. rewrite (MakeDay_last year month Hm).
  set (k := daysBeforeMonth month (if DaysInYear year =? 366 then 1 else 0)
            + monthLength (DaysInYear year =? 366) month - 1).
  assert (0 <= k < DaysInYear year) as Hk.
  { subst k. months month H. destruct (DaysInYear_values year) as [E | E]; rewrite E;
      repeat (destruct H as [-> | H]); try subst month; cbn; lia. }
  destruct (civil_in_year year k r Hk Hr) as (Hy & Hd & HL).
  split; [exact Hy |].
  unfold DateFromTime, MonthFromTime. cbv zeta. rewrite Hd, HL. subst k.
  months month H. destruct (DaysInYear_values year) as [E | E]; rewrite E;
    repeat (destruct H as [-> | H]); try subst month; cbn; split; reflexivity.
Qed.

Lemma MonthFromTime_range t : 0 <= MonthFromTime t <= 11.
Proof.
  unfold MonthFromTime. cbv zeta.
  repeat (destruct (_ <? _); [lia |]). lia.
Qed.

End DateObjectFacts.

(** ** The service: days of a month, a quarter, a year *)

Module ServiceCalendarFacts.
Import Service.
Import DateObject.
Import DateObjectFacts.

Lemma Qtruncate_inject_Z (z : Z) : Qtruncate (inject_Z z) = z.
Proof.
  unfold Qtruncate. destruct (Qnum (inject_Z z) <? 0).
  - apply Qceiling_Z.
  - apply Qfloor_Z.
Qed.

Lemma toInteger_of_Z (z : Z) : toInteger (of_Z z) = Some z.
Proof. unfold toInteger, of_Z. rewrite Qtruncate_inject_Z. reflexivity. Qed.

Lemma Qtruncate_quotient (y k : Z) :
  0 < k -> Qtruncate (inject_Z y / inject_Z k)%Q = Z.quot y k.
Proof.
  intro Hk. unfold Qtruncate.
  assert (Qnum (inject_Z y / inject_Z k)%Q = y) as Hnum.
  { destruct k as [| k | k]; try lia. cbn. lia. }
  rewrite Hnum. destruct (Z.ltb_spec y 0) as [Hy | Hy].
  - unfold Qceiling.
    assert (- (inject_Z y / inject_Z k) == inject_Z (- y) / inject_Z k)%Q as E.
    { rewrite inject_Z_opp. field. intro H. unfold Qeq in H. cbn in H. lia. }
    rewrite (Qfloor_comp _ _ E), <- Zdiv_Qdiv.
    rewrite <- (Z.opp_involutive y) at 2. rewrite Z.quot_opp_l by lia.
    rewrite Z.quot_div_nonneg by lia. reflexivity.
  - rewrite <- Zdiv_Qdiv. symmetry. apply Z.quot_div_nonneg; lia.
Qed.

Lemma rem_is_zero (y k : Z) :
  0 < k -> strict_eqb (rem (of_Z y) (of_Z k)) (of_Z 0) = (y mod k =? 0).
Proof.
  intro Hk. unfold rem, of_Z.
  replace (is_zero (inject_Z k)) with false
    by (symmetry; apply Z.eqb_neq; cbn; lia).
  rewrite (Qtruncate_quotient y k Hk). unfold strict_eqb.
  assert (inject_Z y - inject_Z k * inject_Z (Z.quot y k)
          == inject_Z (Z.rem y k))%Q as E.
  { replace (Z.rem y k) with (y + - (k * Z.quot y k))
      by (pose proof (Z.quot_rem' y k); lia).
    rewrite inject_Z_plus, inject_Z_opp, inject_Z_mult. reflexivity. }
  destruct (Z.eqb_spec (y mod k) 0) as [Hm | Hm].
  - apply Qeq_bool_iff. rewrite E.
    apply Z.mod_divide in Hm; [| lia]. apply Z.rem_divide in Hm; [| lia].
    rewrite Hm. reflexivity.
  - destruct (Qeq_bool _ _) eqn:B; [| reflexivity].
    exfalso. apply Hm. apply Qeq_bool_iff in B. rewrite E in B.
    assert (Z.rem y k = 0) as Hr by (unfold Qeq in B; cbn in B; lia).
    apply Z.mod_divide; [lia |]. apply Z.rem_divide; [lia | exact Hr].
Qed.

(** [isLeapYear] tells the years of 366 days of the [Date] object. *)
Lemma isLeapYear_DaysInYear (y : Z) :
  isLeapYear (of_Z y) = (DaysInYear y =? 366).
Proof.
  unfold isLeapYear, DaysInYear.
  rewrite !rem_is_zero by lia.
  destruct (Z.eqb_spec (y mod 4) 0) as [H4 | H4],
           (Z.eqb_spec (y mod 100) 0) as [H100 | H100],
           (Z.eqb_spec (y mod 400) 0) as [H400 | H400];
    cbn; try reflexivity; exfalso; Z.div_mod_to_equations; lia.
Qed.

Lemma isLeapYear_not_a_number : isLeapYear NaN = false.
Proof. reflexivity. Qed.

Lemma msPerDay_value : msPerDay = 86400000.
Proof. reflexivity. Qed.

Lemma DayFromYear_range (y : Z) :
  -271820 <= y <= 275759 ->
  -99999746 <= DayFromYear y /\ DayFromYear y + 366 <= 99999746.
Proof. intro H. pose proof (DayFromYear_estimate y). lia. Qed.

Lemma TimeClip_in_range (t : Z) :
  Z.abs t <= 8640000000000000 -> TimeClip t = TimeValue t.
Proof.
  intro H. unfold TimeClip.
  destruct (Z.ltb_spec 8640000000000000 (Z.abs t)); [lia | reflexivity].
Qed.

(** The date that [new Date(year, month, date)] builds for a day of a
    year within reach: the local midnight of that day. *)
Lemma Date_ymd_value (localTZA year month date : Z) :
  Z.abs localTZA <= msPerDay ->
  -99999999 <= MakeDay (MakeFullYear year) month date <= 99999999 ->
  Date_ymd localTZA (of_Z year) (of_Z month) (of_Z date)
  = TimeValue (msPerDay * MakeDay (MakeFullYear year) month date - localTZA).
Proof.
  intros Htz Hday. unfold Date_ymd. rewrite !toInteger_of_Z. cbv zeta.
  unfold UTC, MakeDate.
  rewrite TimeClip_in_range.
  - f_equal. lia.
  - rewrite msPerDay_value in *. lia.
Qed.

Lemma MakeDay_last_range (yr month : Z) :
  -271820 <= yr <= 275759 -> 0 <= month <= 11 ->
  -99999999 <= MakeDay yr (month + 1) 0 <= 99999999.
Proof.
  intros Hy Hm. rewrite (MakeDay_last yr month Hm).
  pose proof (DayFromYear_range yr Hy).
  assert (0 <= daysBeforeMonth month (if DaysInYear yr =? 366 then 1 else 0)
               + monthLength (DaysInYear yr =? 366) month - 1 < 366).
  { months month H0. destruct (DaysInYear_values yr) as [E | E]; rewrite E;
      repeat (destruct H0 as [-> | H0]); try subst month; cbn; lia. }
  lia.
Qed.

Lemma MakeFullYear_range (year : Z) :
  -271820 <= year <= 275759 -> -271820 <= MakeFullYear year <= 275759.
Proof.
  intro H. unfold MakeFullYear.
  destruct (Z.leb_spec 0 year), (Z.leb_spec year 99); cbn [andb]; lia.
Qed.

Lemma getDaysInMonth_value (localTZA year month : Z) :
  Z.abs localTZA <= msPerDay ->
  -271820 <= year <= 275759 ->
  0 <= month <= 11 ->
  getDaysInMonth localTZA (of_Z year) (of_Z month)
  = of_Z (monthLength (isLeapYear (of_Z (MakeFullYear year))) month).
Proof.
  intros Htz Hy Hm. unfold getDaysInMonth. rewrite of_Z_add.
  pose proof (MakeFullYear_range year Hy) as Hyr.
  rewrite (Date_ymd_value localTZA year (month + 1) 0 Htz)
    by (apply MakeDay_last_range; assumption).
  unfold getDate, LocalTime.
  replace (msPerDay * MakeDay (MakeFullYear year) (month + 1) 0
           - localTZA + localTZA)
    with (msPerDay * MakeDay (MakeFullYear year) (month + 1) 0 + 0) by lia.
  destruct (last_of_month (MakeFullYear year) month 0 Hm
                          ltac:(split; [lia | reflexivity]))
    as (_ & _ & Hd).
  cbv zeta in Hd. rewrite Hd, isLeapYear_DaysInYear. reflexivity.
Qed.

(** [getDaysInMonth(year, month)] is the number of days of that month of
    that year, with February of 29 days exactly in the years that
    [isLeapYear] calls leap, in whatever time zone.  A year from 0 to 99
    is read as a year of the twentieth century, as [new Date(year, ...)]
    does. *)
Theorem getDaysInMonth_is_month_length (localTZA year month : Z) :
  Z.abs localTZA <= msPerDay ->
  -271820 <= year <= 275759 ->
  0 <= month <= 11 ->
  getDaysInMonth localTZA (of_Z year) (of_Z month)
  = of_Z (monthLength (isLeapYear (of_Z (MakeFullYear year))) month)
  /\ (year < 0 \/ 99 < year -> MakeFullYear year = year).
Proof.
  intros Htz Hy Hm. split.
  - apply getDaysInMonth_value; assumption.
  - intro H. unfold MakeFullYear.
    destruct (Z.leb_spec 0 year), (Z.leb_spec year 99); cbn [andb]; lia.
Qed.

Lemma getDaysInMonth_is_month_length_witness :
  getDaysInMonth (-18000000) (of_Z 2024) (of_Z 1)
  = of_Z (monthLength (isLeapYear (of_Z (MakeFullYear 2024))) 1)
  /\ (2024 < 0 \/ 99 < 2024 -> MakeFullYear 2024 = 2024).
Proof.
  apply (getDaysInMonth_is_month_length (-18000000) 2024 1).
  - vm_compute. discriminate.
  - split; vm_compute; discriminate.
  - split; vm_compute; discriminate.
Defined.

(** February: 29 days in 2024, 28 in 2023 and in 1900; and the year 0,
    a leap year, is taken for 1900. *)
Example february_lengths :
  getDaysInMonth 0 (of_Z 2024) (of_Z 1) = of_Z 29
  /\ getDaysInMonth 0 (of_Z 2023) (of_Z 1) = of_Z 28
  /\ getDaysInMonth 0 (of_Z 1900) (of_Z 1) = of_Z 28
  /\ getDaysInMonth 0 (of_Z 0) (of_Z 1) = of_Z 28
  /\ isLeapYear (of_Z 0) = true.
Proof. repeat split; vm_compute; reflexivity. Qed.

(** The fields of some dates: the epoch, the millisecond before it, the
    leap day of 2000 and the first of January 2024, in UTC; and the epoch
    five hours west of Greenwich. *)
Example date_fields :
  (getFullYear 0 (TimeValue 0), getMonth 0 (TimeValue 0), getDate 0 (TimeValue 0))
  = (of_Z 1970, of_Z 0, of_Z 1)
  /\ (getFullYear 0 (TimeValue (-1)), getMonth 0 (TimeValue (-1)),
      getDate 0 (TimeValue (-1)))
     = (of_Z 1969, of_Z 11, of_Z 31)
  /\ (getFullYear 0 (TimeValue 951782400000), getMonth 0 (TimeValue 951782400000),
      getDate 0 (TimeValue 951782400000))
     = (of_Z 2000, of_Z 1, of_Z 29)
  /\ Date_ymd 0 (of_Z 2024) (of_Z 0) (of_Z 1) = TimeValue Scenario.jan01
  /\ (getFullYear (-18000000) (TimeValue 0), getMonth (-18000000) (TimeValue 0),
      getDate (-18000000) (TimeValue 0))
     = (of_Z 1969, of_Z 11, of_Z 31).
Proof. repeat split; vm_compute; reflexivity. Qed.

(** The constructor against dates known from elsewhere: a date of [0]
    is the last day of the month before, a month of [12] or [-1] moves the
    year, a two-digit year counts from 1900, the offset of the zone is
    taken off, the first of January 1600 lies before the epoch; the two
    ends of the range of time values, and one day past its upper end. *)
Example constructor_overflows :
  Date_ymd 0 (of_Z 2023) (of_Z 12) (of_Z 0) = TimeValue 1703980800000
  /\ Date_ymd 0 (of_Z 2024) (of_Z 2) (of_Z 0) = TimeValue 1709164800000
  /\ Date_ymd 0 (of_Z 2024) (of_Z (-1)) (of_Z 1) = TimeValue 1701388800000
  /\ Date_ymd 0 (of_Z 99) (of_Z 0) (of_Z 1) = TimeValue 915148800000
  /\ Date_ymd (-18000000) (of_Z 2024) (of_Z 0) (of_Z 1) = TimeValue 1704085200000
  /\ Date_ymd 0 (of_Z 1600) (of_Z 0) (of_Z 1) = TimeValue (-11676096000000)
  /\ (YearFromTime 8640000000000000, MonthFromTime 8640000000000000,
      DateFromTime 8640000000000000) = (275760, 8, 13)
  /\ (YearFromTime (-8640000000000000), MonthFromTime (-8640000000000000),
      DateFromTime (-8640000000000000)) = (-271821, 3, 20)
  /\ Date_ymd 0 (of_Z 275760) (of_Z 9) (of_Z 0) = InvalidDate.
Proof. repeat split; vm_compute; reflexivity. Qed.

(** *** The days of a billing period *)

Lemma year_within_reach (localTZA t : Z) :
  Z.abs localTZA <= msPerDay ->
  Z.abs t <= 8600000000000000 ->
  -271820 <= YearFromTime (LocalTime localTZA t) <= 275759.
Proof.
  intros Htz Ht. unfold YearFromTime, LocalTime, Day.
  pose proof (YearFromDay_spec ((t + localTZA) / msPerDay)) as Hs.
  pose proof (DayFromYear_estimate (YearFromDay ((t + localTZA) / msPerDay))).
  pose proof (DayFromYear_estimate (YearFromDay ((t + localTZA) / msPerDay) + 1)).
  assert (-99537039 <= (t + localTZA) / msPerDay <= 99537038) as Hd.
  { rewrite msPerDay_value in *. Z.div_mod_to_equations. lia. }
  lia.
Qed.

Lemma of_Z_mul (a b : Z) : (of_Z a * of_Z b)%num = of_Z (a * b).
Proof. reflexivity. Qed.

Lemma quarter_start (m : Z) :
  (Math_floor (of_Z m / of_Z 3) * of_Z 3)%num = of_Z (m / 3 * 3).
Proof.
  rewrite (ServiceCreditFacts.div_of_Z m 3) by discriminate.
  unfold Math_floor. rewrite <- Zdiv_Qdiv. apply of_Z_mul.
Qed.

Lemma quarterDays_three (fuel : nat) (localTZA year qs : Z) :
  Z.abs localTZA <= msPerDay ->
  -271820 <= year <= 275759 ->
  0 <= qs <= 9 ->
  quarterDays (3 + fuel) localTZA (of_Z year) (of_Z qs) (of_Z (qs + 2)) (of_Z 0)
  = of_Z (monthLength (isLeapYear (of_Z (MakeFullYear year))) qs
          + monthLength (isLeapYear (of_Z (MakeFullYear year))) (qs + 1)
          + monthLength (isLeapYear (of_Z (MakeFullYear year))) (qs + 2)).
Proof.
  intros Htz Hy Hq. cbn [Nat.add quarterDays].
  rewrite !ComponentFacts.leb_of_Z.
  replace (qs <=? qs + 2) with true by (symmetry; apply Z.leb_le; lia).
  rewrite !of_Z_add, (getDaysInMonth_value localTZA year qs Htz Hy) by lia.
  rewrite ComponentFacts.leb_of_Z.
  replace (qs + 1 <=? qs + 2) with true by (symmetry; apply Z.leb_le; lia).
  rewrite !of_Z_add, (getDaysInMonth_value localTZA year (qs + 1) Htz Hy) by lia.
  rewrite ComponentFacts.leb_of_Z.
  replace (qs + 1 + 1 <=? qs + 2) with true by (symmetry; apply Z.leb_le; lia).
  rewrite !of_Z_add.
  replace (qs + 1 + 1) with (qs + 2) by lia.
  rewrite (getDaysInMonth_value localTZA year (qs + 2) Htz Hy) by lia.
  rewrite !of_Z_add.
  assert (quarterDays fuel localTZA (of_Z year) (of_Z (qs + 2 + 1)) (of_Z (qs + 2))
            (of_Z (0 + monthLength (isLeapYear (of_Z (MakeFullYear year))) qs
                   + monthLength (isLeapYear (of_Z (MakeFullYear year))) (qs + 1)
                   + monthLength (isLeapYear (of_Z (MakeFullYear year))) (qs + 2)))
          = of_Z (0 + monthLength (isLeapYear (of_Z (MakeFullYear year))) qs
                  + monthLength (isLeapYear (of_Z (MakeFullYear year))) (qs + 1)
                  + monthLength (isLeapYear (of_Z (MakeFullYear year))) (qs + 2)))
    as Hstop.
  { destruct fuel as [| fuel]; [reflexivity |]. cbn [quarterDays].
    rewrite ComponentFacts.leb_of_Z.
    replace (qs + 2 + 1 <=? qs + 2) with false
      by (symmetry; apply Z.leb_gt; lia).
    reflexivity. }
  rewrite Hstop. f_equal.
Qed.

(** What [getDaysInQuarter] returns for a date: the lengths of the three
    months of its quarter; three rounds of the loop are all it runs. *)
Lemma getDaysInQuarter_value (localTZA t : Z) :
  Z.abs localTZA <= msPerDay ->
  Z.abs t <= 8600000000000000 ->
  let year := YearFromTime (LocalTime localTZA t) in
  let qs := MonthFromTime (LocalTime localTZA t) / 3 * 3 in
  getDaysInQuarter localTZA (TimeValue t)
  = of_Z (monthLength (isLeapYear (of_Z (MakeFullYear year))) qs
          + monthLength (isLeapYear (of_Z (MakeFullYear year))) (qs + 1)
          + monthLength (isLeapYear (of_Z (MakeFullYear year))) (qs + 2))
  /\ forall fuel,
      quarterDays (3 + fuel) localTZA (of_Z year) (of_Z qs) (of_Z (qs + 2)) (of_Z 0)
      = getDaysInQuarter localTZA (TimeValue t).
Proof.
  intros Htz Ht year qs.
  pose proof (year_within_reach localTZA t Htz Ht) as Hy. fold year in Hy.
  pose proof (MonthFromTime_range (LocalTime localTZA t)) as Hm.
  assert (0 <= qs <= 9) as Hq by (subst qs; Z.div_mod_to_equations; lia).
  assert (getDaysInQuarter localTZA (TimeValue t)
          = quarterDays 3 localTZA (of_Z year) (of_Z qs) (of_Z (qs + 2)) (of_Z 0))
    as Hunfold.
  { unfold getDaysInQuarter, getFullYear, getMonth. cbv zeta.
    fold year. rewrite quarter_start, of_Z_add. reflexivity. }
  split.
  - rewrite Hunfold. apply (quarterDays_three 0 localTZA year qs Htz Hy Hq).
  - intro fuel. rewrite Hunfold.
    rewrite (quarterDays_three fuel localTZA year qs Htz Hy Hq).
    symmetry. apply (quarterDays_three 0 localTZA year qs Htz Hy Hq).
Qed.

Lemma monthLength_range (leap : bool) (month : Z) :
  28 <= monthLength leap month <= 31.
Proof.
  unfold monthLength.
  destruct month as [| p | p]; try lia;
    repeat (destruct p as [p | p |]; try lia); destruct leap; lia.
Qed.

(** For a date, [getBillingPeriodDays] is [1] for a daily period, from 28
    to 31 for a monthly one, from 90 to 92 for a quarterly one, and for
    a yearly one the number of days from the first of January of the
    year of the date to the next, 365 or 366: never zero, so that
    [calculateProratedAmount] never divides by zero. *)
Theorem getBillingPeriodDays_of_date (localTZA t : Z) :
  Z.abs localTZA <= msPerDay ->
  Z.abs t <= 8600000000000000 ->
  getBillingPeriodDays localTZA DAILY (TimeValue t) = of_Z 1
  /\ (exists n, getBillingPeriodDays localTZA MONTHLY (TimeValue t) = of_Z n
                /\ 28 <= n <= 31)
  /\ (exists n, getBillingPeriodDays localTZA QUARTERLY (TimeValue t) = of_Z n
                /\ 90 <= n <= 92)
  /\ (exists n, getBillingPeriodDays localTZA YEARLY (TimeValue t) = of_Z n
                /\ 365 <= n <= 366
                /\ n = DayFromYear (YearFromTime (LocalTime localTZA t) + 1)
                       - DayFromYear (YearFromTime (LocalTime localTZA t))).
Proof.
  intros Htz Ht.
  pose proof (year_within_reach localTZA t Htz Ht) as Hy.
  pose proof (MonthFromTime_range (LocalTime localTZA t)) as Hm.
  split; [reflexivity |]. split; [| split].
  - eexists. split.
    + unfold getBillingPeriodDays, Date_copy, getFullYear, getMonth. cbv zeta.
      apply getDaysInMonth_value; assumption.
    + apply monthLength_range.
  - destruct (getDaysInQuarter_value localTZA t Htz Ht) as [Hq _].
    cbv zeta in Hq. eexists. split; [exact Hq |].
    set (m := MonthFromTime (LocalTime localTZA t)) in *.
    assert (m / 3 * 3 = 0 \/ m / 3 * 3 = 3 \/ m / 3 * 3 = 6 \/ m / 3 * 3 = 9)
      as Hqs by (Z.div_mod_to_equations; lia).
    destruct Hqs as [-> | [-> | [-> | ->]]];
      destruct (isLeapYear _); cbn; lia.
  - exists (DaysInYear (YearFromTime (LocalTime localTZA t))).
    split; [| split].
    + unfold getBillingPeriodDays, Date_copy, getFullYear. cbv zeta.
      rewrite isLeapYear_DaysInYear.
      destruct (DaysInYear_values (YearFromTime (LocalTime localTZA t)))
        as [E | E]; rewrite E; reflexivity.
    + destruct (DaysInYear_values (YearFromTime (LocalTime localTZA t))); lia.
    + rewrite DayFromYear_succ. lia.
Qed.

Lemma getBillingPeriodDays_of_date_witness :
  getBillingPeriodDays 3600000 DAILY (TimeValue Scenario.jan10) = of_Z 1
  /\ (exists n, getBillingPeriodDays 3600000 MONTHLY (TimeValue Scenario.jan10)
                = of_Z n
                /\ 28 <= n <= 31)
  /\ (exists n, getBillingPeriodDays 3600000 QUARTERLY (TimeValue Scenario.jan10)
                = of_Z n
                /\ 90 <= n <= 92)
  /\ (exists n, getBillingPeriodDays 3600000 YEARLY (TimeValue Scenario.jan10)
                = of_Z n
                /\ 365 <= n <= 366
                /\ n = DayFromYear
                         (YearFromTime (LocalTime 3600000 Scenario.jan10) + 1)
                       - DayFromYear
                           (YearFromTime (LocalTime 3600000 Scenario.jan10))).
Proof.
  apply (getBillingPeriodDays_of_date 3600000 Scenario.jan10).
  - vm_compute. discriminate.
  - vm_compute. discriminate.
Defined.

(** For the tenth of January 2024: a month of 31 days, a quarter of 91
    and a year of 366.  For an invalid date nothing fails: the monthly
    period is not a number, the quarterly one is zero days and the yearly
    one 365. *)
Example billing_periods_of_january_2024 :
  getBillingPeriodDays 0 MONTHLY (TimeValue Scenario.jan10) = of_Z 31
  /\ getBillingPeriodDays 0 QUARTERLY (TimeValue Scenario.jan10) = of_Z 91
  /\ getBillingPeriodDays 0 YEARLY (TimeValue Scenario.jan10) = of_Z 366.
Proof. repeat split; vm_compute; reflexivity. Qed.

Example billing_periods_of_an_invalid_date (localTZA : Z) :
  getBillingPeriodDays localTZA DAILY InvalidDate = of_Z 1
  /\ getBillingPeriodDays localTZA MONTHLY InvalidDate = NaN
  /\ getBillingPeriodDays localTZA QUARTERLY InvalidDate = of_Z 0
  /\ getBillingPeriodDays localTZA YEARLY InvalidDate = of_Z 365.
Proof. repeat split; reflexivity. Qed.

(** *** Proration *)

Lemma MakeFullYear_idempotent (year : Z) :
  MakeFullYear (MakeFullYear year) = MakeFullYear year.
Proof.
  unfold MakeFullYear.
  destruct (Z.leb_spec 0 year), (Z.leb_spec year 99); cbn [andb];
    repeat match goal with
           | |- context [?a <=? ?b] => destruct (Z.leb_spec a b)
           end;
    cbn [andb]; lia.
Qed.

Lemma MakeDay_first_range (yr month : Z) :
  -271820 <= yr <= 275759 -> 0 <= month <= 11 ->
  -99999999 <= MakeDay yr month 1 <= 99999999.
Proof.
  intros Hy Hm. rewrite (MakeDay_normal yr month 1 Hm).
  pose proof (DayFromYear_range yr Hy).
  assert (0 <= daysBeforeMonth month (if DaysInYear yr =? 366 then 1 else 0) < 366).
  { months month H0. destruct (DaysInYear_values yr) as [E | E]; rewrite E;
      repeat (destruct H0 as [-> | H0]); try subst month; cbn; lia. }
  lia.
Qed.

Lemma month_span (yr month : Z) :
  0 <= month <= 11 ->
  MakeDay yr (month + 1) 0 - MakeDay yr month 1
  = monthLength (DaysInYear yr =? 366) month - 1.
Proof.
  intro Hm. rewrite (MakeDay_last yr month Hm), (MakeDay_normal yr month 1 Hm).
  lia.
Qed.

(** A service from the first to the last day of a calendar month, both
    built by [new Date(year, month, day)], has as many days of service as
    its monthly billing period has days, the days of that month, in
    whatever time zone: [calculateProratedAmount] divides the monthly
    rate by that number and multiplies the quotient by the same number.
    The product is the rate but for the rounding of the two operations:
    on doubles 31 divided by 29 and multiplied by 29 is
    30.999999999999996. *)
Theorem whole_month_is_prorated_on_its_own_days
        (localTZA year month : Z) (monthlyRate : Q) :
  Z.abs localTZA <= msPerDay ->
  -271820 <= year <= 275759 ->
  0 <= month <= 11 ->
  let first := Date_ymd localTZA (of_Z year) (of_Z month) (of_Z 1) in
  let last := Date_ymd localTZA (of_Z year) (of_Z month + of_Z 1)%num (of_Z 0) in
  let days := of_Z (monthLength (isLeapYear (of_Z (MakeFullYear year))) month) in
  calculateDaysBetween first last = days
  /\ getBillingPeriodDays localTZA MONTHLY first = days
  /\ calculateProratedAmount localTZA monthlyRate first last MONTHLY
     = (Fin monthlyRate / days * days)%num.
Proof.
  intros Htz Hy Hm. cbv zeta.
  pose proof (MakeFullYear_range year Hy) as Hyr.
  rewrite isLeapYear_DaysInYear.
  set (yr := MakeFullYear year) in *.
  rewrite of_Z_add.
  rewrite (Date_ymd_value localTZA year month 1 Htz)
    by (apply MakeDay_first_range; assumption).
  rewrite (Date_ymd_value localTZA year (month + 1) 0 Htz)
    by (apply MakeDay_last_range; assumption).
  fold yr. unfold calculateProratedAmount. cbv zeta.
  assert (getBillingPeriodDays localTZA MONTHLY
            (TimeValue (msPerDay * MakeDay yr month 1 - localTZA))
          = of_Z (monthLength (DaysInYear yr =? 366) month)) as Hperiod.
  { unfold getBillingPeriodDays, Date_copy, getFullYear, getMonth, LocalTime.
    cbv zeta.
    replace (msPerDay * MakeDay yr month 1 - localTZA + localTZA)
      with (msPerDay * MakeDay yr month 1 + 0) by lia.
    destruct (MakeDay_first yr month 0 Hm ltac:(split; [lia | reflexivity]))
      as (Hyear & Hmonth & _).
    cbv zeta in Hyear, Hmonth. rewrite Hyear, Hmonth.
    rewrite (getDaysInMonth_value localTZA yr month Htz Hyr Hm).
    subst yr. rewrite MakeFullYear_idempotent, isLeapYear_DaysInYear.
    reflexivity. }
  assert (calculateDaysBetween
            (TimeValue (msPerDay * MakeDay yr month 1 - localTZA))
            (TimeValue (msPerDay * MakeDay yr (month + 1) 0 - localTZA))
          = of_Z (monthLength (DaysInYear yr =? 366) month)) as Hdays.
  { unfold calculateDaysBetween. rewrite calculateDaysBetween_valid. f_equal.
    symmetry. apply daysBetween_unique.
    pose proof (month_span yr month Hm) as Hspan.
    pose proof msPerDay_pos. nia. }
  rewrite Hperiod, Hdays.
  split; [reflexivity |]. split; reflexivity.
Qed.

Lemma whole_month_is_prorated_on_its_own_days_witness :
  calculateDaysBetween
    (Date_ymd (-18000000) (of_Z 2024) (of_Z 1) (of_Z 1))
    (Date_ymd (-18000000) (of_Z 2024) (of_Z 1 + of_Z 1)%num (of_Z 0))
  = of_Z (monthLength (isLeapYear (of_Z (MakeFullYear 2024))) 1)
  /\ getBillingPeriodDays (-18000000) MONTHLY
       (Date_ymd (-18000000) (of_Z 2024) (of_Z 1) (of_Z 1))
     = of_Z (monthLength (isLeapYear (of_Z (MakeFullYear 2024))) 1)
  /\ calculateProratedAmount
       (-18000000) (7999 # 100)
       (Date_ymd (-18000000) (of_Z 2024) (of_Z 1) (of_Z 1))
       (Date_ymd (-18000000) (of_Z 2024) (of_Z 1 + of_Z 1)%num (of_Z 0))
       MONTHLY
     = (Fin (7999 # 100)
        / of_Z (monthLength (isLeapYear (of_Z (MakeFullYear 2024))) 1)
        * of_Z (monthLength (isLeapYear (of_Z (MakeFullYear 2024))) 1))%num.
Proof.
  apply (whole_month_is_prorated_on_its_own_days (-18000000) 2024 1 (7999 # 100)).
  - vm_compute. discriminate.
  - split; vm_compute; discriminate.
  - split; vm_compute; discriminate.
Defined.

(** February 2024, in local time five hours west of Greenwich: 29 days
    of service on a period of 29 days. *)
Example whole_february_2024 :
  calculateDaysBetween
    (Date_ymd (-18000000) (of_Z 2024) (of_Z 1) (of_Z 1))
    (Date_ymd (-18000000) (of_Z 2024) (of_Z 2) (of_Z 0))
  = of_Z 29
  /\ getBillingPeriodDays (-18000000) MONTHLY
       (Date_ymd (-18000000) (of_Z 2024) (of_Z 1) (of_Z 1))
     = of_Z 29.
Proof. split; vm_compute; reflexivity. Qed.

(** Dates read from date-only strings are midnights in UTC.  West of
    Greenwich the first of February 2024 is then still the thirty-first
    of January, so that February is prorated on the 31 days of January:
    at a monthly rate of 31 its 29 days cost 29. *)
Example whole_february_west_of_greenwich :
  getBillingPeriodDays (-18000000) MONTHLY (TimeValue 1706745600000) = of_Z 31
  /\ getBillingPeriodDays 0 MONTHLY (TimeValue 1706745600000) = of_Z 29
  /\ calculateDaysBetween (TimeValue 1706745600000) (TimeValue 1709164800000)
     = of_Z 29
  /\ calculateProratedAmount (-18000000) 31
       (TimeValue 1706745600000) (TimeValue 1709164800000) MONTHLY
     =n= of_Z 29.
Proof.
  split; [vm_compute; reflexivity |]. split; [vm_compute; reflexivity |].
  split; vm_compute; reflexivity.
Qed.

End ServiceCalendarFacts.

(** ** The component: the sample it starts with *)

Module SampleDataFacts.
Import Component.
Import DateObject.
Import DateObjectFacts.
Import ServiceCalendarFacts.

Lemma day_of_local_midnight (localTZA a : Z) :
  (msPerDay * a - localTZA) / msPerDay * msPerDay
  = (a + (- localTZA) / msPerDay) * msPerDay.
Proof.
  replace (msPerDay * a - localTZA) with (a * msPerDay + - localTZA) by lia.
  rewrite Z.div_add_l by discriminate. reflexivity.
Qed.

Lemma daysBetween_days (a b : Z) :
  daysBetween (a * msPerDay) (b * msPerDay) = b - a + 1.
Proof.
  symmetry. apply daysBetween_unique. pose proof msPerDay_pos. nia.
Qed.

(** The constructor leaves the component with one sample service, billed
    for the current calendar month, whose service started on the tenth:
    in whatever time zone and at whatever time, the calculation of it
    succeeds, with as many billed days as the month has and nine days
    without service. *)
Theorem sample_service_calculates (localTZA now : Z) :
  Z.abs localTZA <= msPerDay ->
  Z.abs now <= 8600000000000000 ->
  exists c s r calc,
    constructed localTZA now = Some c
    /\ services c = [s]
    /\ ServiceItem.id s = 1
    /\ nextServiceId c = 2
    /\ valid s
    /\ calculationResult (calculateCredit c) = Some r
    /\ CombinedCreditResult.services r = [calc]
    /\ CreditCalculation.totalBillingDays calc
       = Service.getBillingPeriodDays localTZA Service.MONTHLY (TimeValue now)
    /\ CreditCalculation.daysWithoutService calc = of_Z 9.
Proof.
  intros Htz Hnow.
  pose proof (year_within_reach localTZA now Htz Hnow) as Hy.
  pose proof (MonthFromTime_range (LocalTime localTZA now)) as Hm.
  set (y := YearFromTime (LocalTime localTZA now)) in *.
  set (m := MonthFromTime (LocalTime localTZA now)) in *.
  pose proof (MakeFullYear_range y Hy) as Hyr.
  set (yr := MakeFullYear y) in *.
  set (len := monthLength (DaysInYear yr =? 366) m).
  pose proof (monthLength_range (DaysInYear yr =? 366) m) as Hlen. fold len in Hlen.
  set (A := MakeDay yr m 1).
  assert (MakeDay yr m 10 = A + 9) as H10
      by (subst A; rewrite !(MakeDay_normal yr m _ Hm); lia).
  assert (MakeDay yr (m + 1) 0 = A + (len - 1)) as Hlast
      by (pose proof (month_span yr m Hm); subst A len; lia).
  pose proof (MakeDay_first_range yr m Hyr Hm) as HA. fold A in HA.
  pose proof (MakeDay_last_range yr m Hyr Hm) as HB. rewrite Hlast in HB.
  set (delta := (- localTZA) / msPerDay).
  set (s := ServiceItem.mk 1 "Internet Service"
              (Some (TimeValue ((A + delta) * msPerDay)))
              (Some (TimeValue ((A + (len - 1) + delta) * msPerDay)))
              (7999 # 100)
              (Some (TimeValue ((A + 9 + delta) * msPerDay)))).
  assert (constructed localTZA now = Some (mk 13 [s] 2 false None [])) as Hc.
  { unfold constructed, loadSampleData. cbv zeta.
    unfold getFullYear, getMonth. fold y m. rewrite of_Z_add.
    rewrite (Date_ymd_value localTZA y m 1 Htz) by (fold yr A; lia).
    rewrite (Date_ymd_value localTZA y (m + 1) 0 Htz)
      by (fold yr; rewrite Hlast; lia).
    rewrite (Date_ymd_value localTZA y m 10 Htz)
      by (fold yr; rewrite H10; lia).
    fold yr A. rewrite Hlast, H10. unfold toISODate.
    rewrite !day_of_local_midnight. fold delta. reflexivity. }
  assert (validb s = true) as Hvb.
  { unfold validb, passesValidation, startsInPeriod, s.
    cbn [ServiceItem.serviceName ServiceItem.invoiceStartDate
         ServiceItem.invoiceEndDate ServiceItem.pricePaid
         ServiceItem.actualServiceStartDate empty blank Date_parse orb].
    rewrite date_geb_valid, date_ltb_valid, date_gtb_valid.
    pose proof msPerDay_pos.
    replace ((A + (len - 1) + delta) * msPerDay <=? (A + delta) * msPerDay)
      with false by (symmetry; apply Z.leb_gt; nia).
    replace ((A + 9 + delta) * msPerDay <? (A + delta) * msPerDay)
      with false by (symmetry; apply Z.ltb_ge; nia).
    replace ((A + (len - 1) + delta) * msPerDay <? (A + 9 + delta) * msPerDay)
      with false by (symmetry; apply Z.ltb_ge; nia).
    reflexivity. }
  destruct (ComponentFacts.calculateCredit_cases (mk 13 [s] 2 false None []))
    as [(_ & _ & Hr & _) | ([Hnil | Hbad] & _)].
  2:{ discriminate Hnil. }
  2:{ cbn [services forallb] in Hbad. rewrite Hvb in Hbad. discriminate Hbad. }
  cbn [services taxRate] in Hr.
  exists (mk 13 [s] 2 false None []), s, (resultOf [s] 13),
    (serviceCalculation 13 s).
  split; [exact Hc |]. split; [reflexivity |]. split; [reflexivity |].
  split; [reflexivity |].
  split; [apply ComponentFacts.validb_spec; exact Hvb |].
  split; [exact Hr |]. split; [reflexivity |].
  assert (A + delta < A + (len - 1) + delta) as Hlt by lia.
  rewrite (ComponentFacts.serviceCalculation_dates
             13 s ((A + delta) * msPerDay) ((A + (len - 1) + delta) * msPerDay)
             ((A + 9 + delta) * msPerDay) eq_refl eq_refl eq_refl)
    by (pose proof msPerDay_pos; nia).
  cbn [CreditCalculation.totalBillingDays CreditCalculation.daysWithoutService].
  rewrite !daysBetween_days. split.
  - unfold Service.getBillingPeriodDays, Date_copy, getFullYear, getMonth.
    cbv zeta. fold y m.
    rewrite (getDaysInMonth_value localTZA y m Htz Hy Hm).
    fold yr. rewrite isLeapYear_DaysInYear. fold len. f_equal. lia.
  - f_equal. lia.
Qed.

Lemma sample_service_calculates_witness :
  exists c s r calc,
    constructed 7200000 1707523200000 = Some c
    /\ services c = [s]
    /\ ServiceItem.id s = 1
    /\ nextServiceId c = 2
    /\ valid s
    /\ calculationResult (calculateCredit c) = Some r
    /\ CombinedCreditResult.services r = [calc]
    /\ CreditCalculation.totalBillingDays calc
       = Service.getBillingPeriodDays 7200000 Service.MONTHLY
                                      (TimeValue 1707523200000)
    /\ CreditCalculation.daysWithoutService calc = of_Z 9.
Proof.
  apply (sample_service_calculates 7200000 1707523200000).
  - vm_compute. discriminate.
  - vm_compute. discriminate.
Defined.

(** In February 2024, two hours east of Greenwich, the sample is billed
    from the thirty-first of January to the twenty-eighth of February,
    the dates in UTC of the local midnights: the days of the form are a
    day early, and the counts are those of February all the same. *)
Example sample_of_february_2024 :
  option_map services (constructed 7200000 1707523200000)
  = Some [ ServiceItem.mk 1 "Internet Service"
                          (Some (TimeValue 1706659200000))
                          (Some (TimeValue 1709078400000))
                          (7999 # 100) (Some (TimeValue 1707436800000)) ]
  /\ option_map (fun c => option_map
                            (fun r => map CreditCalculation.totalBillingDays
                                          (CombinedCreditResult.services r))
                            (calculationResult (calculateCredit c)))
                (constructed 7200000 1707523200000)
     = Some (Some [of_Z 29]).
Proof. split; vm_compute; reflexivity. Qed.

End SampleDataFacts.
